(** * Solar inverter firmware: module controller and master controller

    A shallow embedding of the two Arduino sketches of the repository,

    - [src/inverter_module_2.ino], the firmware of one inverter module
      (module [Inverter] below), and
    - the master controller sketch (module [Master] below),

    together with the properties of the control core, the command handler,
    the master's parser and its safety and recovery heuristics.

    Integers are [Z] with the wrap-around of the AVR types written out
    ([int] and [unsigned int] are 16 bits wide, [long] 32 bits).  A [float]
    (and a [double], which avr-gcc makes the same type) is an IEEE binary32
    value, a [spec_float] used with precision 24 and maximal exponent 128.
    Bytes on the serial line are [ascii], C strings are [list ascii]. *)

From Stdlib Require Import ZArith List String Ascii Lia Bool.
From Stdlib Require Import SpecFloat DecimalString.
From stdpp Require Import base list.
Import ListNotations.
Open Scope Z_scope.

(** ** Machine integers *)

Definition wrap8 (z : Z) : Z := z mod 256.
Definition wrap16 (z : Z) : Z := z mod 65536.
Definition wrap32 (z : Z) : Z := z mod 4294967296.

(** A 16-bit two's complement [int]. *)
Definition int16 (z : Z) : Z := (z + 32768) mod 65536 - 32768.

(** ** binary32 floating point *)

Definition float : Type := spec_float.

Definition prec : Z := 24.
Definition emax : Z := 128.

(** Conversion of an integer to [float]. *)
Definition f32 (z : Z) : float := binary_normalize prec emax z 0 false.

Definition fmul : float -> float -> float := SFmul prec emax.
Definition fdiv : float -> float -> float := SFdiv prec emax.
Definition fsub : float -> float -> float := SFsub prec emax.

(** [a < b] and [a > b]; both are [false] when an operand is not a number. *)
Definition flt (a b : float) : bool := SFltb a b.
Definition fgt (a b : float) : bool := SFltb b a.

(** The literal [n/d] of the source, for instance [0.47] as [f32_lit 47 100]:
    the correctly rounded quotient of two exactly represented integers. *)
Definition f32_lit (n d : Z) : float := fdiv (f32 n) (f32 d).

(** ** Characters, C strings and the C library *)

Definition NUL : ascii := ascii_of_nat 0.
Definition CR : ascii := ascii_of_nat 13.
Definition LF : ascii := ascii_of_nat 10.

Definition str (s : string) : list ascii := list_ascii_of_string s.

Definition code (c : ascii) : Z := Z.of_N (N_of_ascii c).

(** [isspace] in the C locale: space, and the controls from tab to CR. *)
Definition isspace (c : ascii) : bool :=
  (code c =? 32) || ((9 <=? code c) && (code c <=? 13)).

Definition isdigit (c : ascii) : bool := (48 <=? code c) && (code c <=? 57).

(** The string that starts at a pointer into a buffer: the characters
    before the first NUL. *)
Fixpoint c_str (p : list ascii) : list ascii :=
  match p with
  | [] => []
  | c :: p' => if Ascii.eqb c NUL then [] else c :: c_str p'
  end.

Definition strlen (p : list ascii) : Z := Z.of_nat (length (c_str p)).

Fixpoint skip_space (p : list ascii) : list ascii :=
  match p with
  | c :: p' => if isspace c then skip_space p' else p
  | [] => []
  end.

Fixpoint atoi_digits (acc : Z) (p : list ascii) : Z :=
  match p with
  | c :: p' =>
      if isdigit c then atoi_digits (int16 (acc * 10 + (code c - 48))) p'
      else acc
  | [] => acc
  end.

(** [atoi] of avr-libc: white space, an optional sign, then decimal digits
    accumulated in a 16-bit [int] (a value that does not fit wraps around);
    the conversion stops at the first other character, NUL included. *)
Definition atoi (p : list ascii) : Z :=
  match skip_space p with
  | c :: p' =>
      if Ascii.eqb c "-" then int16 (- atoi_digits 0 p')
      else if Ascii.eqb c "+" then atoi_digits 0 p'
      else atoi_digits 0 (c :: p')
  | [] => 0
  end.

(** [Print::print] of an integer: its decimal digits, with a sign when
    negative; [println] appends CR LF. *)
Definition print_int (z : Z) : list ascii :=
  str (NilZero.string_of_int (Z.to_int z)).

Definition println (s : list ascii) : list ascii := s ++ [CR; LF].

(** * The 50 Hz drive: [ISR(TIMER2_OVF_vect)], the same in both sketches *)

Module Mains.

Definition MAINS_SEQUENCE_LENGTH : Z := 30.

(** The waveform tables as the sketches initialise them. *)
Definition mains_pos0 : list Z :=
  [1;1;1;1;1;1;1;1;0;0;0;0;0;0;0;0;0;0;0;0;0;0;0;0;0;0;0;0;0;0].
Definition mains_neg0 : list Z :=
  [0;0;0;0;0;0;0;0;0;0;0;0;0;0;0;1;1;1;1;1;1;1;1;0;0;0;0;0;0;0].

(** The counter of the interrupt routine and the two lines it drives. *)
Record drive : Type := Build_drive {
  mains_counter : Z;   (* volatile uint8_t mains_counter *)
  sys_via : bool;      (* pin SYS_VIA *)
  sys_vib : bool       (* pin SYS_VIB *)
}.

(** The level [digitalWrite] sets for a value: low for 0, high
    otherwise. *)
Definition level (x : Z) : bool := negb (x =? 0).

(** [table[mains_counter]]. *)
Definition entry (table : list Z) (d : drive) : Z :=
  nth (Z.to_nat (mains_counter d)) table 0.

(** One run of the interrupt routine, on the tables as they are. *)
Definition timer2_ovf (pos neg : list Z) (d : drive) : drive :=
  let c := wrap8 (mains_counter d + 1) in
  {| mains_counter := if c =? MAINS_SEQUENCE_LENGTH then 0 else c;
     sys_via := level (entry pos d);
     sys_vib := level (entry neg d) |}.

(** [n] runs in a row. *)
Fixpoint interrupts (n : nat) (pos neg : list Z) (d : drive) : drive :=
  match n with
  | O => d
  | S n' => interrupts n' pos neg (timer2_ovf pos neg d)
  end.

(** After [setup]: counter 0, both lines low. *)
Definition drive0 : drive := Build_drive 0 false false.


End Mains.

(** * The fan tachometer: [fan_speed] of the module *)

Module Fan.

(** One of the three [for] loops of [fan_speed]: [i] counts up to
    [max_loops], one reading of FAN_PULSE per turn, until a reading
    satisfies [stop].  [left] is the number of turns that remain, [k] the
    number of readings taken so far; the result is the final [i] and
    [k]. *)
Fixpoint wait_edge (pin : nat -> bool) (stop : bool -> bool) (left : nat)
    (i : Z) (k : nat) : Z * nat :=
  match left with
  | O => (i, k)
  | S left' =>
      if stop (pin k) then (i, S k)
      else wait_edge pin stop left' (i + 1) (S k)
  end.

(** [fan_speed], on the successive readings [pin 0], [pin 1], ... of
    FAN_PULSE: 0 when an edge is missing, else 300000 over the length of
    one period, in an [unsigned int]. *)
Definition fan_speed (pin : nat -> bool) : Z :=
  let max_loops := 200 in
  let v := pin 0%nat in
  let '(i, k) :=
    wait_edge pin (fun x => negb (Bool.eqb x v)) 200 0 1 in
  if i >=? max_loops then 0
  else
    let v := pin k in
    let '(i, k) :=
      wait_edge pin (fun x => negb (Bool.eqb x v)) 199 1 (S k) in
    if i >=? max_loops then 0
    else
      let '(j, k) := wait_edge pin (fun x => Bool.eqb x v) 199 1 k in
      if j >=? max_loops then 0
      else wrap16 (300000 / (i + j)).

(** Readings to run examples with: an edge every 25 readings. *)
Definition sample_pulse (n : nat) : bool := Nat.even (n / 25).

End Fan.

(** * The inverter module: [src/inverter_module_2.ino] *)

Module Inverter.

Definition EEPROM_ADDRESS_MAX_POWER : Z := 0.
Definition EEPROM_ADDRESS_HALTED : Z := 1.

Definition MAX_POWER : Z := 425.
Definition MIN_MAX_POWER : Z := 50.

Definition VREF : float := f32 5.
Definition R1 : Z := 100000.
Definition R2 : Z := 6800.

Definition TOP : Z := 325.
Definition LINE_LENGTH : nat := 10.

Definition ERROR_NONE : Z := 0.
Definition ERROR_UNDER_TEMP : Z := 1.
Definition ERROR_OVER_TEMP : Z := 2.
Definition ERROR_UNDER_CURRENT : Z := 3.
Definition ERROR_OVER_CURRENT : Z := 4.
Definition ERROR_CAP_VOLTAGE_LOW : Z := 5.
Definition ERROR_CAP_VOLTAGE_HIGH : Z := 6.

Definition MIN_TEMPERATURE : float := f32 (-30).
Definition MAX_TEMPERATURE : float := f32 85.
Definition FAN_ON_TEMP : float := f32 40.
Definition FAN_OFF_TEMP : float := f32 35.

(** [enum {S0 = 0, S1, S2, S3, S4, S5}]: start, wait for voltage, boost,
    track, fault, halt. *)
Inductive fsm : Type := S0 | S1 | S2 | S3 | S4 | S5.

Definition fsm_code (s : fsm) : Z :=
  match s with S0 => 0 | S1 => 1 | S2 => 2 | S3 => 3 | S4 => 4 | S5 => 5 end.

Definition fsm_eqb (a b : fsm) : bool :=
  match a, b with
  | S0, S0 | S1, S1 | S2, S2 | S3, S3 | S4, S4 | S5, S5 => true
  | _, _ => false
  end.

(** The globals of the sketch, the [static] locals of [loop], and the part
    of the hardware the sketch drives. *)
Record inverter : Type := Build_inverter {
  id : Z; (* uint8_t id *)
  pwm : Z; (* volatile uint16_t pwm *)
  state : fsm; (* uint8_t state *)
  cli : list ascii; (* char cli[LINE_LENGTH] *)
  cli_pos : nat; (* uint8_t cli_pos *)
  timeout_pause : Z; (* unsigned long timeout_pause *)
  timeout_temp : Z; (* unsigned long timeout_temp *)
  flag_over : bool; (* volatile bool flag_over *)
  error_code : Z; (* int error_code *)
  max_power : Z; (* uint16_t max_power *)
  last_power : float; (* static float last_power (loop) *)
  direction : Z; (* static int direction (loop) *)
  temperature : float; (* static float temperature (loop) *)
  OCR1B : Z; (* timer 1 compare register *)
  sys_enable : bool; (* pin SYS_ENABLE *)
  sys_output : bool; (* pin SYS_OUTPUT *)
  sys_fault : bool; (* pin SYS_FAULT, active low *)
  fan_drive : bool; (* pin FAN_DRIVE *)
  eeprom : Z -> Z; (* EEPROM cells by address *)
  eeprom_writes : list (Z * Z); (* EEPROM.write calls, latest first *)
  serial_out : list ascii; (* bytes written to Serial, in order *)
  ticks : nat (* number of millis()/fan_speed() calls so far *)
}.

Definition set_pwm (x : Z) (m : inverter) : inverter :=
  Build_inverter (id m) x (state m) (cli m) (cli_pos m) (timeout_pause m)
    (timeout_temp m) (flag_over m) (error_code m) (max_power m) (last_power m)
    (direction m) (temperature m) (OCR1B m) (sys_enable m) (sys_output m)
    (sys_fault m) (fan_drive m) (eeprom m) (eeprom_writes m) (serial_out m)
    (ticks m).
Definition set_state (x : fsm) (m : inverter) : inverter :=
  Build_inverter (id m) (pwm m) x (cli m) (cli_pos m) (timeout_pause m)
    (timeout_temp m) (flag_over m) (error_code m) (max_power m) (last_power m)
    (direction m) (temperature m) (OCR1B m) (sys_enable m) (sys_output m)
    (sys_fault m) (fan_drive m) (eeprom m) (eeprom_writes m) (serial_out m)
    (ticks m).
Definition set_cli (x : list ascii) (m : inverter) : inverter :=
  Build_inverter (id m) (pwm m) (state m) x (cli_pos m) (timeout_pause m)
    (timeout_temp m) (flag_over m) (error_code m) (max_power m) (last_power m)
    (direction m) (temperature m) (OCR1B m) (sys_enable m) (sys_output m)
    (sys_fault m) (fan_drive m) (eeprom m) (eeprom_writes m) (serial_out m)
    (ticks m).
Definition set_cli_pos (x : nat) (m : inverter) : inverter :=
  Build_inverter (id m) (pwm m) (state m) (cli m) x (timeout_pause m)
    (timeout_temp m) (flag_over m) (error_code m) (max_power m) (last_power m)
    (direction m) (temperature m) (OCR1B m) (sys_enable m) (sys_output m)
    (sys_fault m) (fan_drive m) (eeprom m) (eeprom_writes m) (serial_out m)
    (ticks m).
Definition set_timeout_pause (x : Z) (m : inverter) : inverter :=
  Build_inverter (id m) (pwm m) (state m) (cli m) (cli_pos m) x (timeout_temp
    m) (flag_over m) (error_code m) (max_power m) (last_power m) (direction m)
    (temperature m) (OCR1B m) (sys_enable m) (sys_output m) (sys_fault m)
    (fan_drive m) (eeprom m) (eeprom_writes m) (serial_out m) (ticks m).
Definition set_timeout_temp (x : Z) (m : inverter) : inverter :=
  Build_inverter (id m) (pwm m) (state m) (cli m) (cli_pos m) (timeout_pause
    m) x (flag_over m) (error_code m) (max_power m) (last_power m) (direction
    m) (temperature m) (OCR1B m) (sys_enable m) (sys_output m) (sys_fault m)
    (fan_drive m) (eeprom m) (eeprom_writes m) (serial_out m) (ticks m).
Definition set_flag_over (x : bool) (m : inverter) : inverter :=
  Build_inverter (id m) (pwm m) (state m) (cli m) (cli_pos m) (timeout_pause
    m) (timeout_temp m) x (error_code m) (max_power m) (last_power m)
    (direction m) (temperature m) (OCR1B m) (sys_enable m) (sys_output m)
    (sys_fault m) (fan_drive m) (eeprom m) (eeprom_writes m) (serial_out m)
    (ticks m).
Definition set_error_code (x : Z) (m : inverter) : inverter :=
  Build_inverter (id m) (pwm m) (state m) (cli m) (cli_pos m) (timeout_pause
    m) (timeout_temp m) (flag_over m) x (max_power m) (last_power m)
    (direction m) (temperature m) (OCR1B m) (sys_enable m) (sys_output m)
    (sys_fault m) (fan_drive m) (eeprom m) (eeprom_writes m) (serial_out m)
    (ticks m).
Definition set_max_power (x : Z) (m : inverter) : inverter :=
  Build_inverter (id m) (pwm m) (state m) (cli m) (cli_pos m) (timeout_pause
    m) (timeout_temp m) (flag_over m) (error_code m) x (last_power m)
    (direction m) (temperature m) (OCR1B m) (sys_enable m) (sys_output m)
    (sys_fault m) (fan_drive m) (eeprom m) (eeprom_writes m) (serial_out m)
    (ticks m).
Definition set_last_power (x : float) (m : inverter) : inverter :=
  Build_inverter (id m) (pwm m) (state m) (cli m) (cli_pos m) (timeout_pause
    m) (timeout_temp m) (flag_over m) (error_code m) (max_power m) x
    (direction m) (temperature m) (OCR1B m) (sys_enable m) (sys_output m)
    (sys_fault m) (fan_drive m) (eeprom m) (eeprom_writes m) (serial_out m)
    (ticks m).
Definition set_direction (x : Z) (m : inverter) : inverter :=
  Build_inverter (id m) (pwm m) (state m) (cli m) (cli_pos m) (timeout_pause
    m) (timeout_temp m) (flag_over m) (error_code m) (max_power m) (last_power
    m) x (temperature m) (OCR1B m) (sys_enable m) (sys_output m) (sys_fault m)
    (fan_drive m) (eeprom m) (eeprom_writes m) (serial_out m) (ticks m).
Definition set_temperature (x : float) (m : inverter) : inverter :=
  Build_inverter (id m) (pwm m) (state m) (cli m) (cli_pos m) (timeout_pause
    m) (timeout_temp m) (flag_over m) (error_code m) (max_power m) (last_power
    m) (direction m) x (OCR1B m) (sys_enable m) (sys_output m) (sys_fault m)
    (fan_drive m) (eeprom m) (eeprom_writes m) (serial_out m) (ticks m).
Definition set_OCR1B (x : Z) (m : inverter) : inverter :=
  Build_inverter (id m) (pwm m) (state m) (cli m) (cli_pos m) (timeout_pause
    m) (timeout_temp m) (flag_over m) (error_code m) (max_power m) (last_power
    m) (direction m) (temperature m) x (sys_enable m) (sys_output m)
    (sys_fault m) (fan_drive m) (eeprom m) (eeprom_writes m) (serial_out m)
    (ticks m).
Definition set_sys_enable (x : bool) (m : inverter) : inverter :=
  Build_inverter (id m) (pwm m) (state m) (cli m) (cli_pos m) (timeout_pause
    m) (timeout_temp m) (flag_over m) (error_code m) (max_power m) (last_power
    m) (direction m) (temperature m) (OCR1B m) x (sys_output m) (sys_fault m)
    (fan_drive m) (eeprom m) (eeprom_writes m) (serial_out m) (ticks m).
Definition set_sys_output (x : bool) (m : inverter) : inverter :=
  Build_inverter (id m) (pwm m) (state m) (cli m) (cli_pos m) (timeout_pause
    m) (timeout_temp m) (flag_over m) (error_code m) (max_power m) (last_power
    m) (direction m) (temperature m) (OCR1B m) (sys_enable m) x (sys_fault m)
    (fan_drive m) (eeprom m) (eeprom_writes m) (serial_out m) (ticks m).
Definition set_sys_fault (x : bool) (m : inverter) : inverter :=
  Build_inverter (id m) (pwm m) (state m) (cli m) (cli_pos m) (timeout_pause
    m) (timeout_temp m) (flag_over m) (error_code m) (max_power m) (last_power
    m) (direction m) (temperature m) (OCR1B m) (sys_enable m) (sys_output m) x
    (fan_drive m) (eeprom m) (eeprom_writes m) (serial_out m) (ticks m).
Definition set_fan_drive (x : bool) (m : inverter) : inverter :=
  Build_inverter (id m) (pwm m) (state m) (cli m) (cli_pos m) (timeout_pause
    m) (timeout_temp m) (flag_over m) (error_code m) (max_power m) (last_power
    m) (direction m) (temperature m) (OCR1B m) (sys_enable m) (sys_output m)
    (sys_fault m) x (eeprom m) (eeprom_writes m) (serial_out m) (ticks m).
Definition set_eeprom (x : Z -> Z) (m : inverter) : inverter :=
  Build_inverter (id m) (pwm m) (state m) (cli m) (cli_pos m) (timeout_pause
    m) (timeout_temp m) (flag_over m) (error_code m) (max_power m) (last_power
    m) (direction m) (temperature m) (OCR1B m) (sys_enable m) (sys_output m)
    (sys_fault m) (fan_drive m) x (eeprom_writes m) (serial_out m) (ticks m).
Definition set_eeprom_writes (x : list (Z * Z)) (m : inverter) : inverter :=
  Build_inverter (id m) (pwm m) (state m) (cli m) (cli_pos m) (timeout_pause
    m) (timeout_temp m) (flag_over m) (error_code m) (max_power m) (last_power
    m) (direction m) (temperature m) (OCR1B m) (sys_enable m) (sys_output m)
    (sys_fault m) (fan_drive m) (eeprom m) x (serial_out m) (ticks m).
Definition set_serial_out (x : list ascii) (m : inverter) : inverter :=
  Build_inverter (id m) (pwm m) (state m) (cli m) (cli_pos m) (timeout_pause
    m) (timeout_temp m) (flag_over m) (error_code m) (max_power m) (last_power
    m) (direction m) (temperature m) (OCR1B m) (sys_enable m) (sys_output m)
    (sys_fault m) (fan_drive m) (eeprom m) (eeprom_writes m) x (ticks m).
Definition set_ticks (x : nat) (m : inverter) : inverter :=
  Build_inverter (id m) (pwm m) (state m) (cli m) (cli_pos m) (timeout_pause
    m) (timeout_temp m) (flag_over m) (error_code m) (max_power m) (last_power
    m) (direction m) (temperature m) (OCR1B m) (sys_enable m) (sys_output m)
    (sys_fault m) (fan_drive m) (eeprom m) (eeprom_writes m) (serial_out m) x.

(** What one pass of [loop] reads from the outside. *)
Record inputs : Type := Build_inputs {
  rx : list ascii;          (* bytes Serial.read() delivers in this pass *)
  over_edge : bool;         (* SYS_OVER fell since the last pass: over_int ran *)
  voltage_sample : Z;       (* analogRead(SENSE_VOLTAGE) *)
  current_adc : nat -> Z;   (* the ten analogRead(SENSE_CURRENT) *)
  cap_sample : Z;           (* analogRead(SENSE_CAP) *)
  temp_celsius : float      (* temp_sensor.getTempCByIndex(0) *)
}.

(** The locals [voltage], [current], [power] and [cap_voltage] of [loop]. *)
Record readings : Type := Build_readings {
  voltage : float;
  current : float;
  power : float;
  cap_voltage : float
}.

Definition read_sensors (inp : inputs) : readings :=
  let voltage :=
    fdiv (fmul (fmul (fdiv (f32 (voltage_sample inp)) (f32 1024)) VREF)
               (f32 (R1 + R2)))
         (f32 R2) in
  let sample_tot :=
    fold_left (fun tot i => wrap16 (tot + current_adc inp i)) (seq 0 10) 0 in
  let current_sample := sample_tot / 10 in
  let current := fmul (fdiv (f32 current_sample) (f32 1024)) VREF in
  let current := fsub current (f32_lit 47 100) in
  let current := fmul current (f32_lit 269 100) in
  Build_readings voltage current (fmul voltage current)
                 (f32 (cap_sample inp)).

Definition Serial_print (s : list ascii) (m : inverter) : inverter :=
  set_serial_out (serial_out m ++ s) m.

(** A cell holds a byte. *)
Definition EEPROM_read (a : Z) (m : inverter) : Z := wrap8 (eeprom m a).

Definition EEPROM_write (a v : Z) (m : inverter) : inverter :=
  set_eeprom_writes ((a, wrap8 v) :: eeprom_writes m)
    (set_eeprom (fun x => if x =? a then wrap8 v else eeprom m x) m).

(** [OCR1B = 0; delay(1); digitalWrite(SYS_ENABLE, 0);
    digitalWrite(SYS_OUTPUT, 0);] of the halt and reset commands. *)
Definition dump_energy (m : inverter) : inverter :=
  set_sys_output false (set_sys_enable false (set_OCR1B 0 m)).

(** The four lines every interlock starts with, and its error code. *)
Definition fault (e : Z) (m : inverter) : inverter :=
  set_error_code e
    (set_pwm 0 (set_state S4 (set_sys_output false (set_sys_enable false m)))).

Section Environment.

(** [Print::print(double)] of the Arduino core (two decimals). *)
Variable print_float : float -> list ascii.
(** The value [millis()] returns when it is the [k]-th call of the
    environment, and what [fan_speed()] measures there. *)
Variable clock : nat -> Z.
Variable fan_speed : nat -> Z.

Definition millis (m : inverter) : Z * inverter :=
  (clock (ticks m), set_ticks (S (ticks m)) m).

(** The temperature poll and the fan, every ten seconds. *)
Definition poll_temperature (inp : inputs) (m : inverter) : inverter :=
  let '(now, m) := millis m in
  if now >? wrap32 (timeout_temp m + 10000) then
    let m := set_temperature (temp_celsius inp) m in
    let m :=
      if fgt (temperature m) FAN_ON_TEMP then set_fan_drive true m
      else if flt (temperature m) FAN_OFF_TEMP then set_fan_drive false m
      else m in
    let '(now, m) := millis m in
    set_timeout_temp now m
  else m.

(** ** Commands *)

Definition info_line (r : readings) (fan : Z) (m : inverter) : list ascii :=
  str "i;" ++ print_int (id m) ++ str ";" ++
  print_int (fsm_code (state m)) ++ str ";" ++
  print_int (pwm m) ++ str ";" ++
  print_float (voltage r) ++ str ";" ++
  print_float (current r) ++ str ";" ++
  print_float (power r) ++ str ";" ++
  print_float (cap_voltage r) ++ str ";" ++
  print_float (temperature m) ++ str ";" ++
  println (print_int fan).

Definition error_line (m : inverter) : list ascii :=
  str "e;" ++ print_int (id m) ++ str ";" ++
  print_int (error_code m) ++ println (str ";").

Definition cmd_info (r : readings) (m : inverter) : inverter :=
  let fan := wrap16 (fan_speed (ticks m)) in
  let m := set_ticks (S (ticks m)) m in
  Serial_print (info_line r fan m ++ error_line m) m.

Definition cmd_halt (m : inverter) : inverter :=
  let m := dump_energy m in
  let m :=
    if fsm_eqb (state m) S5 then m
    else EEPROM_write EEPROM_ADDRESS_HALTED 1 m in
  set_pwm 0 (set_state S5 m).

Definition cmd_start (m : inverter) : inverter :=
  let m :=
    if EEPROM_read EEPROM_ADDRESS_HALTED m =? 0 then m
    else EEPROM_write EEPROM_ADDRESS_HALTED 0 m in
  let m := set_pwm 0 (set_state S0 m) in
  let '(now, m) := millis m in
  set_error_code ERROR_NONE (set_timeout_pause now m).

Definition cmd_reset (m : inverter) : inverter :=
  let m := dump_energy m in
  let m :=
    if EEPROM_read EEPROM_ADDRESS_HALTED m =? 0 then set_state S0 m
    else set_state S5 m in
  let m := set_pwm 0 m in
  let '(now, m) := millis m in
  set_error_code ERROR_NONE (set_timeout_pause now m).

(** [uint16_t mp = atoi(cli+3);] and what follows. *)
Definition cmd_power (m : inverter) : inverter :=
  let mp := wrap16 (atoi (drop 3 (cli m))) in
  if (MIN_MAX_POWER <=? mp) && (mp <=? MAX_POWER) then
    if mp =? max_power m then m
    else
      let m := set_max_power mp m in
      EEPROM_write EEPROM_ADDRESS_MAX_POWER (Z.shiftr (max_power m) 1) m
  else m.

(** [switch(cli[0])]. *)
Definition exec_command (r : readings) (m : inverter) : inverter :=
  let c := hd NUL (cli m) in
  if Ascii.eqb c "i" then cmd_info r m
  else if Ascii.eqb c "h" then cmd_halt m
  else if Ascii.eqb c "s" then cmd_start m
  else if Ascii.eqb c "r" then cmd_reset m
  else if Ascii.eqb c "p" then cmd_power m
  else m.

(** One turn of [while (Serial.available() > 0)], on the byte read. *)
Definition serial_byte (r : readings) (c : ascii) (m : inverter) : inverter :=
  let m := set_cli (<[cli_pos m := c]> (cli m)) m in
  if isspace c then m
  else if (cli_pos m =? LINE_LENGTH - 1)%nat || Ascii.eqb c ";" then
    let m := set_cli (<[cli_pos m := NUL]> (cli m)) m in
    let m :=
      if (1 <? cli_pos m)%nat && (atoi (drop 1 (cli m)) =? id m)
      then exec_command r m else m in
    set_cli_pos 0%nat m
  else set_cli_pos (S (cli_pos m)) m.

Definition serial_input (r : readings) (bytes : list ascii) (m : inverter)
  : inverter :=
  fold_left (fun m c => serial_byte r c m) bytes m.

(** ** The finite state machine *)

(** S0: wait three seconds. *)
Definition s0_step (m : inverter) : inverter :=
  let '(now, m) := millis m in
  if now >? wrap32 (timeout_pause m + 3000) then set_state S1 m else m.

(** S1: wait for the panel voltage, then enable the boost stage. *)
Definition s1_step (r : readings) (m : inverter) : inverter :=
  if fgt (voltage r) (f32 18) then
    set_pwm 0 (set_state S2 (set_sys_enable true m))
  else m.

(** S2, first [if]: not enough voltage, back to S0. *)
Definition s2_low_voltage (r : readings) (m : inverter) : inverter :=
  if flt (voltage r) (f32 15) then
    let m := set_sys_enable false m in
    let '(now, m) := millis m in
    set_state S0 (set_pwm 0 (set_timeout_pause now m))
  else m.

(** S2, second [if]: the capacitor is charged, connect the output. *)
Definition s2_connect (r : readings) (m : inverter) : inverter :=
  if flag_over m && fgt (cap_voltage r) (f32 320) then
    set_flag_over false (set_state S3 (set_sys_output true m))
  else m.

(** S2, the ramp: one up while there is voltage to spare, five down when
    there is not. *)
Definition s2_ramp (r : readings) (m : inverter) : inverter :=
  if (pwm m <? 275) && fgt (voltage r) (f32 18) then
    set_pwm (wrap16 (pwm m + 1)) m
  else if (5 <=? pwm m) && flt (voltage r) (f32 18) then
    set_pwm (wrap16 (pwm m - 5)) m
  else m.

(** S3, first [if]: not enough voltage, back to S0. *)
Definition s3_low_voltage (r : readings) (m : inverter) : inverter :=
  if flt (voltage r) (f32 15) then
    let m := set_sys_output false (set_sys_enable false m) in
    let '(now, m) := millis m in
    set_pwm 0 (set_state S0 (set_timeout_pause now m))
  else m.

(** S3, perturb and observe: push through the plateau at 50V, otherwise
    turn around when the power dropped. *)
Definition s3_observe (r : readings) (m : inverter) : inverter :=
  if fgt (voltage r) (f32 50) && flt (current r) (f32_lit 1 2) then
    set_direction 1 m
  else if flt (power r) (last_power m) then
    set_direction (int16 (direction m * -1)) m
  else m.

(** S3: stay within the user's limit and the hard limit. *)
Definition s3_limit (r : readings) (m : inverter) : inverter :=
  if fgt (power r) (f32 (max_power m)) || fgt (power r) (f32 MAX_POWER)
  then set_direction (-1) m else m.

(** S3: can only increase from zero. *)
Definition s3_floor (m : inverter) : inverter :=
  if pwm m =? 0 then set_direction 1 m else m.

(** S3, the move.  [pwm+direction] is computed in [unsigned int], as is the
    comparison. *)
Definition s3_apply (m : inverter) : inverter :=
  if direction m <? 0 then
    if wrap16 (pwm m + direction m) >? 20 then
      set_pwm (wrap16 (pwm m + direction m)) m
    else m
  else
    if wrap16 (pwm m + direction m) <? 315 then
      set_pwm (wrap16 (pwm m + direction m)) m
    else m.

(** [switch (state)]. *)
Definition fsm_step (r : readings) (m : inverter) : inverter :=
  match state m with
  | S0 => s0_step m
  | S1 => s1_step r m
  | S2 => s2_ramp r (s2_connect r (s2_low_voltage r m))
  | S3 =>
      s3_apply
        (set_last_power (power r)
           (s3_floor (s3_limit r (s3_observe r (s3_low_voltage r m)))))
  | S4 => m
  | S5 => m
  end.

(** ** The interlocks, in the order of the source *)

Definition check_cap_low (r : readings) (m : inverter) : inverter :=
  if negb (fsm_eqb (state m) S4) && flt (cap_voltage r) (f32 12)
  then fault ERROR_CAP_VOLTAGE_LOW m else m.

Definition check_cap_high (r : readings) (m : inverter) : inverter :=
  if negb (fsm_eqb (state m) S4) && fgt (cap_voltage r) (f32 370)
  then fault ERROR_CAP_VOLTAGE_HIGH m else m.

Definition check_over_current (r : readings) (m : inverter) : inverter :=
  if fsm_eqb (state m) S2 && (pwm m >? 1) && (pwm m <? 5)
     && fgt (current r) (f32 2)
  then fault ERROR_OVER_CURRENT m else m.

Definition check_under_current (r : readings) (m : inverter) : inverter :=
  if negb (fsm_eqb (state m) S4) && flt (current r) (f32_lit (-1) 10)
  then fault ERROR_UNDER_CURRENT m else m.

Definition check_over_temp (m : inverter) : inverter :=
  if negb (fsm_eqb (state m) S4) && fgt (temperature m) MAX_TEMPERATURE
  then fault ERROR_OVER_TEMP m else m.

Definition check_under_temp (m : inverter) : inverter :=
  if negb (fsm_eqb (state m) S4) && flt (temperature m) MIN_TEMPERATURE
  then fault ERROR_UNDER_TEMP m else m.

Definition interlocks (r : readings) (m : inverter) : inverter :=
  check_under_temp
    (check_over_temp
       (check_under_current r
          (check_over_current r (check_cap_high r (check_cap_low r m))))).

(** SYS_FAULT is active low. *)
Definition fault_led (m : inverter) : inverter :=
  set_sys_fault (negb (fsm_eqb (state m) S4)) m.

(** [if (pwm != OCR1B) OCR1B = pwm;] *)
Definition write_pwm (m : inverter) : inverter :=
  if pwm m =? OCR1B m then m else set_OCR1B (pwm m) m.

(** ** One pass of [loop] *)

Definition loop (inp : inputs) (m : inverter) : inverter :=
  let m := if over_edge inp then set_flag_over true m else m in
  let m := poll_temperature inp m in
  let r := read_sensors inp in
  let m := serial_input r (rx inp) m in
  let m := fsm_step r m in
  let m := interlocks r m in
  let m := fault_led m in
  write_pwm m.

Definition run (inps : list inputs) (m : inverter) : inverter :=
  fold_left (fun m inp => loop inp m) inps m.

End Environment.

(** The state [setup] leaves, from the id read off the DIP switches and the
    content of the EEPROM. *)
Definition setup (dip : Z) (rom : Z -> Z) : inverter :=
  let mp := wrap16 (wrap8 (rom EEPROM_ADDRESS_MAX_POWER) * 2) in
  {| id := dip;
     pwm := 0;
     state := if wrap8 (rom EEPROM_ADDRESS_HALTED) =? 0 then S0 else S5;
     cli := repeat NUL LINE_LENGTH;
     cli_pos := 0%nat;
     timeout_pause := 0;
     timeout_temp := 0;
     flag_over := false;
     error_code := ERROR_NONE;
     max_power := if mp <? MIN_MAX_POWER then MIN_MAX_POWER else mp;
     last_power := f32 0;
     direction := -1;
     temperature := f32 0;
     OCR1B := 0;
     sys_enable := false;
     sys_output := false;
     sys_fault := true;
     fan_drive := false;
     eeprom := rom;
     eeprom_writes := [];
     serial_out := [];
     ticks := 0%nat |}.

(** ** Notions the statements about the module use *)

(** The duty is in range, and so is what the compare register holds; the
    tracker moves by one step. *)
Definition duty_ok (m : inverter) : Prop :=
  0 <= pwm m <= 314 /\ 0 <= OCR1B m <= 314 /\
  (direction m = 1 \/ direction m = -1).

(** Everything but the line buffer is the same. *)
Definition same_but_cli (m m' : inverter) : Prop :=
  id m' = id m /\ pwm m' = pwm m /\ state m' = state m /\
  timeout_pause m' = timeout_pause m /\ timeout_temp m' = timeout_temp m /\
  flag_over m' = flag_over m /\ error_code m' = error_code m /\
  max_power m' = max_power m /\ last_power m' = last_power m /\
  direction m' = direction m /\ temperature m' = temperature m /\
  OCR1B m' = OCR1B m /\ sys_enable m' = sys_enable m /\
  sys_output m' = sys_output m /\ sys_fault m' = sys_fault m /\
  fan_drive m' = fan_drive m /\ eeprom m' = eeprom m /\
  eeprom_writes m' = eeprom_writes m /\ serial_out m' = serial_out m /\
  ticks m' = ticks m.

(** The byte [c] ends the line that is in the buffer. *)
Definition completes_line (c : ascii) (m : inverter) : bool :=
  negb (isspace c) && ((cli_pos m =? LINE_LENGTH - 1)%nat || Ascii.eqb c ";").

(** The line as the command switch sees it: NUL in place of the last byte. *)
Definition command_line (m : inverter) : list ascii :=
  <[cli_pos m := NUL]> (cli m).

(** A byte of a command line: not white space, not the terminator. *)
Definition plain (c : ascii) : Prop := isspace c = false /\ c <> ";"%char.

(** The halt command as the master writes it, without the line end. *)
Definition halt_command (i : Z) : list ascii :=
  str "h" ++ print_int i ++ str ";".

(** The tail of a pass of [loop], after the state machine. *)
Definition finish_pass (r : readings) (m : inverter) : inverter :=
  write_pwm (fault_led (interlocks r m)).

(** A module fresh from [setup], with id 0 and a blank EEPROM. *)
Definition fresh : inverter := setup 0 (fun _ => 0).

(** An environment to run examples in: every float prints as [0.00], the
    clock advances 50 ms between two readings, the fan turns at 1200 rpm. *)
Definition sample_print (x : float) : list ascii := str "0.00".
Definition sample_clock (k : nat) : Z := Z.of_nat k * 50.
Definition sample_fan (k : nat) : Z := 1200.
Definition sample_readings : readings :=
  Build_readings (f32 0) (f32 0) (f32 0) (f32 0).

(** ** Invariants of the module *)

(** The write position is inside the ten bytes of the line buffer. *)
Definition buffer_ok (m : inverter) : Prop :=
  (cli_pos m <= 9)%nat /\ length (cli m) = 10%nat.

(** In Fault and in Halt nothing is driven. *)
Definition outputs_off (m : inverter) : Prop :=
  state m = S4 \/ state m = S5 ->
  sys_enable m = false /\ sys_output m = false /\ pwm m = 0.

(** A fault has an error code, and only a faulted or halted module has
    one. *)
Definition error_ok (m : inverter) : Prop :=
  (state m = S4 -> 1 <= error_code m <= 6) /\
  (error_code m <> ERROR_NONE -> state m = S4 \/ state m = S5).

(** A halted module has the latch set in the EEPROM. *)
Definition latch_ok (m : inverter) : Prop :=
  state m = S5 -> EEPROM_read EEPROM_ADDRESS_HALTED m <> 0.

(** The power limit in force. *)
Definition limit_ok (m : inverter) : Prop :=
  MIN_MAX_POWER <= max_power m <= 510.

(** What a step of a running module leaves alone. *)
Definition quiet (m m' : inverter) : Prop :=
  error_code m' = error_code m /\ max_power m' = max_power m /\
  eeprom m' = eeprom m /\ eeprom_writes m' = eeprom_writes m /\
  cli m' = cli m /\ cli_pos m' = cli_pos m /\ serial_out m' = serial_out m /\
  id m' = id m.

Definition running (m : inverter) : Prop := state m <> S4 /\ state m <> S5.

Definition calm (f : inverter -> inverter) : Prop :=
  forall m, running m -> running (f m) /\ quiet m (f m).

(** What the EEPROM holds is the limit in force, up to its last bit (or
    less than the floor of 50 W, which is then in force). *)
Definition persist_ok (m : inverter) : Prop :=
  wrap8 (eeprom m EEPROM_ADDRESS_MAX_POWER) * 2 = 2 * (max_power m / 2) \/
  (wrap8 (eeprom m EEPROM_ADDRESS_MAX_POWER) * 2 < MIN_MAX_POWER /\
   max_power m = MIN_MAX_POWER).

(** Inputs of a quiet pass: no bytes, 39 V at the panel, 150 V at the
    capacitor, 20 degrees; and of a pass that finds the capacitor sense
    line dead. *)
Definition quiet_inputs : inputs :=
  Build_inputs [] false 512 (fun _ => 200) 150 (f32 20).
Definition dead_cap_inputs : inputs :=
  Build_inputs [] false 512 (fun _ => 200) 0 (f32 20).

End Inverter.

(** * The master controller *)

Module Master.

Definition MAX_HWC_TEMP : float := f32 75.
Definition MIN_HWC_TEMP : float := f32 (-10).
Definition EXTREME_HWC_TEMP : float := f32 80.

Definition MAINS_SEQUENCE_LENGTH : nat := 30.
Definition LINE_LENGTH : nat := 80.
Definition MODULES : Z := 4.

(** One slot of [mod_st], and the globals of the sketch that the parser,
    the thermal check and the recovery heuristic use. *)
Record module_status : Type := Build_module_status {
  v : float; (* Volts *)
  a : float; (* Amps *)
  w : float; (* Watts *)
  c : float; (* Cap voltage *)
  pwm : Z; (* int pwm *)
  temp : float; (* Degrees Celsius *)
  fan : Z; (* RPM *)
  state : Z; (* Finite State Machine *)
  error : Z; (* Error code returned by inverter module *)
  last_tx : Z; (* Timestamp when Watts last transmitted via RF *)
  last_reset : Z (* Timestamp when last automatically reset *)
}.

Definition set_v (x : float) (m : module_status) : module_status :=
  Build_module_status x (a m) (w m) (c m) (pwm m) (temp m) (fan m) (state m)
    (error m) (last_tx m) (last_reset m).
Definition set_a (x : float) (m : module_status) : module_status :=
  Build_module_status (v m) x (w m) (c m) (pwm m) (temp m) (fan m) (state m)
    (error m) (last_tx m) (last_reset m).
Definition set_w (x : float) (m : module_status) : module_status :=
  Build_module_status (v m) (a m) x (c m) (pwm m) (temp m) (fan m) (state m)
    (error m) (last_tx m) (last_reset m).
Definition set_c (x : float) (m : module_status) : module_status :=
  Build_module_status (v m) (a m) (w m) x (pwm m) (temp m) (fan m) (state m)
    (error m) (last_tx m) (last_reset m).
Definition set_pwm (x : Z) (m : module_status) : module_status :=
  Build_module_status (v m) (a m) (w m) (c m) x (temp m) (fan m) (state m)
    (error m) (last_tx m) (last_reset m).
Definition set_temp (x : float) (m : module_status) : module_status :=
  Build_module_status (v m) (a m) (w m) (c m) (pwm m) x (fan m) (state m)
    (error m) (last_tx m) (last_reset m).
Definition set_fan (x : Z) (m : module_status) : module_status :=
  Build_module_status (v m) (a m) (w m) (c m) (pwm m) (temp m) x (state m)
    (error m) (last_tx m) (last_reset m).
Definition set_state (x : Z) (m : module_status) : module_status :=
  Build_module_status (v m) (a m) (w m) (c m) (pwm m) (temp m) (fan m) x
    (error m) (last_tx m) (last_reset m).
Definition set_error (x : Z) (m : module_status) : module_status :=
  Build_module_status (v m) (a m) (w m) (c m) (pwm m) (temp m) (fan m) (state
    m) x (last_tx m) (last_reset m).
Definition set_last_reset (x : Z) (m : module_status) : module_status :=
  Build_module_status (v m) (a m) (w m) (c m) (pwm m) (temp m) (fan m) (state
    m) (error m) (last_tx m) x.

Record master : Type := Build_master {
  mod_display : Z; (* int mod_display *)
  mod_st : list module_status; (* mod_st[MODULES] *)
  line : list ascii; (* char line[LINE_LENGTH] *)
  last_request : Z; (* unsigned long last_request *)
  timeout_temp : Z; (* unsigned long timeout_temp *)
  hwc_temp : float; (* float hwc_temp *)
  mains_pos : list Z; (* uint8_t mains_pos[] *)
  mains_neg : list Z; (* uint8_t mains_neg[] *)
  poll_id : Z; (* static int id (loop): the module polled last *)
  serial_out : list ascii; (* bytes written to Serial, in order *)
  ticks : nat (* number of millis() calls so far *)
}.

Definition with_mod_st (x : list module_status) (m : master) : master :=
  Build_master (mod_display m) x (line m) (last_request m) (timeout_temp m)
    (hwc_temp m) (mains_pos m) (mains_neg m) (poll_id m) (serial_out m) (ticks
    m).
Definition with_last_request (x : Z) (m : master) : master :=
  Build_master (mod_display m) (mod_st m) (line m) x (timeout_temp m)
    (hwc_temp m) (mains_pos m) (mains_neg m) (poll_id m) (serial_out m) (ticks
    m).
Definition with_timeout_temp (x : Z) (m : master) : master :=
  Build_master (mod_display m) (mod_st m) (line m) (last_request m) x
    (hwc_temp m) (mains_pos m) (mains_neg m) (poll_id m) (serial_out m) (ticks
    m).
Definition with_hwc_temp (x : float) (m : master) : master :=
  Build_master (mod_display m) (mod_st m) (line m) (last_request m)
    (timeout_temp m) x (mains_pos m) (mains_neg m) (poll_id m) (serial_out m)
    (ticks m).
Definition with_mains_pos (x : list Z) (m : master) : master :=
  Build_master (mod_display m) (mod_st m) (line m) (last_request m)
    (timeout_temp m) (hwc_temp m) x (mains_neg m) (poll_id m) (serial_out m)
    (ticks m).
Definition with_mains_neg (x : list Z) (m : master) : master :=
  Build_master (mod_display m) (mod_st m) (line m) (last_request m)
    (timeout_temp m) (hwc_temp m) (mains_pos m) x (poll_id m) (serial_out m)
    (ticks m).
Definition with_poll_id (x : Z) (m : master) : master :=
  Build_master (mod_display m) (mod_st m) (line m) (last_request m)
    (timeout_temp m) (hwc_temp m) (mains_pos m) (mains_neg m) x (serial_out m)
    (ticks m).
Definition with_serial_out (x : list ascii) (m : master) : master :=
  Build_master (mod_display m) (mod_st m) (line m) (last_request m)
    (timeout_temp m) (hwc_temp m) (mains_pos m) (mains_neg m) (poll_id m) x
    (ticks m).
Definition with_ticks (x : nat) (m : master) : master :=
  Build_master (mod_display m) (mod_st m) (line m) (last_request m)
    (timeout_temp m) (hwc_temp m) (mains_pos m) (mains_neg m) (poll_id m)
    (serial_out m) x.

Definition Serial_print (s : list ascii) (m : master) : master :=
  with_serial_out (serial_out m ++ s) m.

(** [next_value]: the position after the next [';'], or [NULL] when the
    string ends first. *)
Fixpoint next_value (p : list ascii) : option (list ascii) :=
  match p with
  | [] => None
  | ch :: p' =>
      if Ascii.eqb ch NUL then None
      else if Ascii.eqb ch ";" then Some p'
      else next_value p'
  end.

Section Environment.

(** [atof] of avr-libc. *)
Variable atof : list ascii -> float.
(** The value [millis()] returns when it is the [k]-th call. *)
Variable clock : nat -> Z.

Definition millis (m : master) : Z * master :=
  (clock (ticks m), with_ticks (S (ticks m)) m).

(** ** The parser *)

(** [mod_st[module].f = x] *)
Definition store (module : Z) (f : module_status -> module_status)
    (tbl : list module_status) : list module_status :=
  alter f (Z.to_nat module) tbl.

(** [parse], on the line buffer and the table: the module id or -1, and
    the table as the call leaves it. *)
Definition parse (line : list ascii) (tbl : list module_status)
  : Z * list module_status :=
  let p := drop 2 line in
  if strlen line <? 3 then (-1, tbl)
  else if Ascii.eqb (hd NUL line) "e" then
    let module := atoi (drop 2 line) in
    if (module <? 0) || (module >=? MODULES) then (-1, tbl)
    else
      match next_value p with None => (-1, tbl) | Some p =>
      let tbl := store module (set_error (atoi p)) tbl in
      (module, tbl)
      end
  else if Ascii.eqb (hd NUL line) "i" then
    let module := atoi (drop 2 line) in
    if (module <? 0) || (module >=? MODULES) then (-1, tbl)
    else
      match next_value p with None => (-1, tbl) | Some p =>
      let tbl := store module (set_state (atoi p)) tbl in
      match next_value p with None => (-1, tbl) | Some p =>
      let tbl := store module (set_pwm (atoi p)) tbl in
      match next_value p with None => (-1, tbl) | Some p =>
      let tbl := store module (set_v (atof p)) tbl in
      match next_value p with None => (-1, tbl) | Some p =>
      let tbl := store module (set_a (atof p)) tbl in
      match next_value p with None => (-1, tbl) | Some p =>
      let tbl := store module (set_w (atof p)) tbl in
      match next_value p with None => (-1, tbl) | Some p =>
      let tbl := store module (set_c (atof p)) tbl in
      match next_value p with None => (-1, tbl) | Some p =>
      let tbl := store module (set_temp (atof p)) tbl in
      match next_value p with None => (-1, tbl) | Some p =>
      let tbl := store module (set_fan (atoi p)) tbl in
      (module, tbl)
      end end end end end end end end
  else (-1, tbl).

(** [mod_rx = parse();] in [loop], on the globals. *)
Definition parse_line (m : master) : Z * master :=
  let '(module, tbl) := parse (line m) (mod_st m) in
  (module, with_mod_st tbl m).

(** ** The poll, every half second *)

(** [if ((millis() - last_request) > 500UL)] and its body: the next module
    in turn is asked for its telemetry. *)
Definition poll_request (m : master) : master :=
  let '(now, m) := millis m in
  if wrap32 (now - last_request m) >? 500 then
    let m :=
      with_poll_id
        (if poll_id m + 1 >=? MODULES then 0 else poll_id m + 1) m in
    let m :=
      Serial_print (str "i" ++ print_int (poll_id m) ++ println (str ";")) m in
    let '(now, m) := millis m in
    with_last_request now m
  else m.

(** ** The thermal check, every ten seconds *)

(** Up to five readings of the sensor; one above -125 ends the retries. *)
Fixpoint read_hwc (sensor : nat -> float) (i tries : nat) (m : master)
  : master :=
  match tries with
  | O => m
  | S tries' =>
      let m := with_hwc_temp (sensor i) m in
      if fgt (hwc_temp m) (f32 (-125)) then m
      else read_hwc sensor (S i) tries' m
  end.

(** The body of [for (int i = 0; i < MODULES; i++)] that halts modules. *)
Definition halt_module (i : nat) (m : master) : master :=
  match mod_st m !! i with
  | Some s =>
      if state s =? 5 then m
      else Serial_print (str "h" ++ print_int (mod_display m)
                           ++ println (str ";")) m
  | None => m
  end.

Definition halt_modules (m : master) : master :=
  fold_left (fun m i => halt_module i m) (seq 0 (Z.to_nat MODULES)) m.

(** [mains_pos[i] = mains_neg[i] = 0] for every [i]. *)
Definition stop_mains (m : master) : master :=
  fold_left
    (fun m i => with_mains_pos (<[i := 0]> (mains_pos m))
                  (with_mains_neg (<[i := 0]> (mains_neg m)) m))
    (seq 0 MAINS_SEQUENCE_LENGTH) m.

(** What the check does with the temperature it has read. *)
Definition thermal_action (m : master) : master :=
  if flt (hwc_temp m) MIN_HWC_TEMP || fgt (hwc_temp m) MAX_HWC_TEMP then
    let m := halt_modules m in
    if fgt (hwc_temp m) EXTREME_HWC_TEMP then stop_mains m else m
  else m.

Definition thermal_check (sensor : nat -> float) (m : master) : master :=
  let '(now, m) := millis m in
  if now >? wrap32 (timeout_temp m + 10000) then
    let m := read_hwc sensor 0 5 m in
    let m := thermal_action m in
    let '(now, m) := millis m in
    with_timeout_temp now m
  else m.

(** ** The recovery heuristic *)

(** The body of the loop over the modules, for module [i]. *)
Definition auto_reset_module (i : nat) (m : master) : master :=
  match mod_st m !! i with
  | Some s =>
      if (error s =? 5) && fgt (v s) (f32 50) then
        let '(now, m) := millis m in
        if now >? wrap32 (last_reset s + 10000) then
          let m := Serial_print (str "r" ++ print_int (Z.of_nat i)
                                   ++ println (str ";")) m in
          let m := with_mod_st (alter (set_error 0) i (mod_st m)) m in
          let '(now, m) := millis m in
          with_mod_st (alter (set_last_reset now) i (mod_st m)) m
        else m
      else m
  | None => m
  end.

Definition auto_reset (m : master) : master :=
  fold_left (fun m i => auto_reset_module i m) (seq 0 (Z.to_nat MODULES)) m.

End Environment.

(** The table and the waveform at boot. *)
Definition module_status0 : module_status :=
  Build_module_status (f32 0) (f32 0) (f32 0) (f32 0) 0 (f32 0) 0 0 0 0 0.

Definition mains_pos0 : list Z :=
  [1;1;1;1;1;1;1;1;0;0;0;0;0;0;0;0;0;0;0;0;0;0;0;0;0;0;0;0;0;0].
Definition mains_neg0 : list Z :=
  [0;0;0;0;0;0;0;0;0;0;0;0;0;0;0;1;1;1;1;1;1;1;1;0;0;0;0;0;0;0].

Definition boot : master :=
  {| mod_display := 0;
     mod_st := replicate (Z.to_nat MODULES) module_status0;
     line := replicate LINE_LENGTH NUL;
     last_request := 0;
     timeout_temp := 0;
     hwc_temp := f32 0;
     mains_pos := mains_pos0;
     mains_neg := mains_neg0;
     poll_id := -1;
     serial_out := [];
     ticks := 0%nat |}.


(** ** The front panel *)

Definition with_mod_display (x : Z) (m : master) : master :=
  Build_master x (mod_st m) (line m) (last_request m) (timeout_temp m)
    (hwc_temp m) (mains_pos m) (mains_neg m) (poll_id m) (serial_out m)
    (ticks m).
Definition with_line (x : list ascii) (m : master) : master :=
  Build_master (mod_display m) (mod_st m) x (last_request m) (timeout_temp m)
    (hwc_temp m) (mains_pos m) (mains_neg m) (poll_id m) (serial_out m)
    (ticks m).
Definition set_last_tx (x : Z) (m : module_status) : module_status :=
  Build_module_status (v m) (a m) (w m) (c m) (pwm m) (temp m) (fan m)
    (state m) (error m) x (last_reset m).

Definition BUTTON_NONE : Z := 0.
Definition BUTTON_LEFT : Z := 1.
Definition BUTTON_RIGHT : Z := 2.
Definition BUTTON_UP : Z := 3.
Definition BUTTON_DOWN : Z := 4.
Definition BUTTON_SELECT : Z := 5.

Definition MODE_MIN : Z := 0.
Definition MODE_MAX : Z := 5.
Definition MODE_DASH_MULT : Z := 0.
Definition MODE_DASH_SINGLE : Z := 1.
Definition MODE_TEMP_SINGLE : Z := 2.
Definition MODE_RESET : Z := 3.
Definition MODE_HALT : Z := 4.
Definition MODE_SET_POWER : Z := 5.
Definition MODE_START : Z := MODE_DASH_MULT.

Definition TX_INTERVAL : Z := 15000.

(** [read_button], on the value [analogRead(BUTTONS)] gives. *)
Definition read_button (adc_key_in : Z) : Z :=
  if adc_key_in <? 40 then BUTTON_RIGHT
  else if adc_key_in <? 200 then BUTTON_UP
  else if adc_key_in <? 370 then BUTTON_DOWN
  else if adc_key_in <? 570 then BUTTON_LEFT
  else if adc_key_in <? 900 then BUTTON_SELECT
  else BUTTON_NONE.

(** What the panel adds to the globals: the display mode of [loop] and the
    power limit on offer.  The LCD is written and never read back; it is
    left out, and so is [show], which only writes to it.  A [delay] lets
    time pass and nothing else: the clock is what the environment says
    it is at each call of [millis]. *)
Record panel : Type := Build_panel {
  mode : Z;       (* static uint8_t mode *)
  max_power : Z   (* uint16_t max_power *)
}.

Definition panel0 : panel := Build_panel MODE_START 400.

(** [process_select]: the new mode, and the command written. *)
Definition process_select (mode : Z) (max_power : Z) (m : master)
  : Z * master :=
  if mode =? MODE_RESET then
    (MODE_DASH_SINGLE,
     Serial_print (str "r" ++ print_int (mod_display m)
                     ++ println (str ";")) m)
  else if mode =? MODE_HALT then
    let halted :=
      match mod_st m !! Z.to_nat (mod_display m) with
      | Some s => state s =? 5
      | None => false
      end in
    (MODE_DASH_SINGLE,
     if halted then
       Serial_print (str "s" ++ print_int (mod_display m)
                       ++ println (str ";")) m
     else
       Serial_print (str "h" ++ print_int (mod_display m)
                       ++ println (str ";")) m)
  else if mode =? MODE_SET_POWER then
    (MODE_DASH_SINGLE,
     Serial_print (str "p" ++ print_int (mod_display m) ++ str ":"
                     ++ print_int max_power ++ println (str ";")) m)
  else (mode, m).

(** [switch (b)] in [loop], on the button read. *)
Definition buttons (b : Z) (u : panel) (m : master) : panel * master :=
  if b =? BUTTON_LEFT then
    if mode u =? MODE_SET_POWER then
      let mp := wrap16 (max_power u - 25) in
      (Build_panel (mode u) (if mp <? 50 then 50 else mp), m)
    else if mod_display m >? 0 then
      (u, with_mod_display (int16 (mod_display m - 1)) m)
    else (u, m)
  else if b =? BUTTON_RIGHT then
    if mode u =? MODE_SET_POWER then
      let mp := wrap16 (max_power u + 25) in
      (Build_panel (mode u) (if mp >? 425 then 425 else mp), m)
    else if mod_display m <? MODULES - 1 then
      (u, with_mod_display (int16 (mod_display m + 1)) m)
    else (u, m)
  else if b =? BUTTON_UP then
    if mode u >? MODE_MIN then
      (Build_panel (wrap8 (mode u - 1)) (max_power u), m)
    else (u, m)
  else if b =? BUTTON_DOWN then
    if mode u <? MODE_MAX then
      (Build_panel (wrap8 (mode u + 1)) (max_power u), m)
    else (u, m)
  else if b =? BUTTON_SELECT then
    let '(md, m) := process_select (mode u) (max_power u) m in
    (Build_panel (wrap8 md) (max_power u), m)
  else (u, m).

(** ** The receive loop *)

(** The write position in [line], and the packets handed to the radio:
    module, state and watts as passed to [tx.setValue]. *)
Record receiver : Type := Build_receiver {
  pos : nat;                      (* uint8_t pos *)
  sent : list (Z * Z * float)     (* tx.send() *)
}.

Definition receiver0 : receiver := Build_receiver 0 [].

Section Loop.

Variable atof : list ascii -> float.
Variable clock : nat -> Z.

(** [if ((mod_rx < MODULES) && (millis() - mod_st[mod_rx].last_tx) >
    TX_INTERVAL)] and its body; [mod_rx] is an [unsigned int]. *)
Definition transmit (mod_rx : Z) (rx : receiver) (m : master)
  : receiver * master :=
  if mod_rx <? MODULES then
    match mod_st m !! Z.to_nat mod_rx with
    | Some s =>
        let '(now, m) := millis clock m in
        if wrap32 (now - last_tx s) >? TX_INTERVAL then
          let rx := Build_receiver (pos rx)
                      (sent rx ++ [(mod_rx, state s, w s)]) in
          let '(now, m) := millis clock m in
          (rx, with_mod_st (alter (set_last_tx now) (Z.to_nat mod_rx)
                              (mod_st m)) m)
        else (rx, m)
    | None => (rx, m)
    end
  else (rx, m).

(** One turn of [while (Serial.available() > 0)], on the byte read. *)
Definition receive_byte (ch : ascii) (rx : receiver) (m : master)
  : receiver * master :=
  let m := with_line (<[pos rx := ch]> (line m)) m in
  if (pos rx =? LINE_LENGTH - 1)%nat || Ascii.eqb ch LF then
    let m := with_line (<[pos rx := NUL]> (line m)) m in
    let '(module, m) := parse_line atof m in
    let mod_rx := wrap16 module in
    let '(rx, m) := transmit mod_rx rx m in
    (Build_receiver 0 (sent rx), m)
  else (Build_receiver (S (pos rx)) (sent rx), m).

Definition receive (bytes : list ascii) (rx : receiver) (m : master)
  : receiver * master :=
  fold_left (fun st ch => receive_byte ch (fst st) (snd st)) bytes (rx, m).

(** One pass of [loop]: the button read, the poll, the thermal check, the
    recovery heuristic, and the bytes that have arrived. *)
Record pass : Type := Build_pass {
  adc_key_in : Z;            (* analogRead(BUTTONS) *)
  sensor : nat -> float;     (* the readings of the thermometer, by try *)
  arrived : list ascii       (* the bytes Serial has for this pass *)
}.

Definition loop (inp : pass) (st : panel * receiver * master)
  : panel * receiver * master :=
  let '(u, rx, m) := st in
  let '(u, m) := buttons (read_button (adc_key_in inp)) u m in
  let m := poll_request clock m in
  let m := thermal_check clock (sensor inp) m in
  let m := auto_reset clock m in
  let '(rx, m) := receive (arrived inp) rx m in
  (u, rx, m).

Definition run (inps : list pass) (st : panel * receiver * master)
  : panel * receiver * master :=
  fold_left (fun st inp => loop inp st) inps st.

End Loop.

(** [setup], as far as the globals and Serial go: the temperature is read
    once, and every module is sent a reset. *)
Definition setup (reading : float) : master :=
  fold_left
    (fun m i => Serial_print (str "r" ++ print_int (Z.of_nat i)
                                ++ println (str ";")) m)
    (seq 0 (Z.to_nat MODULES)) (with_hwc_temp reading boot).

Definition start (reading : float) : panel * receiver * master :=
  (panel0, receiver0, setup reading).
(** ** Notions the statements about the master use *)




(** What [parse] does to the table, as one function on the addressed
    slot: [effect_of line g] when [parse] on [line] applies [g] there. *)
Definition effect_of (atof : list ascii -> float) (line : list ascii)
    (g : module_status -> module_status) : Prop :=
  forall tbl,
    snd (parse atof line tbl) = store (atoi (drop 2 line)) g tbl.

(** The line the master writes for a command letter and a module id. *)
Definition command (letter : string) (i : Z) : list ascii :=
  str letter ++ print_int i ++ println (str ";").

(** An [atof] to run examples with. *)
Definition sample_atof (p : list ascii) : float := f32 (atoi p).





(** What a pass of [loop] keeps of the panel, of the receiver and of the
    globals. *)
Definition panel_ok (u : panel) : Prop :=
  MODE_MIN <= mode u <= MODE_MAX /\
  50 <= max_power u <= 425 /\ max_power u mod 25 = 0.

Definition receiver_ok (rx : receiver) : Prop :=
  (pos rx < LINE_LENGTH)%nat /\
  Forall (fun p : Z * Z * float => 0 <= fst (fst p) < MODULES) (sent rx).

Definition globals_ok (m : master) : Prop :=
  0 <= mod_display m < MODULES /\
  -1 <= poll_id m < MODULES /\
  length (line m) = LINE_LENGTH /\
  length (mod_st m) = Z.to_nat MODULES /\
  length (mains_pos m) = MAINS_SEQUENCE_LENGTH /\
  length (mains_neg m) = MAINS_SEQUENCE_LENGTH.

Definition master_ok (st : panel * receiver * master) : Prop :=
  panel_ok (fst (fst st)) /\ receiver_ok (snd (fst st)) /\
  globals_ok (snd st).

(** The sizes of the arrays, and the two indices that only the panel and
    the poll move. *)
Definition same_shape (m m' : master) : Prop :=
  mod_display m' = mod_display m /\ poll_id m' = poll_id m /\
  length (line m') = length (line m) /\
  length (mod_st m') = length (mod_st m) /\
  length (mains_pos m') = length (mains_pos m) /\
  length (mains_neg m') = length (mains_neg m).

(** A pass that finds no button pressed, a cold sensor reading of 20
    degrees, and no byte. *)
Definition idle_pass : pass :=
  Build_pass 1023 (fun _ => f32 20) [].

(** The telemetry of a slot is the same: all but the two time stamps. *)
Definition same_telemetry (s s' : module_status) : Prop :=
  v s' = v s /\ a s' = a s /\ w s' = w s /\ c s' = c s /\
  pwm s' = pwm s /\ temp s' = temp s /\ fan s' = fan s /\
  state s' = state s /\ error s' = error s.

(** A byte inside a field of a line, for [next_value]. *)
Definition in_field (ch : ascii) : Prop := ch <> ";"%char /\ ch <> NUL.
End Master.

(** * The serial line between the master and the modules *)

Module Wire.

(** The decimal text of [n] is made of digits, at most five, and reads
    back as [n]. *)
Definition number_ok (n : Z) : bool :=
  match print_int n with
  | d :: l =>
      forallb isdigit (d :: l) && (length (d :: l) <=? 5)%nat
      && (atoi_digits 0 (d :: l) =? n)
  | [] => false
  end.

(** [f] holds of the [k] numbers from [z] on. *)
Fixpoint all_from (f : Z -> bool) (z : Z) (k : nat) : bool :=
  match k with
  | O => true
  | S k' => f z && all_from f (z + 1) k'
  end.

(** A byte that can stand inside a field of a line: no separator, no end
    of string, no end of line. *)
Definition field_byte (ch : ascii) : Prop :=
  ch <> ";"%char /\ ch <> NUL /\ ch <> LF.

(** The text of a [float], as far as the parser of the master depends on
    it: bytes of a field, at most ten. *)
Definition float_text (l : list ascii) : Prop :=
  Forall field_byte l /\ (length l <= 10)%nat.

(** The slot of the master's table shows state, duty, fan speed and error
    code of the module. *)
Definition reported (m : Inverter.inverter) (fan : Z)
    (s : Master.module_status) : Prop :=
  Master.state s = Inverter.fsm_code (Inverter.state m) /\
  Master.pwm s = Inverter.pwm m /\
  Master.fan s = fan /\
  Master.error s = Inverter.error_code m.

(** What a step wrote to Serial: the bytes after those that were there. *)
Definition written (before after : list ascii) : list ascii :=
  drop (length before) after.

(** A module as the DIP switch and [setup] leave its line buffer: an id of
    four bits, ten bytes, the write position at the start. *)
Definition listening (m : Inverter.inverter) : Prop :=
  0 <= Inverter.id m <= 15 /\ Inverter.cli_pos m = 0%nat /\
  length (Inverter.cli m) = 10%nat.

End Wire.

(** * Proof tools *)

(** Projections go through the setters by rewriting, one setter at a time;
    the equations are stated on a variable, where they hold by
    computation. *)
Ltac proj_step :=
  match goal with
  | |- context [?p (?s ?v ?X)] =>
      match type of X with
      | Inverter.inverter => idtac
      | Master.master => idtac
      | Master.module_status => idtac
      end;
      first
            [ let H := fresh "Hp" in
              assert (H : forall x, p (s v x) = p x)
                by (intro; reflexivity);
              rewrite (H X); clear H
            | let H := fresh "Hp" in
              assert (H : forall x, p (s v x) = v)
                by (intro; reflexivity);
              rewrite (H X); clear H ]
  end.

Ltac proj_simpl := repeat proj_step.

Ltac case_if :=
  match goal with
  | |- context [if ?c then _ else _] => destruct c eqn:?
  end.

(** What every step of a left fold keeps, the fold keeps. *)
Lemma fold_left_keeps {A B : Type} (P : A -> Prop) (f : A -> B -> A) :
  (forall a b, P a -> P (f a b)) ->
  forall (l : list B) (a : A), P a -> P (fold_left f l a).
Proof.
  intros Hf l. induction l as [| b l IH]; intros a Ha; [exact Ha |].
  cbn [fold_left]. apply IH, Hf, Ha.
Qed.

(** ** The 50 Hz drive *)




(** * Properties of the inverter module *)

Module InverterProofs.
Import Inverter.

#[local] Arguments f32 : simpl never.
#[local] Arguments f32_lit : simpl never.
#[local] Arguments flt : simpl never.
#[local] Arguments fgt : simpl never.
#[local] Arguments wrap8 : simpl never.
#[local] Arguments wrap16 : simpl never.
#[local] Arguments wrap32 : simpl never.
#[local] Arguments int16 : simpl never.
#[local] Arguments atoi : simpl never.
#[local] Arguments print_int : simpl never.
#[local] Arguments Z.eqb : simpl never.
#[local] Arguments Z.ltb : simpl never.
#[local] Arguments Z.leb : simpl never.
#[local] Arguments Z.gtb : simpl never.
#[local] Arguments Z.geb : simpl never.

(** What every step of a left fold keeps, the fold keeps. *)
Lemma fold_left_invariant {A B : Type} (P : A -> Prop) (f : A -> B -> A) :
  (forall a b, P a -> P (f a b)) ->
  forall (l : list B) (a : A), P a -> P (fold_left f l a).
Proof.
  intros Hf l. induction l as [| b l IH]; intros a Ha; [exact Ha |].
  cbn [fold_left]. apply IH, Hf, Ha.
Qed.

Lemma wrap16_small (z : Z) : 0 <= z < 65536 -> wrap16 z = z.
Proof. intros H. unfold wrap16. apply Z.mod_small. exact H. Qed.

(** ** The move of the tracker *)

Lemma s3_apply_rejects_up_at_314 :
  let m := set_direction 1 (set_pwm 314 fresh) in
  20 < pwm m < 315 /\ direction m = 1 /\ pwm (s3_apply m) <> pwm m + 1.
Proof. vm_compute. repeat split; discriminate. Qed.

(** C3, as amended.  A duty [d] with [20 < d < 315]: going up, the move of
    S3 gives [d+1] when [d < 314] and is rejected at [d = 314]; going down,
    it gives [d-1] when [d > 21] and is rejected at [d = 21].  A rejected
    move changes nothing. *)
Theorem s3_apply_step (m : inverter) :
  20 < pwm m < 315 ->
  (direction m = 1 -> pwm m < 314 -> pwm (s3_apply m) = pwm m + 1) /\
  (direction m = -1 -> 21 < pwm m -> pwm (s3_apply m) = pwm m - 1) /\
  (direction m = 1 -> pwm m = 314 -> s3_apply m = m) /\
  (direction m = -1 -> pwm m = 21 -> s3_apply m = m).
Proof.
  intros Hd. unfold s3_apply.
  repeat split; intros Hdir Hp; rewrite Hdir;
    [replace (1 <? 0) with false by reflexivity
    |replace (-1 <? 0) with true by reflexivity
    |replace (1 <? 0) with false by reflexivity
    |replace (-1 <? 0) with true by reflexivity].
  - rewrite wrap16_small by lia.
    destruct (Z.ltb_spec (pwm m + 1) 315); [reflexivity | lia].
  - rewrite wrap16_small by lia.
    destruct (Z.gtb_spec (pwm m + -1) 20); [reflexivity | lia].
  - rewrite Hp. reflexivity.
  - rewrite Hp. reflexivity.
Qed.

Lemma s3_apply_step_witness :
  let m := set_direction 1 (set_pwm 100 fresh) in
  pwm (s3_apply m) = 101 /\
  pwm (s3_apply (set_direction (-1) m)) = 99 /\
  s3_apply (set_pwm 314 m) = set_pwm 314 m /\
  s3_apply (set_direction (-1) (set_pwm 21 m))
    = set_direction (-1) (set_pwm 21 m).
Proof.
  intro m.
  split; [| split; [| split]].
  - destruct (s3_apply_step m) as (H & _); [vm_compute; split; reflexivity |].
    apply H; [reflexivity | vm_compute; reflexivity].
  - destruct (s3_apply_step (set_direction (-1) m)) as (_ & H & _);
      [vm_compute; split; reflexivity |].
    apply H; [reflexivity | vm_compute; reflexivity].
  - destruct (s3_apply_step (set_pwm 314 m)) as (_ & _ & H & _);
      [vm_compute; split; reflexivity |].
    apply H; reflexivity.
  - destruct (s3_apply_step (set_direction (-1) (set_pwm 21 m)))
      as (_ & _ & _ & H); [vm_compute; split; reflexivity |].
    apply H; reflexivity.
Defined.

(** ** The interlocks *)

Lemma check_cap_low_S4 (r : readings) (m : inverter) :
  state m = S4 -> check_cap_low r m = m.
Proof. intros H. unfold check_cap_low. rewrite H. reflexivity. Qed.

Lemma check_cap_high_S4 (r : readings) (m : inverter) :
  state m = S4 -> check_cap_high r m = m.
Proof. intros H. unfold check_cap_high. rewrite H. reflexivity. Qed.

Lemma check_over_current_not_S2 (r : readings) (m : inverter) :
  state m <> S2 -> check_over_current r m = m.
Proof.
  intros H. unfold check_over_current.
  destruct (state m); try reflexivity. contradiction.
Qed.

Lemma check_under_current_S4 (r : readings) (m : inverter) :
  state m = S4 -> check_under_current r m = m.
Proof. intros H. unfold check_under_current. rewrite H. reflexivity. Qed.

Lemma check_over_temp_S4 (m : inverter) :
  state m = S4 -> check_over_temp m = m.
Proof. intros H. unfold check_over_temp. rewrite H. reflexivity. Qed.

Lemma check_under_temp_S4 (m : inverter) :
  state m = S4 -> check_under_temp m = m.
Proof. intros H. unfold check_under_temp. rewrite H. reflexivity. Qed.

(** Once a check has fired the later ones are skipped. *)
Lemma finish_after_fault (e : Z) (m : inverter) :
  let m' := write_pwm (fault_led (fault e m)) in
  state m' = S4 /\ pwm m' = 0 /\ OCR1B m' = 0 /\
  sys_enable m' = false /\ sys_output m' = false /\ sys_fault m' = false /\
  error_code m' = e.
Proof.
  intros m'. subst m'. unfold write_pwm.
  replace (pwm (fault_led (fault e m))) with 0 by reflexivity.
  replace (OCR1B (fault_led (fault e m))) with (OCR1B m) by reflexivity.
  destruct (Z.eqb_spec 0 (OCR1B m)) as [E | E];
    repeat split; try reflexivity.
  symmetry. exact E.
Qed.

(** What the checks do with a shorted output in S2. *)
Lemma interlocks_shorted (r : readings) (m : inverter) :
  state m = S2 -> 1 < pwm m < 5 -> fgt (current r) (f32 2) = true ->
  interlocks r m =
    fault (if flt (cap_voltage r) (f32 12) then ERROR_CAP_VOLTAGE_LOW
           else if fgt (cap_voltage r) (f32 370) then ERROR_CAP_VOLTAGE_HIGH
           else ERROR_OVER_CURRENT) m.
Proof.
  intros Hs Hp Hc.
  assert (Hgt : (pwm m >? 1) = true) by lia.
  assert (Hlt : (pwm m <? 5) = true) by lia.
  unfold interlocks.
  assert (Hlater : forall e,
    check_under_temp (check_over_temp (check_under_current r (fault e m)))
    = fault e m).
  { intros e.
    rewrite check_under_current_S4, check_over_temp_S4, check_under_temp_S4;
      reflexivity. }
  unfold check_cap_low. rewrite Hs.
  replace (negb (fsm_eqb S2 S4)) with true by reflexivity.
  rewrite andb_true_l.
  destruct (flt (cap_voltage r) (f32 12)).
  - rewrite check_cap_high_S4 by reflexivity.
    rewrite check_over_current_not_S2 by discriminate.
    apply Hlater.
  - unfold check_cap_high. rewrite Hs.
    replace (negb (fsm_eqb S2 S4)) with true by reflexivity.
    rewrite andb_true_l.
    destruct (fgt (cap_voltage r) (f32 370)).
    + rewrite check_over_current_not_S2 by discriminate.
      apply Hlater.
    + unfold check_over_current.
      rewrite Hs, Hgt, Hlt, Hc.
      replace (fsm_eqb S2 S2) with true by reflexivity.
      rewrite !andb_true_l.
      apply Hlater.
Qed.

Lemma overcurrent_masked_by_cap_low :
  let m := set_pwm 3 (set_state S2 fresh) in
  let r := Build_readings (f32 30) (f32_lit 5 2) (f32 75) (f32 5) in
  state m = S2 /\ 1 < pwm m < 5 /\ fgt (current r) (f32 2) = true /\
  error_code (finish_pass r m) <> ERROR_OVER_CURRENT.
Proof. vm_compute. repeat split; discriminate. Qed.

(** C4, as amended.  The interlock pass finds the module in S2 with a duty
    strictly between 1 and 5 and a current above 2.0 A: the pass ends in S4
    with duty 0, the compare register 0, SYS_ENABLE, SYS_OUTPUT and (active
    low) SYS_FAULT low.  The error is OverCurrent when the capacitor voltage
    is neither below 12 V nor above 370 V; below 12 V it is CapLow, above
    370 V CapHigh, because those checks come first. *)
Theorem overcurrent_interlock (r : readings) (m : inverter) :
  state m = S2 -> 1 < pwm m < 5 -> fgt (current r) (f32 2) = true ->
  let m' := finish_pass r m in
  state m' = S4 /\ pwm m' = 0 /\ OCR1B m' = 0 /\
  sys_enable m' = false /\ sys_output m' = false /\ sys_fault m' = false /\
  error_code m' =
    if flt (cap_voltage r) (f32 12) then ERROR_CAP_VOLTAGE_LOW
    else if fgt (cap_voltage r) (f32 370) then ERROR_CAP_VOLTAGE_HIGH
    else ERROR_OVER_CURRENT.
Proof.
  intros Hs Hp Hc m'. subst m'. unfold finish_pass.
  rewrite (interlocks_shorted r m Hs Hp Hc).
  apply finish_after_fault.
Qed.

Lemma overcurrent_interlock_witness :
  let m := set_pwm 3 (set_state S2 fresh) in
  let r := Build_readings (f32 30) (f32_lit 5 2) (f32 75) (f32 16) in
  let m' := finish_pass r m in
  state m' = S4 /\ error_code m' = ERROR_OVER_CURRENT /\ pwm m' = 0 /\
  sys_enable m' = false /\ sys_output m' = false.
Proof.
  intros m r m'.
  destruct (overcurrent_interlock r m) as (H1 & H2 & _ & H4 & H5 & _ & H7).
  - reflexivity.
  - vm_compute; split; reflexivity.
  - vm_compute; reflexivity.
  - repeat split; assumption.
Defined.

(** ** The command handler *)

Section Commands.

Variable print_float : float -> list ascii.
Variable clock : nat -> Z.
Variable fan_speed : nat -> Z.

#[local] Abbreviation serial_byte := (serial_byte print_float clock fan_speed).
#[local] Abbreviation serial_input :=
  (serial_input print_float clock fan_speed).
#[local] Abbreviation exec_command :=
  (exec_command print_float clock fan_speed).

Lemma same_but_cli_set_cli (m : inverter) (l : list ascii) (k : nat) :
  same_but_cli m (set_cli_pos k (set_cli l m)).
Proof. unfold same_but_cli; repeat split. Qed.

(** A byte that ends the line: the terminator is replaced by NUL, the
    command runs if the line is long enough and carries this module's id,
    and the buffer starts over. *)
Lemma serial_byte_complete (r : readings) (c : ascii) (m : inverter) :
  completes_line c m = true ->
  serial_byte r c m =
    let m1 := set_cli (command_line m) m in
    set_cli_pos 0%nat
      (if (1 <? cli_pos m)%nat && (atoi (drop 1 (command_line m)) =? id m)
       then exec_command r m1 else m1).
Proof.
  unfold completes_line, Inverter.serial_byte, command_line.
  intros H. apply andb_true_iff in H as [Hs Ht].
  apply negb_true_iff in Hs.
  cbn [cli cli_pos id set_cli]. rewrite Hs, Ht.
  rewrite list_insert_insert_eq. reflexivity.
Qed.

(** Any other byte only lands in the buffer. *)
Lemma serial_byte_incomplete (r : readings) (c : ascii) (m : inverter) :
  completes_line c m = false ->
  serial_byte r c m =
    if isspace c then set_cli (<[cli_pos m := c]> (cli m)) m
    else set_cli_pos (S (cli_pos m)) (set_cli (<[cli_pos m := c]> (cli m)) m).
Proof.
  unfold completes_line, Inverter.serial_byte.
  intros H. cbn [cli cli_pos id set_cli].
  destruct (isspace c); [reflexivity |].
  cbn [negb andb] in H. rewrite H. reflexivity.
Qed.


Lemma serial_input_cons (r : readings) (c : ascii) (l : list ascii)
    (m : inverter) :
  serial_input r (c :: l) m = serial_input r l (serial_byte r c m).
Proof. reflexivity. Qed.

Lemma serial_input_app (r : readings) (l1 l2 : list ascii) (m : inverter) :
  serial_input r (l1 ++ l2) m = serial_input r l2 (serial_input r l1 m).
Proof. unfold Inverter.serial_input. apply fold_left_app. Qed.

(** Plain bytes fill the buffer from [cli_pos] on. *)
Lemma serial_input_plain (r : readings) (l : list ascii) :
  forall m : inverter,
  Forall plain l ->
  (cli_pos m + length l <= 9)%nat ->
  length (cli m) = 10%nat ->
  serial_input r l m =
    set_cli_pos (cli_pos m + length l)
      (set_cli (take (cli_pos m) (cli m) ++ l
                  ++ drop (cli_pos m + length l) (cli m)) m).
Proof.
  induction l as [| c l IH]; intros m Hl Hk Hn.
  - cbn [length app]. rewrite Nat.add_0_r, take_drop.
    destruct m; reflexivity.
  - apply Forall_cons in Hl as [[Hs Hc] Hl]. cbn [length] in Hk.
    rewrite serial_input_cons.
    assert (E : completes_line c m = false).
    { unfold completes_line. rewrite Hs. cbn [negb andb].
      apply orb_false_iff. split.
      - apply Nat.eqb_neq. unfold LINE_LENGTH. lia.
      - apply Ascii.eqb_neq. exact Hc. }
    rewrite serial_byte_incomplete by exact E. rewrite Hs.
    rewrite IH; cbn [cli cli_pos set_cli set_cli_pos];
      [| exact Hl | lia | rewrite length_insert; exact Hn].
    assert (Hlt : (cli_pos m < length (cli m))%nat) by lia.
    rewrite (take_S_r _ _ c) by (apply list_lookup_insert_eq; exact Hlt).
    rewrite take_insert_ge by lia.
    rewrite drop_insert_lt by lia.
    replace (S (cli_pos m) + length l)%nat
      with (cli_pos m + S (length l))%nat by lia.
    rewrite <- app_assoc. cbn [app].
    destruct m; reflexivity.
Qed.

(** A whole line that arrives in an empty buffer. *)
Lemma serial_input_line (r : readings) (l : list ascii) (m : inverter) :
  Forall plain l ->
  (length l <= 9)%nat ->
  cli_pos m = 0%nat ->
  length (cli m) = 10%nat ->
  serial_input r (l ++ [";"%char]) m =
    let buf := l ++ NUL :: drop (S (length l)) (cli m) in
    let m1 := set_cli_pos (length l) (set_cli buf m) in
    set_cli_pos 0%nat
      (if (1 <? length l)%nat && (atoi (drop 1 buf) =? id m)
       then exec_command r m1 else m1).
Proof.
  intros Hl Hk H0 Hn.
  rewrite serial_input_app.
  rewrite (serial_input_plain r l m)
    by first [assumption | rewrite H0; cbn; lia].
  rewrite H0, take_0. cbn [app Nat.add].
  unfold Inverter.serial_input. cbn [fold_left].
  rewrite serial_byte_complete.
  2:{ unfold completes_line. cbn [set_cli_pos cli_pos].
      rewrite orb_true_r. reflexivity. }
  unfold command_line. cbn [cli cli_pos set_cli set_cli_pos id].
  assert (Hb : <[length l := NUL]> (l ++ drop (length l) (cli m))
               = l ++ NUL :: drop (S (length l)) (cli m)).
  { rewrite insert_app_r_alt by lia. rewrite Nat.sub_diag.
    f_equal. destruct (drop (length l) (cli m)) as [| x rest] eqn:E.
    - apply (f_equal length) in E. rewrite length_drop in E. cbn in E. lia.
    - cbn. f_equal.
      replace (S (length l)) with (length l + 1)%nat by lia.
      rewrite <- drop_drop, E. reflexivity. }
  rewrite Hb. cbv zeta.
  destruct m; reflexivity.
Qed.

(** The ids the DIP switches can give, in a command line. *)
Lemma id_field (i : Z) (rest : list ascii) :
  0 <= i <= 15 ->
  Forall plain (print_int i) /\
  (1 <= length (print_int i) <= 2)%nat /\
  atoi (print_int i ++ NUL :: rest) = i.
Proof.
  intros H.
  assert (Hi : i = 0 \/ i = 1 \/ i = 2 \/ i = 3 \/ i = 4 \/ i = 5 \/ i = 6
               \/ i = 7 \/ i = 8 \/ i = 9 \/ i = 10 \/ i = 11 \/ i = 12
               \/ i = 13 \/ i = 14 \/ i = 15) by lia.
  clear H.
  repeat (destruct Hi as [Hi | Hi]; [subst i | ]); try subst i;
    (split; [| split]).
  all: try (vm_compute; reflexivity).
  all: try (vm_compute; lia).
  all: apply List.Forall_forall; intros c Hc; vm_compute in Hc;
    repeat (destruct Hc as [<- | Hc]); try contradiction;
    (split; [vm_compute; reflexivity | discriminate]).
Qed.

Lemma cmd_halt_end (m : inverter) :
  let m1 := cmd_halt m in
  state m1 = S5 /\ pwm m1 = 0 /\ OCR1B m1 = 0 /\
  sys_enable m1 = false /\ sys_output m1 = false /\
  eeprom_writes m1 =
    if fsm_eqb (state m) S5 then eeprom_writes m
    else (EEPROM_ADDRESS_HALTED, 1) :: eeprom_writes m.
Proof.
  intros m1. subst m1. unfold cmd_halt.
  replace (state (dump_energy m)) with (state m) by reflexivity.
  destruct (fsm_eqb (state m) S5); repeat split; reflexivity.
Qed.

Lemma cmd_halt_idem (m : inverter) : cmd_halt (cmd_halt m) = cmd_halt m.
Proof.
  destruct m as [? ? st ? ? ? ? ? ? ? ? ? ? ? ? ? ? ? ? ? ? ?].
  destruct st; vm_compute; reflexivity.
Qed.

(** The command does not look at the line buffer. *)
Lemma cmd_halt_cli_pos (k : nat) (m : inverter) :
  cmd_halt (set_cli_pos k m) = set_cli_pos k (cmd_halt m).
Proof.
  destruct m as [? ? st ? ? ? ? ? ? ? ? ? ? ? ? ? ? ? ? ? ? ?].
  destruct st; vm_compute; reflexivity.
Qed.

Lemma cmd_halt_cli (l : list ascii) (m : inverter) :
  cmd_halt (set_cli l m) = set_cli l (cmd_halt m).
Proof.
  destruct m as [? ? st ? ? ? ? ? ? ? ? ? ? ? ? ? ? ? ? ? ? ?].
  destruct st; vm_compute; reflexivity.
Qed.

Lemma cmd_halt_id (m : inverter) : id (cmd_halt m) = id m.
Proof.
  unfold cmd_halt. destruct (fsm_eqb (state (dump_energy m)) S5); reflexivity.
Qed.

(** What a halt line does when it arrives in an empty buffer. *)
Lemma serial_input_halt (r : readings) (i : Z) (m : inverter) :
  cli_pos m = 0%nat -> length (cli m) = 10%nat -> id m = i -> 0 <= i <= 15 ->
  let l := str "h" ++ print_int i in
  serial_input r (halt_command i) m =
    set_cli_pos 0%nat
      (set_cli (l ++ NUL :: drop (S (length l)) (cli m)) (cmd_halt m)).
Proof.
  intros H0 Hn Hi Hid l.
  destruct (id_field i (drop (S (length l)) (cli m)) Hid)
    as (Hp & Hlen & Hatoi).
  assert (Hl : (2 <= length l <= 3)%nat)
    by (subst l; cbn [str list_ascii_of_string app length]; lia).
  unfold halt_command. rewrite app_assoc.
  fold l.
  replace (str ";") with [";"%char] by reflexivity.
  rewrite serial_input_line; try assumption; try lia.
  - cbv zeta.
    assert (E1 : (1 <? length l)%nat = true) by (apply Nat.ltb_lt; lia).
    assert (E2 : atoi (drop 1 (l ++ NUL :: drop (S (length l)) (cli m))) = i)
      by exact Hatoi.
    rewrite E1, E2, Hi, Z.eqb_refl, andb_true_l.
    unfold Inverter.exec_command.
    replace (hd NUL (cli (set_cli_pos (length l)
               (set_cli (l ++ NUL :: drop (S (length l)) (cli m)) m))))
      with "h"%char by reflexivity.
    replace (Ascii.eqb "h" "i") with false by reflexivity.
    replace (Ascii.eqb "h" "h") with true by reflexivity.
    rewrite cmd_halt_cli_pos, cmd_halt_cli.
    destruct (cmd_halt m); reflexivity.
  - subst l. constructor; [| exact Hp].
    split; [vm_compute; reflexivity | discriminate].
Qed.

(** C7.  The line [h<id>;] arrives at the module with that id (one of the
    sixteen a DIP switch gives), in an empty line buffer, once and then a
    second time.  After the first line the module is in S5 with duty 0,
    compare register 0, SYS_ENABLE and SYS_OUTPUT low; the second line
    leaves exactly the state the first one left.  The halted latch is
    written by the first line, and only if the module was not in S5 then;
    the second line writes nothing to the EEPROM. *)
Theorem halt_idempotent (r : readings) (m : inverter) :
  cli_pos m = 0%nat -> length (cli m) = 10%nat -> 0 <= id m <= 15 ->
  let m1 := serial_input r (halt_command (id m)) m in
  let m2 := serial_input r (halt_command (id m)) m1 in
  (state m1 = S5 /\ pwm m1 = 0 /\ OCR1B m1 = 0 /\
   sys_enable m1 = false /\ sys_output m1 = false) /\
  m2 = m1 /\
  eeprom_writes m1 =
    (if fsm_eqb (state m) S5 then eeprom_writes m
     else (EEPROM_ADDRESS_HALTED, 1) :: eeprom_writes m) /\
  eeprom_writes m2 = eeprom_writes m1.
Proof.
  intros H0 Hn Hid m1 m2.
  set (l := str "h" ++ print_int (id m)).
  set (rest := drop (S (length l)) (cli m)).
  assert (Hm1 : m1 = set_cli_pos 0%nat
                       (set_cli (l ++ NUL :: rest) (cmd_halt m)))
    by (apply serial_input_halt; auto).
  assert (Hl : (2 <= length l <= 3)%nat).
  { destruct (id_field (id m) [] Hid) as (_ & Hlen & _).
    subst l; cbn [str list_ascii_of_string app length]; lia. }
  assert (Hrest : length rest = (10 - S (length l))%nat)
    by (subst rest; rewrite length_drop; lia).
  assert (Hm2 : m2 = m1).
  { subst m2. rewrite (serial_input_halt r (id m) m1).
    - fold l. rewrite Hm1. proj_simpl.
      replace (drop (S (length l)) (l ++ NUL :: rest)) with rest.
      + replace (cmd_halt (set_cli_pos 0%nat
                   (set_cli (l ++ NUL :: rest) (cmd_halt m))))
          with (set_cli_pos 0%nat
                  (set_cli (l ++ NUL :: rest) (cmd_halt (cmd_halt m))))
          by (rewrite cmd_halt_cli_pos, cmd_halt_cli; reflexivity).
        rewrite cmd_halt_idem.
        destruct (cmd_halt m); reflexivity.
      + replace (l ++ NUL :: rest) with ((l ++ [NUL]) ++ rest)
          by (rewrite <- app_assoc; reflexivity).
        rewrite drop_app_length'; [reflexivity |].
        rewrite length_app. cbn [length]. lia.
    - rewrite Hm1. proj_simpl. reflexivity.
    - rewrite Hm1. proj_simpl.
      rewrite length_app. cbn [length]. lia.
    - rewrite Hm1. proj_simpl. apply cmd_halt_id.
    - exact Hid. }
  destruct (cmd_halt_end m) as (E1 & E2 & E3 & E4 & E5 & E6).
  split; [| split; [exact Hm2 | split; [| rewrite Hm2; reflexivity]]].
  - rewrite Hm1. proj_simpl. repeat split; assumption.
  - rewrite Hm1. proj_simpl. exact E6.
Qed.



End Commands.

Lemma halt_idempotent_witness :
  let m := set_state S3 (set_pwm 120 (setup 3 (fun _ => 0))) in
  let r := sample_readings in
  let m1 := serial_input sample_print sample_clock sample_fan r (str "h3;") m in
  state m1 = S5 /\ pwm m1 = 0 /\
  eeprom_writes m1 = [(EEPROM_ADDRESS_HALTED, 1)].
Proof.
  intros m r m1.
  destruct (halt_idempotent sample_print sample_clock sample_fan r m)
    as ((H1 & H2 & _) & _ & H3 & _).
  - reflexivity.
  - reflexivity.
  - vm_compute. split; discriminate.
  - repeat split; assumption.
Defined.





(** ** The duty stays in range *)

Lemma duty_ok_frame (m m' : inverter) :
  pwm m' = pwm m -> OCR1B m' = OCR1B m -> direction m' = direction m ->
  duty_ok m -> duty_ok m'.
Proof. unfold duty_ok. intros -> -> ->. exact (fun H => H). Qed.

Lemma duty_ok_zero (m m' : inverter) :
  pwm m' = 0 -> (OCR1B m' = 0 \/ OCR1B m' = OCR1B m) ->
  direction m' = direction m ->
  duty_ok m -> duty_ok m'.
Proof.
  unfold duty_ok. intros -> Ho -> (_ & H2 & H3).
  repeat split; try lia; try exact H3; destruct Ho as [-> | ->]; lia.
Qed.

Lemma s2_ramp_duty (r : readings) (m : inverter) :
  0 <= pwm m <= 314 ->
  (pwm (s2_ramp r m) = pwm m \/
   (pwm m < 275 /\ pwm (s2_ramp r m) = pwm m + 1) \/
   (5 <= pwm m /\ pwm (s2_ramp r m) = pwm m - 5)) /\
  OCR1B (s2_ramp r m) = OCR1B m /\ direction (s2_ramp r m) = direction m.
Proof.
  intros Hp. unfold s2_ramp.
  destruct (Z.ltb_spec (pwm m) 275) as [Hlt | Hge];
    destruct (fgt (voltage r) (f32 18)); cbn [andb].
  1: { proj_simpl. rewrite wrap16_small by lia.
       repeat split; try reflexivity. right; left. split; [lia | reflexivity]. }
  all: destruct (Z.leb_spec 5 (pwm m)) as [H5 | H5];
    destruct (flt (voltage r) (f32 18)); cbn [andb]; proj_simpl;
    rewrite ?wrap16_small by lia;
    repeat split; try reflexivity;
    try (left; reflexivity);
    try (right; right; split; [lia | reflexivity]).
Qed.

Lemma s3_apply_duty (m : inverter) :
  0 <= pwm m <= 314 -> (direction m = 1 \/ direction m = -1) ->
  (pwm m = 0 -> direction m = 1) ->
  (pwm (s3_apply m) = pwm m \/
   (pwm (s3_apply m) = pwm m + 1 /\ pwm (s3_apply m) < 315) \/
   (pwm (s3_apply m) = pwm m - 1 /\ 20 < pwm (s3_apply m))) /\
  OCR1B (s3_apply m) = OCR1B m /\ direction (s3_apply m) = direction m.
Proof.
  intros Hp Hd H0. unfold s3_apply.
  destruct Hd as [Hd | Hd]; rewrite Hd.
  - replace (1 <? 0) with false by reflexivity.
    rewrite wrap16_small by lia.
    destruct (Z.ltb_spec (pwm m + 1) 315); proj_simpl;
      repeat split; try reflexivity; try exact Hd.
    + right; left. split; [reflexivity | lia].
    + left; reflexivity.
  - replace (-1 <? 0) with true by reflexivity.
    assert (pwm m <> 0) by (intros E; specialize (H0 E); lia).
    rewrite wrap16_small by lia.
    destruct (Z.gtb_spec (pwm m + -1) 20); proj_simpl;
      repeat split; try reflexivity; try exact Hd.
    + right; right. split; [reflexivity | lia].
    + left; reflexivity.
Qed.

Lemma fault_duty (e : Z) (m : inverter) : duty_ok m -> duty_ok (fault e m).
Proof. apply duty_ok_zero; [reflexivity | right; reflexivity | reflexivity]. Qed.

Section Duty.

Variable print_float : float -> list ascii.
Variable clock : nat -> Z.
Variable fan_speed : nat -> Z.

Lemma poll_temperature_duty (inp : inputs) (m : inverter) :
  duty_ok m -> duty_ok (poll_temperature clock inp m).
Proof.
  apply duty_ok_frame; unfold poll_temperature, millis;
    cbv beta iota zeta; repeat case_if; reflexivity.
Qed.

Lemma cmd_info_duty (r : readings) (m : inverter) :
  duty_ok m -> duty_ok (cmd_info print_float fan_speed r m).
Proof. apply duty_ok_frame; reflexivity. Qed.

Lemma cmd_halt_duty (m : inverter) : duty_ok m -> duty_ok (cmd_halt m).
Proof.
  apply duty_ok_zero; unfold cmd_halt; cbv zeta;
    [| left |]; case_if; reflexivity.
Qed.

Lemma cmd_start_duty (m : inverter) :
  duty_ok m -> duty_ok (cmd_start clock m).
Proof.
  apply duty_ok_zero; unfold cmd_start, millis; cbv beta iota zeta;
    [| right |]; case_if; reflexivity.
Qed.

Lemma cmd_reset_duty (m : inverter) :
  duty_ok m -> duty_ok (cmd_reset clock m).
Proof.
  apply duty_ok_zero; unfold cmd_reset, millis; cbv beta iota zeta;
    [| left |]; case_if; reflexivity.
Qed.

Lemma cmd_power_duty (m : inverter) : duty_ok m -> duty_ok (cmd_power m).
Proof.
  apply duty_ok_frame; unfold cmd_power; cbv zeta;
    repeat case_if; reflexivity.
Qed.

Lemma exec_command_duty (r : readings) (m : inverter) :
  duty_ok m -> duty_ok (exec_command print_float clock fan_speed r m).
Proof.
  intros H. unfold exec_command. cbv zeta.
  repeat case_if;
    auto using cmd_info_duty, cmd_halt_duty, cmd_start_duty, cmd_reset_duty,
      cmd_power_duty.
Qed.

Lemma duty_ok_cli (m : inverter) (l : list ascii) (k : nat) :
  duty_ok m -> duty_ok (set_cli_pos k (set_cli l m)).
Proof. apply duty_ok_frame; reflexivity. Qed.

Lemma duty_ok_cli_pos (m : inverter) (k : nat) :
  duty_ok m -> duty_ok (set_cli_pos k m).
Proof. apply duty_ok_frame; reflexivity. Qed.

Lemma duty_ok_set_cli (m : inverter) (l : list ascii) :
  duty_ok m -> duty_ok (set_cli l m).
Proof. apply duty_ok_frame; reflexivity. Qed.

Lemma serial_byte_duty (r : readings) (c : ascii) (m : inverter) :
  duty_ok m -> duty_ok (serial_byte print_float clock fan_speed r c m).
Proof.
  intros H.
  destruct (completes_line c m) eqn:E.
  - rewrite serial_byte_complete by exact E. cbv zeta.
    apply duty_ok_cli_pos. case_if.
    + apply exec_command_duty, duty_ok_set_cli, H.
    + apply duty_ok_set_cli, H.
  - rewrite serial_byte_incomplete by exact E.
    case_if; [apply duty_ok_set_cli | apply duty_ok_cli]; exact H.
Qed.

Lemma serial_input_duty (r : readings) (l : list ascii) :
  forall m : inverter,
  duty_ok m -> duty_ok (serial_input print_float clock fan_speed r l m).
Proof.
  induction l as [| c l IH]; intros m H; [exact H |].
  rewrite serial_input_cons. apply IH, serial_byte_duty, H.
Qed.


Lemma s0_step_duty (m : inverter) : duty_ok m -> duty_ok (s0_step clock m).
Proof.
  apply duty_ok_frame; unfold s0_step, millis; cbv beta iota zeta;
    case_if; reflexivity.
Qed.

Lemma s1_step_duty (r : readings) (m : inverter) :
  duty_ok m -> duty_ok (s1_step r m).
Proof.
  intros H. unfold s1_step. case_if; [| exact H].
  revert H. apply duty_ok_zero; [reflexivity | right; reflexivity | reflexivity].
Qed.

Lemma s2_low_voltage_duty (r : readings) (m : inverter) :
  duty_ok m -> duty_ok (s2_low_voltage clock r m).
Proof.
  intros H. unfold s2_low_voltage, millis. cbv beta iota zeta.
  case_if; [| exact H].
  revert H. apply duty_ok_zero; [reflexivity | right; reflexivity | reflexivity].
Qed.

Lemma s2_connect_duty (r : readings) (m : inverter) :
  duty_ok m -> duty_ok (s2_connect r m).
Proof.
  apply duty_ok_frame; unfold s2_connect; case_if; reflexivity.
Qed.

Lemma s2_ramp_duty_ok (r : readings) (m : inverter) :
  duty_ok m -> duty_ok (s2_ramp r m).
Proof.
  intros (Hp & Ho & Hd).
  destruct (s2_ramp_duty r m Hp) as (H1 & H2 & H3).
  unfold duty_ok. rewrite H2, H3.
  repeat split; try lia; try exact Hd;
    destruct H1 as [-> | [[? ->] | [? ->]]]; lia.
Qed.

Lemma s3_low_voltage_duty (r : readings) (m : inverter) :
  duty_ok m -> duty_ok (s3_low_voltage clock r m).
Proof.
  intros H. unfold s3_low_voltage, millis. cbv beta iota zeta.
  case_if; [| exact H].
  revert H. apply duty_ok_zero; [reflexivity | right; reflexivity | reflexivity].
Qed.

(** The three steps that choose the direction leave it at one step up or
    down, and up when the duty is zero. *)
Lemma s3_direction_duty (r : readings) (m : inverter) :
  duty_ok m ->
  let m' := set_last_power (power r) (s3_floor (s3_limit r (s3_observe r m))) in
  duty_ok m' /\ (pwm m' = 0 -> direction m' = 1) /\ pwm m' = pwm m.
Proof.
  intros (Hp & Ho & Hd) m'. subst m'.
  assert (H1 : duty_ok (s3_observe r m) /\ pwm (s3_observe r m) = pwm m).
  { unfold s3_observe, duty_ok. repeat case_if; proj_simpl;
      repeat split; try lia; auto.
    destruct Hd as [-> | ->]; [right | left]; reflexivity. }
  destruct H1 as ((Hp1 & Ho1 & Hd1) & E1).
  set (m1 := s3_observe r m) in *.
  assert (H2 : duty_ok (s3_limit r m1) /\ pwm (s3_limit r m1) = pwm m1).
  { unfold s3_limit, duty_ok. case_if; proj_simpl;
      repeat split; try lia; auto. }
  destruct H2 as ((Hp2 & Ho2 & Hd2) & E2).
  set (m2 := s3_limit r m1) in *.
  unfold s3_floor.
  destruct (Z.eqb_spec (pwm m2) 0) as [E | E]; unfold duty_ok; proj_simpl;
    repeat split; try lia; auto.
Qed.

Lemma s3_apply_duty_ok (m : inverter) :
  duty_ok m -> (pwm m = 0 -> direction m = 1) -> duty_ok (s3_apply m).
Proof.
  intros (Hp & Ho & Hd) H0.
  destruct (s3_apply_duty m Hp Hd H0) as (H1 & H2 & H3).
  unfold duty_ok. rewrite H2, H3.
  repeat split; try lia; try exact Hd;
    destruct H1 as [-> | [[? ?] | [? ?]]]; lia.
Qed.

Lemma fsm_step_duty (r : readings) (m : inverter) :
  duty_ok m -> duty_ok (fsm_step clock r m).
Proof.
  intros H. unfold fsm_step. destruct (state m).
  - apply s0_step_duty, H.
  - apply s1_step_duty, H.
  - apply s2_ramp_duty_ok, s2_connect_duty, s2_low_voltage_duty, H.
  - destruct (s3_direction_duty r (s3_low_voltage clock r m))
      as (H1 & H2 & _); [apply s3_low_voltage_duty, H |].
    apply s3_apply_duty_ok; assumption.
  - exact H.
  - exact H.
Qed.

Lemma interlocks_duty (r : readings) (m : inverter) :
  duty_ok m -> duty_ok (interlocks r m).
Proof.
  intros H. unfold interlocks.
  assert (H1 : duty_ok (check_cap_low r m))
    by (unfold check_cap_low; case_if; [apply fault_duty |]; exact H).
  assert (H2 : duty_ok (check_cap_high r (check_cap_low r m)))
    by (unfold check_cap_high; case_if; [apply fault_duty |]; exact H1).
  set (m2 := check_cap_high r (check_cap_low r m)) in *.
  assert (H3 : duty_ok (check_over_current r m2))
    by (unfold check_over_current; case_if; [apply fault_duty |]; exact H2).
  set (m3 := check_over_current r m2) in *.
  assert (H4 : duty_ok (check_under_current r m3))
    by (unfold check_under_current; case_if; [apply fault_duty |]; exact H3).
  set (m4 := check_under_current r m3) in *.
  assert (H5 : duty_ok (check_over_temp m4))
    by (unfold check_over_temp; case_if; [apply fault_duty |]; exact H4).
  set (m5 := check_over_temp m4) in *.
  unfold check_under_temp; case_if; [apply fault_duty |]; exact H5.
Qed.

Lemma fault_led_duty (m : inverter) : duty_ok m -> duty_ok (fault_led m).
Proof. apply duty_ok_frame; reflexivity. Qed.

Lemma write_pwm_duty (m : inverter) :
  duty_ok m -> duty_ok (write_pwm m) /\ OCR1B (write_pwm m) = pwm (write_pwm m).
Proof.
  intros (Hp & Ho & Hd). unfold write_pwm, duty_ok.
  destruct (Z.eqb_spec (pwm m) (OCR1B m)) as [E | E]; proj_simpl;
    repeat split; try lia; auto.
Qed.

Lemma loop_duty (inp : inputs) (m : inverter) :
  duty_ok m ->
  let m' := loop print_float clock fan_speed inp m in
  duty_ok m' /\ OCR1B m' = pwm m'.
Proof.
  intros H m'. subst m'. unfold loop. cbv zeta.
  apply write_pwm_duty, fault_led_duty, interlocks_duty, fsm_step_duty,
    serial_input_duty, poll_temperature_duty.
  case_if; [| exact H].
  revert H. apply duty_ok_frame; reflexivity.
Qed.

Lemma run_duty (inps : list inputs) (m : inverter) :
  duty_ok m -> duty_ok (run print_float clock fan_speed inps m).
Proof.
  unfold run. apply fold_left_invariant.
  intros m0 inp H. exact (proj1 (loop_duty inp m0 H)).
Qed.

End Duty.

Lemma setup_duty (dip : Z) (rom : Z -> Z) : duty_ok (setup dip rom).
Proof. unfold duty_ok. repeat split; try (right; reflexivity); discriminate. Qed.

Lemma s2_to_s3_keeps_duty :
  let m := set_flag_over true (set_pwm 100 (set_state S2 fresh)) in
  let r := Build_readings (f32 20) (f32 1) (f32 20) (f32 325) in
  let m' := fsm_step sample_clock r m in
  state m = S2 /\ state m' = S3 /\ pwm m' <> 0.
Proof. vm_compute. repeat split; discriminate. Qed.

(** C10, as amended.  Every pass of [loop] and every command byte keeps
    the duty in 0..314, [setup] starts it there, and the compare register
    holds a duty at the end of every pass, so that it never reaches TOP
    (325).  The ramp of S2 adds one only below 275 and takes five off only
    from 5 up; the move of S3 adds one only when the result is below 315
    and takes one off only when the result is above 20; every fault, and
    the halt, start and reset commands, leave the duty at 0.  (A
    transition of the state machine need not: S2 to S3 keeps the duty the
    ramp has reached.) *)
Theorem duty_invariant :
  (forall dip rom, duty_ok (setup dip rom)) /\
  (forall pf clock fan inp m, duty_ok m ->
     let m' := loop pf clock fan inp m in
     duty_ok m' /\ OCR1B m' = pwm m' /\ OCR1B m' < TOP) /\
  (forall pf clock fan r c m, duty_ok m ->
     duty_ok (serial_byte pf clock fan r c m)) /\
  (forall pf clock fan inps dip rom,
     let m := run pf clock fan inps (setup dip rom) in
     0 <= pwm m <= 314 /\ OCR1B m < TOP) /\
  (forall r m, duty_ok m ->
     pwm (s2_ramp r m) = pwm m \/
     (pwm m < 275 /\ pwm (s2_ramp r m) = pwm m + 1) \/
     (5 <= pwm m /\ pwm (s2_ramp r m) = pwm m - 5)) /\
  (forall m, duty_ok m -> (pwm m = 0 -> direction m = 1) ->
     pwm (s3_apply m) = pwm m \/
     (pwm (s3_apply m) = pwm m + 1 /\ pwm (s3_apply m) < 315) \/
     (pwm (s3_apply m) = pwm m - 1 /\ 20 < pwm (s3_apply m))) /\
  (forall e m, pwm (fault e m) = 0) /\
  (forall m, pwm (cmd_halt m) = 0) /\
  (forall clock m, pwm (cmd_start clock m) = 0) /\
  (forall clock m, pwm (cmd_reset clock m) = 0).
Proof.
  split; [exact setup_duty |].
  split.
  { intros pf clock fan inp m H m'.
    destruct (loop_duty pf clock fan inp m H) as (H1 & H2).
    fold m' in H1, H2. split; [exact H1 | split; [exact H2 |]].
    destruct H1 as (_ & H1 & _). unfold TOP. lia. }
  split; [intros; apply serial_byte_duty; assumption |].
  split.
  { intros pf clock fan inps dip rom m.
    destruct (run_duty pf clock fan inps (setup dip rom) (setup_duty dip rom))
      as (H1 & H2 & _).
    fold m in H1, H2. unfold TOP. split; [exact H1 | lia]. }
  split; [intros r m (Hp & _); apply s2_ramp_duty, Hp |].
  split; [intros m (Hp & _ & Hd) H0; apply s3_apply_duty; assumption |].
  split; [reflexivity |].
  split; [intros m; unfold cmd_halt; cbv zeta; case_if; reflexivity |].
  split; intros clock m; [unfold cmd_start | unfold cmd_reset];
    unfold millis; cbv beta iota zeta; case_if; reflexivity.
Qed.

Lemma duty_invariant_witness :
  let m := set_pwm 274 (set_state S2 fresh) in
  let inp :=
    Build_inputs [] false 512 (fun _ => 200) 150 (f32 20) in
  let m' := loop sample_print sample_clock sample_fan inp m in
  duty_ok m /\ duty_ok m' /\ OCR1B m' < TOP.
Proof.
  intros m inp m'.
  assert (H : duty_ok m)
    by (unfold duty_ok; vm_compute; repeat split;
        try discriminate; right; reflexivity).
  destruct duty_invariant as (_ & Hloop & _).
  destruct (Hloop sample_print sample_clock sample_fan inp m H)
    as (H1 & _ & H3).
  repeat split; try exact H1; try exact H3; apply H.
Defined.


(** ** What every pass keeps *)

Section Stages.

Variable print_float : float -> list ascii.
Variable clock : nat -> Z.
Variable fan_speed : nat -> Z.

#[local] Abbreviation serial_byte := (serial_byte print_float clock fan_speed).
#[local] Abbreviation serial_input :=
  (serial_input print_float clock fan_speed).
#[local] Abbreviation exec_command :=
  (exec_command print_float clock fan_speed).
#[local] Abbreviation loop := (loop print_float clock fan_speed).
#[local] Abbreviation run := (run print_float clock fan_speed).

Variable P : inverter -> Prop.

(** A property that every stage of a pass keeps is kept by the pass, and
    by any number of passes. *)
Lemma loop_stages :
  (forall m, P m -> P (set_flag_over true m)) ->
  (forall inp m, P m -> P (poll_temperature clock inp m)) ->
  (forall r c m, P m -> P (serial_byte r c m)) ->
  (forall r m, P m -> P (fsm_step clock r m)) ->
  (forall r m, P m -> P (interlocks r m)) ->
  (forall m, P m -> P (fault_led m)) ->
  (forall m, P m -> P (write_pwm m)) ->
  forall inp m, P m -> P (loop inp m).
Proof.
  intros H1 H2 H3 H4 H5 H6 H7 inp m H. unfold Inverter.loop. cbv zeta.
  apply H7, H6, H5, H4.
  unfold Inverter.serial_input. apply fold_left_invariant.
  - intros a b. apply H3.
  - apply H2. case_if; [apply H1 |]; exact H.
Qed.

Lemma run_stages :
  (forall inp m, P m -> P (loop inp m)) ->
  forall inps m, P m -> P (run inps m).
Proof.
  intros H inps m. unfold Inverter.run. apply fold_left_invariant.
  intros a b. apply H.
Qed.

(** The six checks: each either leaves the state or raises a fault with
    one of the six codes. *)
Lemma interlocks_stage :
  (forall e m, 1 <= e <= 6 -> P m -> P (fault e m)) ->
  forall r m, P m -> P (interlocks r m).
Proof.
  intros Hf r m H. unfold interlocks.
  assert (Hc : forall e c m0, 1 <= e <= 6 ->
            P m0 -> P (if c : bool then fault e m0 else m0)).
  { intros e c m0 He H0. destruct c; [apply Hf |]; assumption. }
  unfold check_under_temp, check_over_temp, check_under_current,
    check_over_current, check_cap_high, check_cap_low.
  repeat (apply Hc; [vm_compute; split; discriminate |]).
  exact H.
Qed.

(** A byte: the buffer changes, and at the end of a line for this module
    one of the five commands runs. *)
Lemma serial_byte_stage :
  (forall l m, P m -> P (set_cli l m)) ->
  (forall k m, P m -> P (set_cli_pos k m)) ->
  (forall r m, P m -> P (cmd_info print_float fan_speed r m)) ->
  (forall m, P m -> P (cmd_halt m)) ->
  (forall m, P m -> P (cmd_start clock m)) ->
  (forall m, P m -> P (cmd_reset clock m)) ->
  (forall m, P m -> P (cmd_power m)) ->
  forall r c m, P m -> P (serial_byte r c m).
Proof.
  intros Hl Hk Hi Hh Hs Hr Hp r c m H.
  destruct (completes_line c m) eqn:E.
  - rewrite serial_byte_complete by exact E. cbv zeta.
    apply Hk. case_if; [| apply Hl, H].
    unfold Inverter.exec_command. cbv zeta.
    repeat case_if; auto.
  - rewrite serial_byte_incomplete by exact E.
    case_if; [| apply Hk]; apply Hl, H.
Qed.

End Stages.

Ltac unfold_steps :=
  unfold fsm_step, s0_step, s1_step, s2_ramp, s2_connect, s2_low_voltage,
    s3_apply, s3_floor, s3_limit, s3_observe, s3_low_voltage,
    poll_temperature, cmd_info, cmd_halt, cmd_start, cmd_reset, cmd_power,
    fault_led, write_pwm, dump_energy, fault, EEPROM_write, EEPROM_read,
    Serial_print, millis;
  cbv beta iota zeta.

(** In Fault and Halt the state machine does nothing; from the other
    states it reaches neither, and it leaves error code, power limit,
    EEPROM and line buffer alone. *)
Lemma fsm_step_idle (clock : nat -> Z) (r : readings) (m : inverter) :
  state m = S4 \/ state m = S5 -> fsm_step clock r m = m.
Proof. intros [H | H]; unfold fsm_step; rewrite H; reflexivity. Qed.

Lemma calm_compose (f g : inverter -> inverter) :
  calm f -> calm g -> calm (fun m => g (f m)).
Proof.
  intros Hf Hg m Hm.
  destruct (Hf m Hm) as (H1 & E1 & E2 & E3 & E4 & E5 & E6 & E7 & E8).
  destruct (Hg (f m) H1) as (H2 & F1 & F2 & F3 & F4 & F5 & F6 & F7 & F8).
  split; [exact H2 |].
  unfold quiet. rewrite F1, F2, F3, F4, F5, F6, F7, F8.
  repeat split; assumption.
Qed.

Ltac calm_tac :=
  intros m [H4 H5]; unfold running, quiet; unfold_steps;
  repeat case_if; proj_simpl;
  repeat split; try reflexivity; try assumption; discriminate.

Section Calm.

Variable clock : nat -> Z.
Variable r : readings.

Lemma s0_step_calm : calm (s0_step clock).
Proof. calm_tac. Qed.

Lemma s1_step_calm : calm (s1_step r).
Proof. calm_tac. Qed.

Lemma s2_low_voltage_calm : calm (s2_low_voltage clock r).
Proof. calm_tac. Qed.

Lemma s2_connect_calm : calm (s2_connect r).
Proof. calm_tac. Qed.

Lemma s2_ramp_calm : calm (s2_ramp r).
Proof. calm_tac. Qed.

Lemma s3_low_voltage_calm : calm (s3_low_voltage clock r).
Proof. calm_tac. Qed.

Lemma s3_observe_calm : calm (s3_observe r).
Proof. calm_tac. Qed.

Lemma s3_limit_calm : calm (s3_limit r).
Proof. calm_tac. Qed.

Lemma s3_floor_calm : calm s3_floor.
Proof. calm_tac. Qed.

Lemma set_last_power_calm (x : float) : calm (set_last_power x).
Proof. calm_tac. Qed.

Lemma s3_apply_calm : calm s3_apply.
Proof. calm_tac. Qed.

Lemma fsm_step_calm : calm (fsm_step clock r).
Proof.
  intros m Hm. unfold fsm_step.
  destruct (state m) eqn:E.
  - apply s0_step_calm, Hm.
  - apply s1_step_calm, Hm.
  - apply (calm_compose _ _
             (calm_compose _ _ s2_low_voltage_calm s2_connect_calm)
             s2_ramp_calm), Hm.
  - apply (calm_compose _ _
             (calm_compose _ _
                (calm_compose _ _
                   (calm_compose _ _
                      (calm_compose _ _ s3_low_voltage_calm s3_observe_calm)
                      s3_limit_calm)
                   s3_floor_calm)
                (set_last_power_calm (power r)))
             s3_apply_calm), Hm.
  - destruct Hm as [Hm _]. contradiction.
  - destruct Hm as [_ Hm]. contradiction.
Qed.

End Calm.

Lemma running_or_idle (m : inverter) :
  running m \/ state m = S4 \/ state m = S5.
Proof.
  unfold running. destruct (state m); auto; left; split; discriminate.
Qed.

(** ** In Fault and in Halt nothing is driven *)

Lemma outputs_off_frame (m m' : inverter) :
  state m' = state m -> sys_enable m' = sys_enable m ->
  sys_output m' = sys_output m -> pwm m' = pwm m ->
  outputs_off m -> outputs_off m'.
Proof. unfold outputs_off. intros -> -> -> ->. exact (fun H => H). Qed.

Lemma outputs_off_running (m : inverter) : running m -> outputs_off m.
Proof. intros [H4 H5] [H | H]; contradiction. Qed.

Ltac frame_tac lem :=
  intros; eapply lem; [.. | eassumption];
  unfold_steps; repeat case_if; reflexivity.

Ltac direct_tac :=
  unfold_steps; repeat case_if; proj_simpl;
  repeat split; try reflexivity; try discriminate; try assumption.

Section OutputsOff.

Variable print_float : float -> list ascii.
Variable clock : nat -> Z.
Variable fan_speed : nat -> Z.

Lemma outputs_off_fault (e : Z) (m : inverter) : outputs_off (fault e m).
Proof. intros _. direct_tac. Qed.

Lemma outputs_off_fsm (r : readings) (m : inverter) :
  outputs_off m -> outputs_off (fsm_step clock r m).
Proof.
  intros H. destruct (running_or_idle m) as [Hr | Hi].
  - apply outputs_off_running. apply (fsm_step_calm clock r m Hr).
  - rewrite fsm_step_idle by exact Hi. exact H.
Qed.

Lemma outputs_off_byte (r : readings) (c : ascii) (m : inverter) :
  outputs_off m ->
  outputs_off (serial_byte print_float clock fan_speed r c m).
Proof.
  revert r c m. apply serial_byte_stage.
  - frame_tac outputs_off_frame.
  - frame_tac outputs_off_frame.
  - frame_tac outputs_off_frame.
  - intros m _ _. direct_tac.
  - intros m _ [H | H]; revert H; direct_tac.
  - intros m _ _. direct_tac.
  - frame_tac outputs_off_frame.
Qed.

Lemma outputs_off_loop (inp : inputs) (m : inverter) :
  outputs_off m ->
  outputs_off (loop print_float clock fan_speed inp m).
Proof.
  revert inp m. apply loop_stages.
  - frame_tac outputs_off_frame.
  - frame_tac outputs_off_frame.
  - apply outputs_off_byte.
  - apply outputs_off_fsm.
  - apply interlocks_stage. intros e m _ _. apply outputs_off_fault.
  - frame_tac outputs_off_frame.
  - frame_tac outputs_off_frame.
Qed.

End OutputsOff.

Lemma outputs_off_setup (dip : Z) (rom : Z -> Z) :
  outputs_off (setup dip rom).
Proof. intros _. repeat split. Qed.

(** ** Error code and state go together *)

Lemma error_ok_frame (m m' : inverter) :
  state m' = state m -> error_code m' = error_code m ->
  error_ok m -> error_ok m'.
Proof. unfold error_ok. intros -> ->. exact (fun H => H). Qed.

Section ErrorOk.

Variable print_float : float -> list ascii.
Variable clock : nat -> Z.
Variable fan_speed : nat -> Z.

Lemma error_ok_fault (e : Z) (m : inverter) :
  1 <= e <= 6 -> error_ok (fault e m).
Proof.
  intros He. unfold error_ok, fault. proj_simpl.
  split; [intros _; exact He | intros _; left; reflexivity].
Qed.

Lemma error_ok_fsm (r : readings) (m : inverter) :
  error_ok m -> error_ok (fsm_step clock r m).
Proof.
  intros H. destruct (running_or_idle m) as [Hr | Hi].
  - destruct (fsm_step_calm clock r m Hr) as ([H4 H5] & E & _).
    destruct H as [_ H]. unfold error_ok. rewrite E.
    split; [intros; contradiction |].
    intros He. destruct (H He) as [F | F];
      destruct Hr as [G4 G5]; contradiction.
  - rewrite fsm_step_idle by exact Hi. exact H.
Qed.

Lemma error_ok_byte (r : readings) (c : ascii) (m : inverter) :
  error_ok m -> error_ok (serial_byte print_float clock fan_speed r c m).
Proof.
  revert r c m. apply serial_byte_stage.
  - frame_tac error_ok_frame.
  - frame_tac error_ok_frame.
  - frame_tac error_ok_frame.
  - intros m [_ H]. unfold error_ok. unfold_steps.
    repeat case_if; proj_simpl;
      (split; [discriminate | intros _; right; reflexivity]).
  - intros m _. unfold error_ok. unfold_steps.
    repeat case_if; proj_simpl;
      (split; [discriminate | intros F; exfalso; apply F; reflexivity]).
  - intros m _. unfold error_ok. unfold_steps.
    repeat case_if; proj_simpl;
      (split; [discriminate | intros F; exfalso; apply F; reflexivity]).
  - frame_tac error_ok_frame.
Qed.

Lemma error_ok_loop (inp : inputs) (m : inverter) :
  error_ok m -> error_ok (loop print_float clock fan_speed inp m).
Proof.
  revert inp m. apply loop_stages.
  - frame_tac error_ok_frame.
  - frame_tac error_ok_frame.
  - apply error_ok_byte.
  - apply error_ok_fsm.
  - apply interlocks_stage. intros e m He _. apply error_ok_fault, He.
  - frame_tac error_ok_frame.
  - frame_tac error_ok_frame.
Qed.

End ErrorOk.

Lemma error_ok_setup (dip : Z) (rom : Z -> Z) : error_ok (setup dip rom).
Proof.
  unfold error_ok, setup. cbn [state error_code].
  split; [case_if; discriminate | intros F; exfalso; apply F; reflexivity].
Qed.

(** ** The halted latch *)

Lemma latch_ok_frame (m m' : inverter) :
  state m' = state m -> eeprom m' = eeprom m ->
  latch_ok m -> latch_ok m'.
Proof.
  unfold latch_ok, EEPROM_read. intros -> ->. exact (fun H => H).
Qed.

Lemma latch_ok_running (m : inverter) : running m -> latch_ok m.
Proof. intros [_ H5] H. contradiction. Qed.

Section LatchOk.

Variable print_float : float -> list ascii.
Variable clock : nat -> Z.
Variable fan_speed : nat -> Z.

Lemma latch_ok_fsm (r : readings) (m : inverter) :
  latch_ok m -> latch_ok (fsm_step clock r m).
Proof.
  intros H. destruct (running_or_idle m) as [Hr | Hi].
  - apply latch_ok_running. apply (fsm_step_calm clock r m Hr).
  - rewrite fsm_step_idle by exact Hi. exact H.
Qed.

Lemma latch_ok_halt (m : inverter) : latch_ok m -> latch_ok (cmd_halt m).
Proof.
  intros H. unfold latch_ok, cmd_halt. cbv zeta.
  replace (state (dump_energy m)) with (state m) by reflexivity.
  destruct (state m) eqn:E;
    replace (fsm_eqb S5 S5) with true by reflexivity;
    try (unfold_steps; proj_simpl; intros _; vm_compute; discriminate).
  intros _. unfold_steps. proj_simpl. apply H, E.
Qed.

Lemma latch_ok_reset (m : inverter) :
  latch_ok m -> latch_ok (cmd_reset clock m).
Proof.
  intros _. unfold latch_ok, cmd_reset. cbv zeta.
  replace (EEPROM_read EEPROM_ADDRESS_HALTED (dump_energy m))
    with (EEPROM_read EEPROM_ADDRESS_HALTED m) by reflexivity.
  destruct (Z.eqb_spec (EEPROM_read EEPROM_ADDRESS_HALTED m) 0) as [E | E];
    unfold_steps; proj_simpl; [discriminate | intros _; exact E].
Qed.

Lemma latch_ok_power (m : inverter) : latch_ok m -> latch_ok (cmd_power m).
Proof.
  intros H. unfold latch_ok, cmd_power. cbv zeta.
  repeat case_if; exact H.
Qed.

Lemma latch_ok_byte (r : readings) (c : ascii) (m : inverter) :
  latch_ok m -> latch_ok (serial_byte print_float clock fan_speed r c m).
Proof.
  revert r c m. apply serial_byte_stage.
  - frame_tac latch_ok_frame.
  - frame_tac latch_ok_frame.
  - frame_tac latch_ok_frame.
  - apply latch_ok_halt.
  - intros m _. unfold latch_ok. unfold_steps.
    repeat case_if; proj_simpl; discriminate.
  - apply latch_ok_reset.
  - apply latch_ok_power.
Qed.

Lemma latch_ok_loop (inp : inputs) (m : inverter) :
  latch_ok m -> latch_ok (loop print_float clock fan_speed inp m).
Proof.
  revert inp m. apply loop_stages.
  - frame_tac latch_ok_frame.
  - frame_tac latch_ok_frame.
  - apply latch_ok_byte.
  - apply latch_ok_fsm.
  - apply interlocks_stage. intros e m _ _. unfold latch_ok, fault.
    proj_simpl. discriminate.
  - frame_tac latch_ok_frame.
  - frame_tac latch_ok_frame.
Qed.

End LatchOk.

Lemma latch_ok_setup (dip : Z) (rom : Z -> Z) : latch_ok (setup dip rom).
Proof.
  unfold latch_ok, setup, EEPROM_read. cbn [state eeprom].
  destruct (Z.eqb_spec (wrap8 (rom EEPROM_ADDRESS_HALTED)) 0) as [E | E];
    [discriminate | intros _; exact E].
Qed.

(** ** The power limit *)

Lemma limit_ok_frame (m m' : inverter) :
  max_power m' = max_power m -> limit_ok m -> limit_ok m'.
Proof. unfold limit_ok. intros ->. exact (fun H => H). Qed.

Lemma persist_ok_frame (m m' : inverter) :
  max_power m' = max_power m ->
  eeprom m' EEPROM_ADDRESS_MAX_POWER = eeprom m EEPROM_ADDRESS_MAX_POWER ->
  persist_ok m -> persist_ok m'.
Proof. unfold persist_ok. intros -> ->. exact (fun H => H). Qed.

Lemma shiftr1_byte (w : Z) : 0 <= w <= 425 -> wrap8 (Z.shiftr w 1) = w / 2.
Proof.
  intros H. unfold wrap8. rewrite Z.shiftr_div_pow2 by lia.
  replace (2 ^ 1) with 2 by reflexivity.
  apply Z.mod_small. split; [apply Z.div_pos; lia |].
  apply Z.div_lt_upper_bound; lia.
Qed.

Lemma wrap8_range (z : Z) : 0 <= wrap8 z < 256.
Proof. unfold wrap8. apply Z.mod_pos_bound. lia. Qed.

Section Limit.

Variable print_float : float -> list ascii.
Variable clock : nat -> Z.
Variable fan_speed : nat -> Z.

Lemma cmd_power_limit (m : inverter) :
  let m' := cmd_power m in
  (max_power m' = max_power m /\ eeprom m' = eeprom m) \/
  (MIN_MAX_POWER <= max_power m' <= MAX_POWER /\
   eeprom m' EEPROM_ADDRESS_MAX_POWER = max_power m' / 2).
Proof.
  unfold cmd_power. cbv zeta.
  set (mp := wrap16 (atoi (drop 3 (cli m)))).
  destruct ((MIN_MAX_POWER <=? mp) && (mp <=? MAX_POWER)) eqn:E;
    [| left; split; reflexivity].
  destruct (mp =? max_power m); [left; split; reflexivity |].
  right. apply andb_true_iff in E as [E1 E2].
  unfold MIN_MAX_POWER, MAX_POWER in *.
  unfold EEPROM_write. proj_simpl.
  split; [lia |].
  replace (EEPROM_ADDRESS_MAX_POWER =? EEPROM_ADDRESS_MAX_POWER) with true
    by reflexivity.
  apply shiftr1_byte. lia.
Qed.

Lemma limit_ok_power (m : inverter) : limit_ok m -> limit_ok (cmd_power m).
Proof.
  intros H. destruct (cmd_power_limit m) as [[E _] | [E _]].
  - revert H. apply limit_ok_frame, E.
  - unfold limit_ok, MIN_MAX_POWER, MAX_POWER in *. lia.
Qed.

Lemma persist_ok_power (m : inverter) :
  persist_ok m -> persist_ok (cmd_power m).
Proof.
  intros H. destruct (cmd_power_limit m) as [[E1 E2] | [E1 E2]].
  - revert H. apply persist_ok_frame; [exact E1 | rewrite E2; reflexivity].
  - left. rewrite E2.
    unfold MIN_MAX_POWER, MAX_POWER in E1.
    assert (Hd : 0 <= max_power (cmd_power m) / 2 < 256).
    { split; [apply Z.div_pos; lia | apply Z.div_lt_upper_bound; lia]. }
    unfold wrap8. rewrite Z.mod_small by exact Hd. lia.
Qed.

Lemma limit_ok_byte (r : readings) (c : ascii) (m : inverter) :
  limit_ok m -> limit_ok (serial_byte print_float clock fan_speed r c m).
Proof.
  revert r c m. apply serial_byte_stage;
    try apply limit_ok_power; frame_tac limit_ok_frame.
Qed.

Lemma persist_ok_byte (r : readings) (c : ascii) (m : inverter) :
  persist_ok m ->
  persist_ok (serial_byte print_float clock fan_speed r c m).
Proof.
  revert r c m. apply serial_byte_stage;
    try apply persist_ok_power; frame_tac persist_ok_frame.
Qed.

Lemma limit_ok_fsm (r : readings) (m : inverter) :
  limit_ok m -> limit_ok (fsm_step clock r m).
Proof.
  destruct (running_or_idle m) as [Hr | Hi].
  - apply limit_ok_frame. apply (fsm_step_calm clock r m Hr).
  - rewrite fsm_step_idle by exact Hi. exact (fun H => H).
Qed.

Lemma persist_ok_fsm (r : readings) (m : inverter) :
  persist_ok m -> persist_ok (fsm_step clock r m).
Proof.
  destruct (running_or_idle m) as [Hr | Hi].
  - destruct (fsm_step_calm clock r m Hr) as (_ & _ & E1 & E2 & _).
    apply persist_ok_frame; [exact E1 | rewrite E2; reflexivity].
  - rewrite fsm_step_idle by exact Hi. exact (fun H => H).
Qed.

Lemma limit_ok_loop (inp : inputs) (m : inverter) :
  limit_ok m -> limit_ok (loop print_float clock fan_speed inp m).
Proof.
  revert inp m. apply loop_stages;
    try apply limit_ok_byte; try apply limit_ok_fsm;
    try (apply interlocks_stage; intros e m _);
    frame_tac limit_ok_frame.
Qed.

Lemma persist_ok_loop (inp : inputs) (m : inverter) :
  persist_ok m -> persist_ok (loop print_float clock fan_speed inp m).
Proof.
  revert inp m. apply loop_stages;
    try apply persist_ok_byte; try apply persist_ok_fsm;
    try (apply interlocks_stage; intros e m _);
    frame_tac persist_ok_frame.
Qed.

End Limit.

Lemma setup_max_power (dip : Z) (rom : Z -> Z) :
  let b := wrap8 (rom EEPROM_ADDRESS_MAX_POWER) in
  max_power (setup dip rom) = if b * 2 <? MIN_MAX_POWER then MIN_MAX_POWER
                              else b * 2.
Proof.
  intros b. unfold setup. cbn [max_power]. fold b.
  pose proof (wrap8_range (rom EEPROM_ADDRESS_MAX_POWER)) as Hb. fold b in Hb.
  rewrite wrap16_small by lia. reflexivity.
Qed.

Lemma limit_ok_setup (dip : Z) (rom : Z -> Z) : limit_ok (setup dip rom).
Proof.
  unfold limit_ok. rewrite setup_max_power. cbv zeta.
  pose proof (wrap8_range (rom EEPROM_ADDRESS_MAX_POWER)) as Hb.
  unfold MIN_MAX_POWER.
  destruct (Z.ltb_spec (wrap8 (rom EEPROM_ADDRESS_MAX_POWER) * 2) 50); lia.
Qed.

Lemma persist_ok_setup (dip : Z) (rom : Z -> Z) : persist_ok (setup dip rom).
Proof.
  unfold persist_ok. rewrite setup_max_power. cbv zeta.
  replace (eeprom (setup dip rom)) with rom by reflexivity.
  unfold MIN_MAX_POWER.
  destruct (Z.ltb_spec (wrap8 (rom EEPROM_ADDRESS_MAX_POWER) * 2) 50);
    [right; split; [assumption | reflexivity] | left].
  rewrite (Z.mul_comm _ 2), Z.mul_comm, Z.div_mul by lia. lia.
Qed.

(** ** The line buffer *)

Section Buffer.

Variable print_float : float -> list ascii.
Variable clock : nat -> Z.
Variable fan_speed : nat -> Z.

Lemma buffer_ok_frame (m m' : inverter) :
  cli m' = cli m -> cli_pos m' = cli_pos m -> buffer_ok m -> buffer_ok m'.
Proof. unfold buffer_ok. intros -> ->. exact (fun H => H). Qed.

Lemma exec_command_buffer (r : readings) (m : inverter) :
  buffer_ok m -> buffer_ok (exec_command print_float clock fan_speed r m).
Proof.
  unfold exec_command. cbv zeta.
  repeat case_if; try exact (fun H => H); frame_tac buffer_ok_frame.
Qed.

Lemma buffer_ok_byte (r : readings) (c : ascii) (m : inverter) :
  buffer_ok m -> buffer_ok (serial_byte print_float clock fan_speed r c m).
Proof.
  intros [Hp Hl].
  destruct (completes_line c m) eqn:E.
  - rewrite serial_byte_complete by exact E. cbv zeta.
    assert (H1 : buffer_ok (set_cli (command_line m) m)).
    { unfold buffer_ok, command_line. proj_simpl.
      rewrite length_insert. split; assumption. }
    assert (H2 : forall x, buffer_ok x -> buffer_ok (set_cli_pos 0%nat x)).
    { intros x [_ Hx]. unfold buffer_ok. proj_simpl. split; [lia | exact Hx]. }
    apply H2. case_if; [apply exec_command_buffer |]; exact H1.
  - rewrite serial_byte_incomplete by exact E.
    unfold completes_line in E.
    destruct (isspace c); unfold buffer_ok; proj_simpl;
      rewrite length_insert; (split; [| exact Hl]); [exact Hp |].
    cbn [negb andb] in E. apply orb_false_iff in E as [E _].
    apply Nat.eqb_neq in E. unfold LINE_LENGTH in E. lia.
Qed.

Lemma buffer_ok_fsm (r : readings) (m : inverter) :
  buffer_ok m -> buffer_ok (fsm_step clock r m).
Proof.
  destruct (running_or_idle m) as [Hr | Hi].
  - destruct (fsm_step_calm clock r m Hr) as (_ & _ & _ & _ & _ & E1 & E2 & _).
    apply buffer_ok_frame; assumption.
  - rewrite fsm_step_idle by exact Hi. exact (fun H => H).
Qed.

Lemma buffer_ok_loop (inp : inputs) (m : inverter) :
  buffer_ok m -> buffer_ok (loop print_float clock fan_speed inp m).
Proof.
  revert inp m. apply loop_stages;
    try apply buffer_ok_byte; try apply buffer_ok_fsm;
    try (apply interlocks_stage; intros e m _);
    frame_tac buffer_ok_frame.
Qed.

End Buffer.

Lemma buffer_ok_setup (dip : Z) (rom : Z -> Z) : buffer_ok (setup dip rom).
Proof. unfold buffer_ok. split; [cbn; lia | reflexivity]. Qed.


(** ** What holds after any number of passes *)

Section Reachable.

Variable print_float : float -> list ascii.
Variable clock : nat -> Z.
Variable fan_speed : nat -> Z.

#[local] Abbreviation loop := (loop print_float clock fan_speed).
#[local] Abbreviation run := (run print_float clock fan_speed).

(** The compare register holds the duty at the end of every pass. *)
Lemma run_compare_register (inps : list inputs) (dip : Z) (rom : Z -> Z) :
  OCR1B (run inps (setup dip rom)) = pwm (run inps (setup dip rom)).
Proof.
  apply (run_stages print_float clock fan_speed
           (fun m => OCR1B m = pwm m)); [| reflexivity].
  intros inp m _. unfold Inverter.loop. cbv zeta. unfold write_pwm.
  destruct (Z.eqb_spec (pwm (fault_led (interlocks (read_sensors inp)
     (fsm_step clock (read_sensors inp)
        (serial_input print_float clock fan_speed (read_sensors inp)
           (rx inp)
           (poll_temperature clock inp
              (if over_edge inp then set_flag_over true m else m)))))))
    (OCR1B (fault_led (interlocks (read_sensors inp)
     (fsm_step clock (read_sensors inp)
        (serial_input print_float clock fan_speed (read_sensors inp)
           (rx inp)
           (poll_temperature clock inp
              (if over_edge inp then set_flag_over true m else m))))))))
    as [E | E].
  - symmetry. exact E.
  - proj_simpl. reflexivity.
Qed.

(** X1.  Whatever bytes arrive, in whatever passes, the write position of
    the command handler stays within the ten bytes of its line buffer. *)
Theorem line_buffer_never_overflows (inps : list inputs) (dip : Z)
    (rom : Z -> Z) :
  let m := run inps (setup dip rom) in
  (cli_pos m < LINE_LENGTH)%nat /\ length (cli m) = LINE_LENGTH.
Proof.
  intros m.
  assert (H : buffer_ok m).
  { apply (run_stages print_float clock fan_speed buffer_ok).
    - apply buffer_ok_loop.
    - apply buffer_ok_setup. }
  destruct H as [H1 H2]. unfold LINE_LENGTH. split; [lia | exact H2].
Qed.

(** X2.  A module that is in Fault or in Halt at the end of a pass drives
    nothing: SYS_ENABLE and SYS_OUTPUT are low, the duty and the compare
    register are 0. *)
Theorem faulted_or_halted_drives_nothing (inps : list inputs) (dip : Z)
    (rom : Z -> Z) :
  let m := run inps (setup dip rom) in
  state m = S4 \/ state m = S5 ->
  sys_enable m = false /\ sys_output m = false /\ pwm m = 0 /\ OCR1B m = 0.
Proof.
  intros m H.
  assert (Ho : outputs_off m).
  { apply (run_stages print_float clock fan_speed outputs_off).
    - apply outputs_off_loop.
    - apply outputs_off_setup. }
  destruct (Ho H) as (H1 & H2 & H3).
  repeat split; try assumption.
  unfold m. rewrite run_compare_register. exact H3.
Qed.

(** X3.  At the end of every pass: in Fault the error code is one of the
    six codes, and in the states S0 to S3 it is 0; a nonzero code is only
    ever seen in Fault or in Halt. *)
Theorem error_code_follows_state (inps : list inputs) (dip : Z)
    (rom : Z -> Z) :
  let m := run inps (setup dip rom) in
  match state m with
  | S4 => 1 <= error_code m <= 6
  | S5 => True
  | _ => error_code m = ERROR_NONE
  end.
Proof.
  intros m.
  assert (He : error_ok m).
  { apply (run_stages print_float clock fan_speed error_ok).
    - apply error_ok_loop.
    - apply error_ok_setup. }
  destruct He as [H1 H2].
  destruct (state m) eqn:E; try exact I; try (apply H1; reflexivity);
    destruct (Z.eq_dec (error_code m) ERROR_NONE) as [E0 | E0];
    try exact E0;
    destruct (H2 E0); discriminate.
Qed.

(** X4.  A module that is in Halt at the end of a pass has the halted
    latch set in the EEPROM: a reset command leaves it in Halt, and so
    does a reboot, whatever the DIP switches say. *)
Theorem halt_survives_reset_and_reboot (inps : list inputs) (dip dip' : Z)
    (rom : Z -> Z) :
  let m := run inps (setup dip rom) in
  state m = S5 ->
  state (cmd_reset clock m) = S5 /\ state (setup dip' (eeprom m)) = S5.
Proof.
  intros m H.
  assert (Hl : latch_ok m).
  { apply (run_stages print_float clock fan_speed latch_ok).
    - apply latch_ok_loop.
    - apply latch_ok_setup. }
  specialize (Hl H). unfold EEPROM_read in Hl.
  split.
  - unfold cmd_reset. cbv zeta.
    replace (EEPROM_read EEPROM_ADDRESS_HALTED (dump_energy m))
      with (wrap8 (eeprom m EEPROM_ADDRESS_HALTED)) by reflexivity.
    destruct (Z.eqb_spec (wrap8 (eeprom m EEPROM_ADDRESS_HALTED)) 0);
      [contradiction |].
    unfold millis. cbv beta iota zeta. proj_simpl. reflexivity.
  - unfold setup. cbn [state].
    destruct (Z.eqb_spec (wrap8 (eeprom m EEPROM_ADDRESS_HALTED)) 0);
      [contradiction | reflexivity].
Qed.

(** X5.  The power limit in force is always at least 50 W and at most
    510 W (what the EEPROM byte can hold); and a reboot brings back the
    limit in force, less its last bit: an even limit comes back as it is,
    an odd one a watt lower. *)
Theorem power_limit_survives_reboot (inps : list inputs) (dip dip' : Z)
    (rom : Z -> Z) :
  let m := run inps (setup dip rom) in
  MIN_MAX_POWER <= max_power m <= 510 /\
  max_power (setup dip' (eeprom m)) = 2 * (max_power m / 2).
Proof.
  intros m.
  assert (Hl : limit_ok m).
  { apply (run_stages print_float clock fan_speed limit_ok).
    - apply limit_ok_loop.
    - apply limit_ok_setup. }
  assert (Hp : persist_ok m).
  { apply (run_stages print_float clock fan_speed persist_ok).
    - apply persist_ok_loop.
    - apply persist_ok_setup. }
  split; [exact Hl |].
  rewrite setup_max_power. cbv zeta.
  replace (eeprom (setup dip' (eeprom m))) with (eeprom m) by reflexivity.
  unfold limit_ok, persist_ok, MIN_MAX_POWER in *.
  destruct Hp as [Hp | [Hp1 Hp2]].
  - destruct (Z.ltb_spec
                (wrap8 (eeprom m EEPROM_ADDRESS_MAX_POWER) * 2) 50);
      Z.div_mod_to_equations; lia.
  - destruct (Z.ltb_spec
                (wrap8 (eeprom m EEPROM_ADDRESS_MAX_POWER) * 2) 50);
      [| lia].
    rewrite Hp2. reflexivity.
Qed.

End Reachable.

Lemma faulted_or_halted_drives_nothing_witness :
  let m := run sample_print sample_clock sample_fan [dead_cap_inputs] fresh in
  state m = S4 /\ sys_enable m = false /\ sys_output m = false /\
  pwm m = 0 /\ OCR1B m = 0.
Proof.
  intros m.
  assert (H : state m = S4) by (vm_compute; reflexivity).
  split; [exact H |].
  apply (faulted_or_halted_drives_nothing sample_print sample_clock
           sample_fan [dead_cap_inputs] 0 (fun _ => 0)).
  left. exact H.
Defined.

Lemma halt_survives_reset_and_reboot_witness :
  let rom := fun a : Z => if a =? 1 then 1 else 0 in
  let m := run sample_print sample_clock sample_fan [quiet_inputs]
             (setup 2 rom) in
  state m = S5 /\ state (cmd_reset sample_clock m) = S5 /\
  state (setup 7 (eeprom m)) = S5.
Proof.
  intros rom m.
  assert (H : state m = S5) by (vm_compute; reflexivity).
  split; [exact H |].
  exact (halt_survives_reset_and_reboot sample_print sample_clock sample_fan
           [quiet_inputs] 2 7 rom H).
Defined.


(** ** White space on the line *)

Section Whitespace.

Variable print_float : float -> list ascii.
Variable clock : nat -> Z.
Variable fan_speed : nat -> Z.

#[local] Abbreviation serial_byte := (serial_byte print_float clock fan_speed).
#[local] Abbreviation serial_input :=
  (serial_input print_float clock fan_speed).

(** The byte under the write position is never read before it is
    written. *)
Lemma serial_byte_overwrites (r : readings) (c w : ascii) (m : inverter) :
  serial_byte r c (set_cli (<[cli_pos m := w]> (cli m)) m) = serial_byte r c m.
Proof.
  unfold Inverter.serial_byte. cbv zeta. proj_simpl.
  rewrite !list_insert_insert_eq. reflexivity.
Qed.

Lemma serial_byte_space (r : readings) (w : ascii) (m : inverter) :
  isspace w = true ->
  serial_byte r w m = set_cli (<[cli_pos m := w]> (cli m)) m.
Proof.
  intros H. rewrite serial_byte_incomplete.
  - rewrite H. reflexivity.
  - unfold completes_line. rewrite H. reflexivity.
Qed.

(** X6.  White space is dropped at intake: a stream of bytes, up to any
    last byte, leaves the module exactly as the same stream without its
    white space does.  (This is what lets the CR LF that ends the master's
    lines pass.) *)
Theorem white_space_is_ignored (r : readings) (l : list ascii) (c : ascii) :
  forall m : inverter,
  serial_input r (l ++ [c]) m =
  serial_input r (filter (fun b => isspace b = false) l ++ [c]) m.
Proof.
  induction l as [| w l IH]; intros m; [reflexivity |].
  rewrite filter_cons.
  destruct (decide (isspace w = false)) as [Hw | Hw].
  - cbn [app]. rewrite !serial_input_cons. apply IH.
  - apply not_false_is_true in Hw.
    rewrite <- IH. cbn [app]. rewrite serial_input_cons.
    rewrite serial_byte_space by exact Hw.
    destruct (l ++ [c]) as [| b t] eqn:E.
    + destruct l; discriminate.
    + rewrite !serial_input_cons, serial_byte_overwrites. reflexivity.
Qed.

End Whitespace.

(** ** Fault and Halt are left by command only *)

Section Latched.

Variable print_float : float -> list ascii.
Variable clock : nat -> Z.
Variable fan_speed : nat -> Z.

Lemma interlocks_S4 (r : readings) (m : inverter) :
  state m = S4 -> interlocks r m = m.
Proof.
  intros H. unfold interlocks.
  rewrite (check_cap_low_S4 r m H), (check_cap_high_S4 r m H).
  rewrite check_over_current_not_S2 by (rewrite H; discriminate).
  rewrite (check_under_current_S4 r m H), (check_over_temp_S4 m H).
  apply check_under_temp_S4, H.
Qed.

(** From Halt the checks can only go to Fault. *)
Lemma interlocks_S5 (r : readings) (m : inverter) :
  state m = S5 ->
  state (interlocks r m) = S5 \/ state (interlocks r m) = S4.
Proof.
  intros H.
  apply (interlocks_stage (fun x => state x = S5 \/ state x = S4)).
  - intros e x _ _. right. reflexivity.
  - left. exact H.
Qed.

(** X7.  A pass in which no byte arrives never takes a module out of
    Fault or Halt.  In Fault it stays in Fault with the error code it has
    and the fault output low; in Halt it stays in Halt unless a check
    fails, which turns Halt into Fault. *)
Theorem fault_and_halt_are_latched (inp : inputs) (m : inverter) :
  rx inp = [] ->
  let m' := loop print_float clock fan_speed inp m in
  (state m = S4 ->
   state m' = S4 /\ error_code m' = error_code m /\ sys_fault m' = false) /\
  (state m = S5 -> state m' = S5 \/ state m' = S4).
Proof.
  intros Hrx m'. subst m'. unfold loop. cbv zeta. rewrite Hrx.
  unfold Inverter.serial_input. cbn [fold_left].
  set (m1 := poll_temperature clock inp
               (if over_edge inp then set_flag_over true m else m)).
  assert (E1 : state m1 = state m /\ error_code m1 = error_code m).
  { subst m1. unfold_steps. repeat case_if; split; reflexivity. }
  destruct E1 as [Es Ee].
  split; intros H.
  - rewrite fsm_step_idle by (left; congruence).
    rewrite interlocks_S4 by congruence.
    unfold_steps. repeat case_if; proj_simpl; rewrite Es, H;
      repeat split; try reflexivity; exact Ee.
  - rewrite fsm_step_idle by (right; congruence).
    assert (H5 : state m1 = S5) by congruence.
    destruct (interlocks_S5 (read_sensors inp) m1 H5) as [F | F];
      [left | right]; unfold_steps; repeat case_if; proj_simpl; exact F.
Qed.

(** ** The power limit in S3 *)

(** X8.  Tracking (S3) with enough voltage: while the measured power is
    above the user's limit or above the hard limit of 425 W, a pass of the
    state machine never raises the duty; it takes one off if that leaves
    the duty above 20, and turns the direction of travel down. *)
Theorem over_limit_never_raises_duty (r : readings) (m : inverter) :
  state m = S3 -> 0 < pwm m <= 314 ->
  flt (voltage r) (f32 15) = false ->
  fgt (power r) (f32 (max_power m)) || fgt (power r) (f32 MAX_POWER) = true ->
  let m' := fsm_step clock r m in
  direction m' = -1 /\
  pwm m' = (if 21 <? pwm m then pwm m - 1 else pwm m) /\
  pwm m' <= pwm m.
Proof.
  intros Hs Hp Hv Hl m'. subst m'.
  unfold fsm_step. rewrite Hs.
  unfold s3_low_voltage. rewrite Hv.
  set (m1 := s3_observe r m).
  assert (E1 : pwm m1 = pwm m /\ max_power m1 = max_power m).
  { subst m1. unfold s3_observe. repeat case_if; split; reflexivity. }
  destruct E1 as [E1 E2].
  unfold s3_limit. rewrite E2, Hl.
  unfold s3_floor. proj_simpl. rewrite E1.
  destruct (Z.eqb_spec (pwm m) 0) as [E0 | E0]; [lia |].
  unfold s3_apply. proj_simpl. rewrite E1.
  replace (-1 <? 0) with true by reflexivity.
  rewrite wrap16_small by lia.
  destruct (Z.gtb_spec (pwm m + -1) 20) as [H | H]; proj_simpl;
    destruct (Z.ltb_spec 21 (pwm m)); try lia;
    repeat split; try reflexivity; lia.
Qed.

End Latched.

Lemma over_limit_never_raises_duty_witness :
  let m := set_max_power 100 (set_pwm 200 (set_state S3 fresh)) in
  let r := Build_readings (f32 30) (f32 4) (f32 120) (f32 330) in
  let m' := fsm_step sample_clock r m in
  direction m' = -1 /\ pwm m' = 199.
Proof.
  intros m r m'.
  destruct (over_limit_never_raises_duty sample_clock r m)
    as (H1 & H2 & _).
  - reflexivity.
  - vm_compute. split; [reflexivity | discriminate].
  - vm_compute. reflexivity.
  - vm_compute. reflexivity.
  - split; [exact H1 | exact H2].
Defined.

Lemma fault_and_halt_are_latched_witness :
  let m := fault ERROR_OVER_TEMP fresh in
  let m' := loop sample_print sample_clock sample_fan quiet_inputs m in
  state m' = S4 /\ error_code m' = ERROR_OVER_TEMP /\ sys_fault m' = false.
Proof.
  intros m m'.
  destruct (fault_and_halt_are_latched sample_print sample_clock sample_fan
              quiet_inputs m eq_refl) as (H & _).
  exact (H eq_refl).
Defined.


(** ** When the relay closes *)

Section Relay.

Variable print_float : float -> list ascii.
Variable clock : nat -> Z.
Variable fan_speed : nat -> Z.

Lemma relay_open_frame (m m' : inverter) :
  sys_output m' = sys_output m -> sys_output m = false ->
  sys_output m' = false.
Proof. intros ->. exact (fun H => H). Qed.

(** No command closes the relay. *)
Lemma relay_open_byte (r : readings) (c : ascii) (m : inverter) :
  sys_output m = false ->
  sys_output (serial_byte print_float clock fan_speed r c m) = false.
Proof.
  revert r c m.
  apply (serial_byte_stage print_float clock fan_speed
           (fun m => sys_output m = false));
    intros; unfold_steps; repeat case_if; proj_simpl;
    try reflexivity; assumption.
Qed.

(** The state machine closes it only on its way from S2 to S3. *)
Lemma relay_closes_fsm (r : readings) (m : inverter) :
  sys_output m = false ->
  sys_output (fsm_step clock r m) = true ->
  state (fsm_step clock r m) = S3 /\
  flag_over m = true /\ fgt (cap_voltage r) (f32 320) = true.
Proof.
  intros H0. unfold fsm_step. destruct (state m) eqn:E.
  - unfold_steps. repeat case_if; proj_simpl; congruence.
  - unfold_steps. repeat case_if; proj_simpl; congruence.
  - assert (E1 : sys_output (s2_low_voltage clock r m) = false /\
                 flag_over (s2_low_voltage clock r m) = flag_over m).
    { unfold_steps. repeat case_if; proj_simpl; split; auto. }
    destruct E1 as [E1 E2].
    set (m1 := s2_low_voltage clock r m) in *.
    assert (E3 : sys_output (s2_ramp r (s2_connect r m1))
                 = sys_output (s2_connect r m1) /\
                 state (s2_ramp r (s2_connect r m1))
                 = state (s2_connect r m1)).
    { unfold s2_ramp. repeat case_if; split; reflexivity. }
    destruct E3 as [E3 E4]. rewrite E3, E4.
    unfold s2_connect.
    destruct (flag_over m1 && fgt (cap_voltage r) (f32 320)) eqn:Ec.
    + intros _. apply andb_true_iff in Ec as [F1 F2].
      rewrite E2 in F1. repeat split; assumption.
    + congruence.
  - unfold_steps. repeat case_if; proj_simpl; congruence.
  - congruence.
  - congruence.
Qed.

(** The checks leave the state alone or open the relay. *)
Lemma interlocks_relay (r : readings) (m : inverter) :
  interlocks r m = m \/ sys_output (interlocks r m) = false.
Proof.
  apply (interlocks_stage (fun x => x = m \/ sys_output x = false)).
  - intros e x _ _. right. reflexivity.
  - left. reflexivity.
Qed.

(** X9.  The output relay is open at the start of a pass and closed at
    its end: then that pass has read more than 320 V at the capacitor, the
    over-voltage interrupt had fired, and the module ends the pass in S3.
    No command and no other transition closes the relay. *)
Theorem relay_closes_only_on_charged_capacitor (inp : inputs)
    (m : inverter) :
  sys_output m = false ->
  let m' := loop print_float clock fan_speed inp m in
  sys_output m' = true ->
  state m' = S3 /\
  fgt (cap_voltage (read_sensors inp)) (f32 320) = true /\
  (flag_over m = true \/ over_edge inp = true).
Proof.
  intros H0 m'. subst m'. unfold loop. cbv zeta.
  set (r := read_sensors inp).
  set (m1 := poll_temperature clock inp
               (if over_edge inp then set_flag_over true m else m)).
  assert (E1 : sys_output m1 = false /\
               (flag_over m1 = true ->
                flag_over m = true \/ over_edge inp = true)).
  { subst m1. unfold_steps.
    repeat case_if; proj_simpl; split; auto. }
  destruct E1 as [E1 E1'].
  set (m2 := serial_input print_float clock fan_speed r (rx inp) m1).
  assert (E2 : sys_output m2 = false /\ flag_over m2 = flag_over m1).
  { subst m2. unfold serial_input.
    apply (fold_left_invariant
             (fun x => sys_output x = false /\ flag_over x = flag_over m1));
      [| split; [exact E1 | reflexivity]].
    intros a b. revert r b a. generalize (flag_over m1). intros v.
    apply (serial_byte_stage print_float clock fan_speed
             (fun x => sys_output x = false /\ flag_over x = v));
      intros;
      match goal with H : _ /\ _ |- _ => destruct H end;
      unfold_steps; repeat case_if; proj_simpl;
      split; (reflexivity || assumption). }
  destruct E2 as [E2 E2'].
  set (m3 := fsm_step clock r m2).
  intros H.
  assert (E3 : sys_output (interlocks r m3) = true).
  { revert H. unfold_steps. repeat case_if; proj_simpl; exact (fun H => H). }
  destruct (interlocks_relay r m3) as [E4 | E4]; [| congruence].
  rewrite E4 in E3.
  destruct (relay_closes_fsm r m2 E2 E3) as (F1 & F2 & F3).
  split; [| split; [exact F3 | apply E1'; congruence]].
  unfold_steps. repeat case_if; proj_simpl; rewrite E4; exact F1.
Qed.

End Relay.

Lemma relay_closes_only_on_charged_capacitor_witness :
  let m := set_flag_over true (set_sys_enable true
             (set_pwm 270 (set_state S2 fresh))) in
  let inp := Build_inputs [] false 512 (fun _ => 200) 330 (f32 20) in
  let m' := loop sample_print sample_clock sample_fan inp m in
  sys_output m = false /\ sys_output m' = true /\ state m' = S3.
Proof.
  intros m inp m'.
  assert (H0 : sys_output m = false) by reflexivity.
  assert (H1 : sys_output m' = true) by (vm_compute; reflexivity).
  split; [exact H0 | split; [exact H1 |]].
  exact (proj1 (relay_closes_only_on_charged_capacitor sample_print
                  sample_clock sample_fan inp m H0 H1)).
Defined.


(** ** The fan tachometer *)

Lemma wait_edge_range (pin : nat -> bool) (stop : bool -> bool)
    (left : nat) :
  forall (i : Z) (k : nat),
  let r := Fan.wait_edge pin stop left i k in
  i <= fst r <= i + Z.of_nat left /\
  (fst r < i + Z.of_nat left -> stop (pin (pred (snd r))) = true).
Proof.
  induction left as [| left IH]; intros i k; cbn [Fan.wait_edge].
  - cbn [fst snd]. split; lia.
  - destruct (stop (pin k)) eqn:E.
    + cbn [fst snd pred]. split; [lia | intros _; exact E].
    + specialize (IH (i + 1) (S k)). cbv zeta in IH.
      destruct IH as [H1 H2]. split; [lia |].
      intros H. apply H2. lia.
Qed.

(** With no edge in sight the count runs out. *)
Lemma wait_edge_none (pin : nat -> bool) (stop : bool -> bool)
    (left : nat) :
  (forall k, stop (pin k) = false) ->
  forall (i : Z) (k : nat),
  fst (Fan.wait_edge pin stop left i k) = i + Z.of_nat left.
Proof.
  intros H. induction left as [| left IH]; intros i k; cbn [Fan.wait_edge].
  - cbn [fst]. lia.
  - rewrite H, IH. lia.
Qed.

Lemma rpm_range (n : Z) :
  2 <= n <= 398 -> 753 <= wrap16 (300000 / n) <= 60000.
Proof.
  intros H.
  destruct (Z_lt_le_dec n 5) as [Hs | Hl].
  - assert (Hn : n = 2 \/ n = 3 \/ n = 4) by lia.
    destruct Hn as [-> | [-> | ->]]; vm_compute; split; discriminate.
  - assert (H1 : 300000 / n <= 60000).
    { apply Z.div_le_upper_bound; lia. }
    assert (H2 : 753 <= 300000 / n).
    { apply Z.div_le_lower_bound; lia. }
    rewrite wrap16_small by lia. lia.
Qed.

(** X10.  [fan_speed] returns 0 when FAN_PULSE does not change at all (a
    stalled or missing fan), and in every case either 0 or a speed from
    753 to 60000 rpm. *)
Theorem fan_speed_range (pin : nat -> bool) :
  ((forall k, pin k = pin 0%nat) -> Fan.fan_speed pin = 0) /\
  (Fan.fan_speed pin = 0 \/ 753 <= Fan.fan_speed pin <= 60000).
Proof.
  split.
  - intros Hc. unfold Fan.fan_speed. cbv zeta.
    destruct (Fan.wait_edge pin (fun x => negb (Bool.eqb x (pin 0%nat)))
                200 0 1) as [i k] eqn:E.
    assert (Hi : i = 200).
    { replace i with
        (fst (Fan.wait_edge pin (fun x => negb (Bool.eqb x (pin 0%nat)))
                200 0 1)) by (rewrite E; reflexivity).
      rewrite wait_edge_none; [reflexivity |].
      intros j. rewrite Hc. destruct (pin 0%nat); reflexivity. }
    rewrite Hi. reflexivity.
  - unfold Fan.fan_speed. cbv zeta.
    destruct (Fan.wait_edge pin (fun x => negb (Bool.eqb x (pin 0%nat)))
                200 0 1) as [i0 k0].
    destruct (i0 >=? 200); [left; reflexivity |].
    pose proof (wait_edge_range pin
                  (fun x => negb (Bool.eqb x (pin k0))) 199 1 (S k0)) as Hi.
    destruct (Fan.wait_edge pin (fun x => negb (Bool.eqb x (pin k0)))
                199 1 (S k0)) as [i k1].
    cbv zeta in Hi. cbn [fst snd] in Hi. destruct Hi as [Hi _].
    destruct (i >=? 200) eqn:Ei; [left; reflexivity |].
    pose proof (wait_edge_range pin
                  (fun x => Bool.eqb x (pin k0)) 199 1 k1) as Hj.
    destruct (Fan.wait_edge pin (fun x => Bool.eqb x (pin k0)) 199 1 k1)
      as [j k2].
    cbv zeta in Hj. cbn [fst snd] in Hj. destruct Hj as [Hj _].
    destruct (j >=? 200) eqn:Ej; [left; reflexivity |].
    right. apply rpm_range. lia.
Qed.

(** ** The 50 Hz drive *)




Lemma fan_speed_range_witness :
  Fan.fan_speed (fun _ => true) = 0 /\
  Fan.fan_speed Fan.sample_pulse = 6122.
Proof.
  split.
  - apply (proj1 (fan_speed_range (fun _ => true))). reflexivity.
  - vm_compute. reflexivity.
Defined.

(** ** The fan and the temperature poll *)

Section Fan.

Variable clock : nat -> Z.

(** X22.  The temperature poll never touches the power stage: state,
    duty, compare register, the enable line, the relay, the error code
    and the power limit are as before, whatever the sensor says and
    whether the poll is due or not.  When it is not due, fan and stored
    temperature stay as well.  When it is due and the reading is neither
    above 40 nor below 35 degrees (a reading that is not a number
    included), the fan is left as it is: on if it was on, off if it was
    off. *)
Theorem fan_has_hysteresis (inp : inputs) (m : inverter) :
  let m' := poll_temperature clock inp m in
  (state m' = state m /\ pwm m' = pwm m /\ OCR1B m' = OCR1B m /\
   sys_enable m' = sys_enable m /\ sys_output m' = sys_output m /\
   error_code m' = error_code m /\ max_power m' = max_power m) /\
  ((clock (ticks m) >? wrap32 (timeout_temp m + 10000)) = false ->
   fan_drive m' = fan_drive m /\ temperature m' = temperature m) /\
  ((clock (ticks m) >? wrap32 (timeout_temp m + 10000)) = true ->
   fgt (temp_celsius inp) FAN_ON_TEMP = false ->
   flt (temp_celsius inp) FAN_OFF_TEMP = false ->
   fan_drive m' = fan_drive m /\ temperature m' = temp_celsius inp).
Proof.
  intros m'. subst m'. unfold poll_temperature, millis.
  cbv beta iota zeta. proj_simpl.
  destruct (clock (ticks m) >? wrap32 (timeout_temp m + 10000)).
  - proj_simpl.
    split; [repeat case_if; proj_simpl; repeat split |].
    split; [discriminate |].
    intros _ H1 H2. rewrite H1, H2. proj_simpl. split; reflexivity.
  - split; [repeat split |]. split; [| discriminate].
    intros _. split; reflexivity.
Qed.

End Fan.

Lemma fan_has_hysteresis_witness :
  let inp := Build_inputs [] false 0 (fun _ => 0) 0 (f32 38) in
  let m := set_fan_drive true fresh in
  let m' := poll_temperature (fun _ => 20000) inp m in
  fan_drive m' = true /\ temperature m' = f32 38.
Proof.
  intros inp m m'.
  destruct (fan_has_hysteresis (fun _ => 20000) inp m) as (_ & _ & H).
  apply H; vm_compute; reflexivity.
Defined.

(** ** When the boost stage starts *)

Section Enable.

Variable print_float : float -> list ascii.
Variable clock : nat -> Z.
Variable fan_speed : nat -> Z.

(** No command enables the boost stage, and none leads to S1. *)
Lemma enable_low_byte (v : fsm) (r : readings) (c : ascii) (m : inverter) :
  sys_enable m = false /\ (state m = S1 -> v = S1) ->
  sys_enable (serial_byte print_float clock fan_speed r c m) = false /\
  (state (serial_byte print_float clock fan_speed r c m) = S1 -> v = S1).
Proof.
  revert r c m.
  apply (serial_byte_stage print_float clock fan_speed
           (fun m => sys_enable m = false /\ (state m = S1 -> v = S1)));
    intros;
    match goal with H : _ /\ _ |- _ => destruct H end;
    unfold_steps; repeat case_if; proj_simpl;
    split; first [reflexivity | assumption | discriminate].
Qed.

(** The state machine enables it only on its way from S1 to S2. *)
Lemma enable_rises_fsm (r : readings) (m : inverter) :
  sys_enable m = false ->
  sys_enable (fsm_step clock r m) = true ->
  state m = S1 /\ state (fsm_step clock r m) = S2 /\
  pwm (fsm_step clock r m) = 0 /\ fgt (voltage r) (f32 18) = true.
Proof.
  intros H0. unfold fsm_step. destruct (state m) eqn:E.
  - unfold_steps. repeat case_if; proj_simpl; congruence.
  - unfold_steps. case_if; proj_simpl; [| congruence].
    intros _. repeat split.
  - unfold_steps. repeat case_if; proj_simpl; congruence.
  - unfold_steps. repeat case_if; proj_simpl; congruence.
  - congruence.
  - congruence.
Qed.

Lemma interlocks_enable (r : readings) (m : inverter) :
  interlocks r m = m \/ sys_enable (interlocks r m) = false.
Proof.
  apply (interlocks_stage (fun x => x = m \/ sys_enable x = false)).
  - intros e x _ _. right. reflexivity.
  - left. reflexivity.
Qed.

(** X23.  The enable line of the boost stage is low at the start of a
    pass and high at its end: then the module was in S1 when the pass
    began, the pass has measured more than 18 V at the panel, and the
    module ends the pass in S2 with duty 0.  No command and no other
    transition raises the line. *)
Theorem boost_starts_only_from_S1 (inp : inputs) (m : inverter) :
  sys_enable m = false ->
  let m' := loop print_float clock fan_speed inp m in
  sys_enable m' = true ->
  state m = S1 /\ state m' = S2 /\ pwm m' = 0 /\
  fgt (voltage (read_sensors inp)) (f32 18) = true.
Proof.
  intros H0 m'. subst m'. unfold loop. cbv zeta.
  set (r := read_sensors inp).
  set (m1 := poll_temperature clock inp
               (if over_edge inp then set_flag_over true m else m)).
  assert (E1 : sys_enable m1 = false /\ state m1 = state m).
  { subst m1. unfold_steps.
    repeat case_if; proj_simpl; split; auto. }
  destruct E1 as [E1 E1'].
  set (m2 := serial_input print_float clock fan_speed r (rx inp) m1).
  assert (E2 : sys_enable m2 = false /\ (state m2 = S1 -> state m1 = S1)).
  { subst m2. unfold serial_input.
    apply (fold_left_invariant
             (fun x => sys_enable x = false /\
                       (state x = S1 -> state m1 = S1)));
      [| split; [exact E1 | exact (fun H => H)]].
    intros a b. apply enable_low_byte. }
  destruct E2 as [E2 E2'].
  set (m3 := fsm_step clock r m2).
  intros H.
  assert (E3 : sys_enable (interlocks r m3) = true).
  { revert H. unfold_steps. repeat case_if; proj_simpl; exact (fun H => H). }
  destruct (interlocks_enable r m3) as [E4 | E4]; [| congruence].
  rewrite E4 in E3.
  destruct (enable_rises_fsm r m2 E2 E3) as (F1 & F2 & F3 & F4).
  split; [rewrite <- E1'; apply E2'; exact F1 |].
  split; [| split; [| exact F4]].
  - unfold_steps. repeat case_if; proj_simpl; rewrite E4; exact F2.
  - unfold_steps. repeat case_if; proj_simpl; rewrite E4; exact F3.
Qed.

End Enable.

Lemma boost_starts_only_from_S1_witness :
  let m := set_state S1 fresh in
  let inp := Build_inputs [] false 512 (fun _ => 200) 100 (f32 20) in
  let m' := loop sample_print sample_clock sample_fan inp m in
  sys_enable m = false /\ sys_enable m' = true /\ state m' = S2.
Proof.
  intros m inp m'.
  assert (H0 : sys_enable m = false) by reflexivity.
  assert (H1 : sys_enable m' = true) by (vm_compute; reflexivity).
  split; [exact H0 | split; [exact H1 |]].
  exact (proj1 (proj2 (boost_starts_only_from_S1 sample_print
                         sample_clock sample_fan inp m H0 H1))).
Defined.

End InverterProofs.

(** * Properties of the master controller *)

Module MasterProofs.
Import Master.

#[local] Arguments f32 : simpl never.
#[local] Arguments f32_lit : simpl never.
#[local] Arguments flt : simpl never.
#[local] Arguments fgt : simpl never.
#[local] Arguments wrap32 : simpl never.
#[local] Arguments atoi : simpl never.
#[local] Arguments print_int : simpl never.
#[local] Arguments Z.eqb : simpl never.
#[local] Arguments Z.ltb : simpl never.
#[local] Arguments Z.leb : simpl never.
#[local] Arguments Z.gtb : simpl never.
#[local] Arguments Z.geb : simpl never.


(** ** The parser *)

Lemma store_store (module : Z) (f g : module_status -> module_status)
    (tbl : list module_status) :
  store module f (store module g tbl) = store module (f ∘ g) tbl.
Proof. unfold store. apply list_alter_alter_eq. Qed.

Lemma store_length (module : Z) (g : module_status -> module_status)
    (tbl : list module_status) :
  length (store module g tbl) = length tbl.
Proof. unfold store. apply length_alter. Qed.







Section Parser.

Variable atof : list ascii -> float.


End Parser.




(** ** The recovery heuristic *)


Section Recovery.

Variable clock : nat -> Z.


End Recovery.


(** ** The thermal check *)

(** C1, at a failing input.  The master shows module 0, no module is
    halted, and the cylinder is at 76 degrees: the check writes the halt
    line of module 0 four times, and none for modules 1, 2 and 3. *)
Theorem thermal_halt_addresses_displayed_module :
  let m := with_hwc_temp (f32 76) boot in
  (forall s, s ∈ mod_st m -> state s <> 5) /\
  fgt (hwc_temp m) MAX_HWC_TEMP = true /\
  serial_out (thermal_action m)
    = command "h" 0 ++ command "h" 0 ++ command "h" 0 ++ command "h" 0 /\
  serial_out (thermal_action m)
    <> command "h" 0 ++ command "h" 1 ++ command "h" 2 ++ command "h" 3.
Proof.
  intros m. split.
  { intros s Hs. apply list_elem_of_In in Hs. vm_compute in Hs.
    repeat (destruct Hs as [<- | Hs]; [vm_compute; discriminate |]).
    contradiction. }
  split; [vm_compute; reflexivity |].
  split; [vm_compute; reflexivity |].
  vm_compute. discriminate.
Qed.


(** ** More on the parser *)

(** X12.  [next_value] finds the first [';'] of the string: it returns
    what follows it, and [NULL] exactly when the string, up to its NUL,
    has no [';']. *)
Theorem next_value_finds_separator (p : list ascii) :
  (forall q, next_value p = Some q <->
     exists pre, p = pre ++ ";"%char :: q /\
       Forall (fun ch => ch <> ";"%char /\ ch <> NUL) pre) /\
  (next_value p = None <-> ~ In ";"%char (c_str p)).
Proof.
  split.
  - intros q. split.
    + revert q. induction p as [| ch p IH]; intros q H; [discriminate |].
      cbn [next_value] in H.
      destruct (Ascii.eqb_spec ch NUL) as [E0 | E0]; [discriminate |].
      destruct (Ascii.eqb_spec ch ";") as [E1 | E1].
      * injection H as <-. exists []. subst ch. split; [reflexivity | constructor].
      * destruct (IH q H) as (pre & -> & Hpre).
        exists (ch :: pre). split; [reflexivity |].
        constructor; [split; assumption | exact Hpre].
    + intros (pre & -> & Hpre).
      induction Hpre as [| ch pre [H1 H2] _ IH]; cbn [app next_value].
      * replace (Ascii.eqb ";" NUL) with false by reflexivity.
        rewrite Ascii.eqb_refl. reflexivity.
      * apply Ascii.eqb_neq in H1, H2. rewrite H1, H2. exact IH.
  - induction p as [| ch p IH]; cbn [next_value c_str].
    + split; [intros _ [] | reflexivity].
    + destruct (Ascii.eqb_spec ch NUL) as [E0 | E0].
      * split; [intros _ [] | reflexivity].
      * destruct (Ascii.eqb_spec ch ";") as [E1 | E1].
        -- split; [discriminate |]. intros H. exfalso. apply H. left. exact E1.
        -- rewrite IH. cbn [In]. split.
           ++ intros H [F | F]; [exact (E1 F) | exact (H F)].
           ++ intros H F. apply H. right. exact F.
Qed.

Section ParserMore.

Variable atof : list ascii -> float.

Lemma store_id (module : Z) (tbl : list module_status) :
  store module (fun s => s) tbl = tbl.
Proof. unfold store. apply list_alter_id. reflexivity. Qed.

(** An [e] line stores nothing or the error code. *)
Lemma effect_of_e_line (line : list ascii) :
  hd NUL line = "e"%char ->
  effect_of atof line (fun s => s) \/ exists x, effect_of atof line (set_error x).
Proof.
  intros He. unfold effect_of, parse. cbv zeta. rewrite He.
  replace (Ascii.eqb "e" "e") with true by reflexivity.
  destruct (strlen line <? 3);
    [left; intros tbl; symmetry; apply store_id |].
  destruct ((atoi (drop 2 line) <? 0) || (atoi (drop 2 line) >=? MODULES));
    [left; intros tbl; symmetry; apply store_id |].
  destruct (next_value (drop 2 line)) as [p |];
    [| left; intros tbl; symmetry; apply store_id].
  right. exists (atoi p). intros tbl. reflexivity.
Qed.

(** An [i] line stores a run of its fields, and never the error code. *)
Lemma effect_of_i_line (line : list ascii) :
  hd NUL line = "i"%char ->
  exists g, effect_of atof line g /\
    forall x s, g (set_error x s) = set_error x (g s).
Proof.
  intros Hi. unfold effect_of, parse. cbv zeta. rewrite Hi.
  replace (Ascii.eqb "i" "e") with false by reflexivity.
  replace (Ascii.eqb "i" "i") with true by reflexivity.
  set (module := atoi (drop 2 line)).
  assert (H0 : exists g : module_status -> module_status,
            (forall tbl, tbl = store module g tbl) /\
            forall x s, g (set_error x s) = set_error x (g s)).
  { exists (fun s => s). split; [intros; symmetry; apply store_id | reflexivity]. }
  destruct (strlen line <? 3); [exact H0 |].
  destruct ((module <? 0) || (module >=? MODULES)); [exact H0 |].
  destruct (next_value (drop 2 line)) as [p1 |]; [| exact H0].
  clear H0.
  repeat
    (match goal with
     | |- context [match next_value ?q with _ => _ end] =>
         destruct (next_value q) as [? |]
     end;
     [| eexists; split;
        [intros tbl; cbn [snd]; rewrite ?store_store; reflexivity
        | intros x s; unfold compose; reflexivity] ]).
  eexists; split;
    [intros tbl; cbn [snd]; rewrite ?store_store; reflexivity
    | intros x s; unfold compose; reflexivity].
Qed.

(** X13.  An [i] line and an [e] line update disjoint parts of the table:
    parsing one and then the other leaves the same table in either order,
    whatever the two lines are (same module or not, complete or cut
    short). *)
Theorem i_and_e_lines_commute (li le : list ascii)
    (tbl : list module_status) :
  hd NUL li = "i"%char -> hd NUL le = "e"%char ->
  snd (parse atof le (snd (parse atof li tbl))) =
  snd (parse atof li (snd (parse atof le tbl))).
Proof.
  intros Hi He.
  destruct (effect_of_i_line li Hi) as (g & Hg & Hc).
  assert (Hcomm : forall f : module_status -> module_status,
            (forall s, f (g s) = g (f s)) ->
            store (atoi (drop 2 le)) f (store (atoi (drop 2 li)) g tbl)
            = store (atoi (drop 2 li)) g (store (atoi (drop 2 le)) f tbl)).
  { intros f Hf. unfold store.
    destruct (decide (Z.to_nat (atoi (drop 2 le))
                      = Z.to_nat (atoi (drop 2 li)))) as [E | E].
    - rewrite E, !list_alter_alter_eq. apply list_alter_ext; [| reflexivity].
      intros s _. unfold compose. apply Hf.
    - apply list_alter_alter_ne. exact E. }
  destruct (effect_of_e_line le He) as [Hf | [x Hf]];
    rewrite (Hf (snd (parse atof li tbl))), (Hg tbl),
      (Hg (snd (parse atof le tbl))), (Hf tbl);
    apply Hcomm.
  - reflexivity.
  - intros s. symmetry. apply Hc.
Qed.

(** X14.  [parse] returns -1 or the index of a slot of the table, and it
    never changes the number of slots. *)
Theorem parse_returns_a_slot (line : list ascii)
    (tbl : list module_status) :
  (fst (parse atof line tbl) = -1 \/
   0 <= fst (parse atof line tbl) < MODULES) /\
  length (snd (parse atof line tbl)) = length tbl.
Proof.
  unfold parse. cbv zeta.
  set (module := atoi (drop 2 line)).
  destruct (strlen line <? 3); [split; [left |]; reflexivity |].
  destruct (Ascii.eqb (hd NUL line) "e").
  { destruct ((module <? 0) || (module >=? MODULES)) eqn:Hb;
      [split; [left |]; reflexivity |].
    apply orb_false_iff in Hb as [Hb1 Hb2].
    destruct (next_value (drop 2 line));
      [| split; [left |]; reflexivity].
    cbn [fst snd]. split; [right; lia | apply store_length]. }
  destruct (Ascii.eqb (hd NUL line) "i");
    [| split; [left |]; reflexivity].
  destruct ((module <? 0) || (module >=? MODULES)) eqn:Hb;
    [split; [left |]; reflexivity |].
  apply orb_false_iff in Hb as [Hb1 Hb2].
  destruct (next_value (drop 2 line)); [| split; [left |]; reflexivity].
  repeat
    (match goal with
     | |- context [match next_value ?q with _ => _ end] =>
         destruct (next_value q) as [? |]
     end;
     [| cbn [fst snd]; split; [left; reflexivity |];
        rewrite ?store_length; reflexivity ]).
  cbn [fst snd]. split; [right; lia |].
  rewrite ?store_length. reflexivity.
Qed.

End ParserMore.

Lemma i_and_e_lines_commute_witness :
  let li := str "i;2;3;100" in
  let le := str "e;2;5;" in
  snd (parse sample_atof le (snd (parse sample_atof li (mod_st boot)))) =
  snd (parse sample_atof li (snd (parse sample_atof le (mod_st boot)))).
Proof.
  intros li le.
  apply (i_and_e_lines_commute sample_atof li le (mod_st boot));
    reflexivity.
Defined.

(** ** More on the thermal check *)

Section Thermal.

Variable clock : nat -> Z.
Variable sensor : nat -> float.

Lemma read_hwc_frame (tries : nat) :
  forall (k : nat) (m : master),
  let m' := read_hwc sensor k tries m in
  serial_out m' = serial_out m /\ mod_st m' = mod_st m /\
  mains_pos m' = mains_pos m /\ mains_neg m' = mains_neg m /\
  ticks m' = ticks m /\ mod_display m' = mod_display m.
Proof.
  induction tries as [| tries IH]; intros k m; cbn [read_hwc].
  - repeat split.
  - cbv zeta. case_if; [repeat split |].
    destruct (IH (S k) (with_hwc_temp (sensor k) m))
      as (H1 & H2 & H3 & H4 & H5 & H6).
    cbv zeta in *. rewrite H1, H2, H3, H4, H5, H6. repeat split.
Qed.

Lemma read_hwc_first (tries : nat) :
  forall (k i : nat) (m : master),
  (k <= i < k + tries)%nat ->
  fgt (sensor i) (f32 (-125)) = true ->
  (forall j, (k <= j < i)%nat -> fgt (sensor j) (f32 (-125)) = false) ->
  hwc_temp (read_hwc sensor k tries m) = sensor i.
Proof.
  induction tries as [| tries IH]; intros k i m Hi Hg Hb; [lia |].
  cbn [read_hwc]. cbv zeta. proj_simpl.
  destruct (decide (i = k)) as [-> | Hne].
  - rewrite Hg. proj_simpl. reflexivity.
  - rewrite Hb by lia. apply IH; [lia | exact Hg |].
    intros j Hj. apply Hb. lia.
Qed.

Lemma thermal_action_in_band (m : master) :
  flt (hwc_temp m) MIN_HWC_TEMP = false ->
  fgt (hwc_temp m) MAX_HWC_TEMP = false ->
  thermal_action m = m.
Proof. intros H1 H2. unfold thermal_action. rewrite H1, H2. reflexivity. Qed.

(** X15.  The check is due, and the sensor first gives up to four
    implausible readings (not above -125, such as the sporadic -127) and
    then, within the five tries, a reading inside the band: that reading
    is the one that counts.  No module is halted, the waveform is left
    alone, and the next check is due ten seconds later. *)
Theorem thermal_check_retries (i : nat) (m : master) :
  clock (ticks m) > wrap32 (timeout_temp m + 10000) ->
  (i < 5)%nat ->
  (forall j, (j < i)%nat -> fgt (sensor j) (f32 (-125)) = false) ->
  fgt (sensor i) (f32 (-125)) = true ->
  flt (sensor i) MIN_HWC_TEMP = false ->
  fgt (sensor i) MAX_HWC_TEMP = false ->
  let m' := thermal_check clock sensor m in
  hwc_temp m' = sensor i /\ serial_out m' = serial_out m /\
  mains_pos m' = mains_pos m /\ mains_neg m' = mains_neg m /\
  mod_st m' = mod_st m /\ timeout_temp m' = clock (S (ticks m)).
Proof.
  intros Hdue Hi Hbad Hgood Hmin Hmax m'. subst m'.
  unfold thermal_check, millis. cbv beta iota zeta. proj_simpl.
  destruct (Z.gtb_spec (clock (ticks m)) (wrap32 (timeout_temp m + 10000)))
    as [_ | F]; [| lia].
  set (m1 := read_hwc sensor 0 5 (with_ticks (S (ticks m)) m)).
  assert (Ht : hwc_temp m1 = sensor i).
  { apply read_hwc_first; [lia | exact Hgood |].
    intros j Hj. apply Hbad. lia. }
  destruct (read_hwc_frame 5 0 (with_ticks (S (ticks m)) m))
    as (H1 & H2 & H3 & H4 & H5 & _).
  fold m1 in H1, H2, H3, H4, H5.
  rewrite thermal_action_in_band by (rewrite Ht; assumption).
  proj_simpl. rewrite Ht, H1, H2, H3, H4, H5. proj_simpl.
  repeat split.
Qed.

End Thermal.

Lemma thermal_check_retries_witness :
  let clock := fun k : nat => 20000 + Z.of_nat k in
  let sensor := fun j : nat => if (j <? 2)%nat then f32 (-127) else f32 60 in
  let m' := thermal_check clock sensor boot in
  hwc_temp m' = f32 60 /\ serial_out m' = [].
Proof.
  intros clock sensor m'.
  destruct (thermal_check_retries clock sensor 2 boot) as (H1 & H2 & _).
  - vm_compute. reflexivity.
  - lia.
  - intros j Hj. destruct j as [| [| j]]; [reflexivity | reflexivity | lia].
  - reflexivity.
  - reflexivity.
  - reflexivity.
  - split; [exact H1 | exact H2].
Defined.


(** ** The extreme temperature *)

Lemma fgt_extreme_max (t : float) :
  fgt t EXTREME_HWC_TEMP = true -> fgt t MAX_HWC_TEMP = true.
Proof.
  unfold fgt, SFltb, EXTREME_HWC_TEMP, MAX_HWC_TEMP.
  replace (f32 80) with (S754_finite false 10485760 (-17))
    by (vm_compute; reflexivity).
  replace (f32 75) with (S754_finite false 9830400 (-17))
    by (vm_compute; reflexivity).
  destruct t as [s | s | | s mt et]; cbn [SFcompare];
    try destruct s; try discriminate; try reflexivity.
  destruct (Z.compare (-17) et); try discriminate; try reflexivity.
  change (PosDef.Pos.compare_cont Eq 10485760 mt)
    with (Pos.compare 10485760 mt).
  change (PosDef.Pos.compare_cont Eq 9830400 mt)
    with (Pos.compare 9830400 mt).
  destruct (Pos.compare 10485760 mt) eqn:E; try discriminate.
  intros _. change (10485760 < mt)%positive in E.
  replace (Pos.compare 9830400 mt) with Lt; [reflexivity |].
  symmetry. apply Pos.compare_lt_iff. lia.
Qed.

Lemma halt_module_shape (i : nat) (m : master) :
  same_shape m (halt_module i m) /\
  mains_pos (halt_module i m) = mains_pos m /\
  mains_neg (halt_module i m) = mains_neg m /\
  hwc_temp (halt_module i m) = hwc_temp m.
Proof.
  unfold halt_module, same_shape.
  destruct (mod_st m !! i) as [s |]; [| repeat split].
  destruct (state s =? 5); repeat split.
Qed.

Lemma halt_modules_shape (m : master) :
  same_shape m (halt_modules m) /\
  mains_pos (halt_modules m) = mains_pos m /\
  mains_neg (halt_modules m) = mains_neg m /\
  hwc_temp (halt_modules m) = hwc_temp m.
Proof.
  unfold halt_modules.
  apply (fold_left_keeps
           (fun m' => same_shape m m' /\ mains_pos m' = mains_pos m /\
                      mains_neg m' = mains_neg m /\ hwc_temp m' = hwc_temp m)).
  - intros a i (Ha & H1 & H2 & H3).
    destruct (halt_module_shape i a) as (Hb & G1 & G2 & G3).
    unfold same_shape in *.
    destruct Ha as (A1 & A2 & A3 & A4 & A5 & A6).
    destruct Hb as (B1 & B2 & B3 & B4 & B5 & B6).
    repeat split; congruence.
  - unfold same_shape. repeat split.
Qed.

(** The first [k] entries of both tables are zero after [k] turns. *)
Lemma stop_mains_prefix (k : nat) :
  forall m : master,
  (k <= length (mains_pos m))%nat -> (k <= length (mains_neg m))%nat ->
  let m' :=
    fold_left
      (fun m i => with_mains_pos (<[i := 0]> (mains_pos m))
                    (with_mains_neg (<[i := 0]> (mains_neg m)) m))
      (seq 0 k) m in
  mains_pos m' = replicate k 0 ++ drop k (mains_pos m) /\
  mains_neg m' = replicate k 0 ++ drop k (mains_neg m) /\
  same_shape m m'.
Proof.
  induction k as [| k IH]; intros m Hp Hn.
  - cbn [seq fold_left replicate app]. rewrite !drop_0.
    unfold same_shape. repeat split.
  - rewrite seq_S, fold_left_app. cbn [Nat.add fold_left].
    destruct (IH m) as (E1 & E2 & Es); [lia | lia |].
    cbv zeta in E1, E2, Es.
    set (m1 := fold_left _ (seq 0 k) m) in *.
    cbv zeta. proj_simpl. rewrite E1, E2.
    assert (Hins : forall l : list Z, (S k <= length l)%nat ->
              <[k := 0]> (replicate k 0 ++ drop k l)
              = replicate (S k) 0 ++ drop (S k) l).
    { intros l Hl. rewrite insert_app_r_alt by (rewrite length_replicate; lia).
      rewrite length_replicate, Nat.sub_diag.
      destruct (drop k l) as [| x rest] eqn:E.
      - apply (f_equal length) in E. rewrite length_drop in E.
        cbn in E. lia.
      - cbn [insert list_insert].
        replace (drop (S k) l) with rest.
        + replace (S k) with (k + 1)%nat by lia.
          rewrite replicate_add, <- app_assoc. reflexivity.
        + replace (S k) with (k + 1)%nat by lia.
          rewrite <- drop_drop, E. reflexivity. }
    rewrite !Hins by assumption.
    split; [reflexivity |]. split; [reflexivity |].
    unfold same_shape in *. proj_simpl.
    destruct Es as (A1 & A2 & A3 & A4 & A5 & A6).
    repeat split; try assumption;
      rewrite length_app, length_replicate, length_drop; lia.
Qed.

Lemma stop_mains_zero (m : master) :
  length (mains_pos m) = MAINS_SEQUENCE_LENGTH ->
  length (mains_neg m) = MAINS_SEQUENCE_LENGTH ->
  mains_pos (stop_mains m) = replicate MAINS_SEQUENCE_LENGTH 0 /\
  mains_neg (stop_mains m) = replicate MAINS_SEQUENCE_LENGTH 0 /\
  same_shape m (stop_mains m).
Proof.
  intros Hp Hn. unfold stop_mains.
  destruct (stop_mains_prefix MAINS_SEQUENCE_LENGTH m) as (E1 & E2 & Es);
    [lia | lia |].
  cbv zeta in E1, E2, Es. rewrite E1, E2.
  rewrite !drop_ge by lia. rewrite !app_nil_r.
  repeat split; apply Es.
Qed.

Lemma interrupts_low (n : nat) :
  forall d : Mains.drive,
  (0 < n)%nat ->
  let d' := Mains.interrupts n (replicate MAINS_SEQUENCE_LENGTH 0)
              (replicate MAINS_SEQUENCE_LENGTH 0) d in
  Mains.sys_via d' = false /\ Mains.sys_vib d' = false.
Proof.
  assert (Hz : forall d, Mains.level
             (Mains.entry (replicate MAINS_SEQUENCE_LENGTH 0) d) = false).
  { intros d. unfold Mains.level, Mains.entry.
    replace (nth (Z.to_nat (Mains.mains_counter d))
               (replicate MAINS_SEQUENCE_LENGTH 0) 0) with 0; [reflexivity |].
    generalize (Z.to_nat (Mains.mains_counter d)). intros k.
    unfold MAINS_SEQUENCE_LENGTH.
    do 30 (destruct k as [| k]; [reflexivity |]).
    destruct k; reflexivity. }
  induction n as [| n IH]; intros d Hn; [lia |].
  cbn [Mains.interrupts].
  destruct n as [| n].
  - cbn [Mains.interrupts]. unfold Mains.timer2_ovf.
    cbn [Mains.sys_via Mains.sys_vib]. rewrite Hz. split; reflexivity.
  - apply IH. lia.
Qed.

(** X16.  The check has read a temperature above 80 degrees, with the
    tables at their length of 30: both waveform tables are all zero
    afterwards, and from the next run of the interrupt routine on both
    drive lines are low, for any number of runs and whatever the counter
    is.  Nothing else of the shape of the globals changes. *)
Theorem extreme_temperature_stops_the_drive (m : master) :
  fgt (hwc_temp m) EXTREME_HWC_TEMP = true ->
  length (mains_pos m) = MAINS_SEQUENCE_LENGTH ->
  length (mains_neg m) = MAINS_SEQUENCE_LENGTH ->
  let m' := thermal_action m in
  mains_pos m' = replicate MAINS_SEQUENCE_LENGTH 0 /\
  mains_neg m' = replicate MAINS_SEQUENCE_LENGTH 0 /\
  same_shape m m' /\
  forall (n : nat) (d : Mains.drive), (0 < n)%nat ->
    let d' := Mains.interrupts n (mains_pos m') (mains_neg m') d in
    Mains.sys_via d' = false /\ Mains.sys_vib d' = false.
Proof.
  intros Hx Hp Hn m'. subst m'. unfold thermal_action.
  rewrite (fgt_extreme_max _ Hx), orb_true_r.
  destruct (halt_modules_shape m) as (Hs & H1 & H2 & H3).
  cbv zeta. rewrite H3, Hx.
  destruct (stop_mains_zero (halt_modules m)) as (E1 & E2 & Es);
    [rewrite H1; exact Hp | rewrite H2; exact Hn |].
  rewrite E1, E2.
  split; [reflexivity |]. split; [reflexivity |]. split.
  - unfold same_shape in *.
    destruct Hs as (A1 & A2 & A3 & A4 & A5 & A6).
    destruct Es as (B1 & B2 & B3 & B4 & B5 & B6).
    repeat split; congruence.
  - intros n d Hn0. apply interrupts_low. exact Hn0.
Qed.

Lemma extreme_temperature_stops_the_drive_witness :
  let m' := thermal_action (with_hwc_temp (f32 81) boot) in
  let d' := Mains.interrupts 3 (mains_pos m') (mains_neg m') Mains.drive0 in
  mains_pos m' = replicate MAINS_SEQUENCE_LENGTH 0 /\
  Mains.sys_via d' = false /\ Mains.sys_vib d' = false.
Proof.
  intros m' d'.
  destruct (extreme_temperature_stops_the_drive (with_hwc_temp (f32 81) boot))
    as (H1 & _ & _ & H4).
  - vm_compute. reflexivity.
  - reflexivity.
  - reflexivity.
  - split; [exact H1 |]. apply (H4 3%nat Mains.drive0). lia.
Defined.

(** ** The poll *)

Lemma poll_request_step (clock : nat -> Z) (m : master) :
  -1 <= poll_id m < MODULES ->
  let m' := poll_request clock m in
  let next := (poll_id m + 1) mod MODULES in
  ((serial_out m' = serial_out m /\ poll_id m' = poll_id m) \/
   (serial_out m' = serial_out m ++ command "i" next /\ poll_id m' = next)) /\
  mod_display m' = mod_display m /\ line m' = line m /\
  mod_st m' = mod_st m /\ mains_pos m' = mains_pos m /\
  mains_neg m' = mains_neg m.
Proof.
  intros Hp m' next. subst m' next. unfold poll_request, millis.
  cbv beta iota zeta. proj_simpl.
  destruct (wrap32 (clock (ticks m) - last_request m) >? 500).
  - unfold Serial_print. proj_simpl. split; [right | repeat split].
    assert (E : (if poll_id m + 1 >=? MODULES then 0 else poll_id m + 1)
                = (poll_id m + 1) mod MODULES).
    { unfold MODULES in *.
      destruct (Z.geb_spec (poll_id m + 1) 4) as [G | G].
      - replace (poll_id m + 1) with 4 by lia. reflexivity.
      - rewrite Z.mod_small by lia. reflexivity. }
    rewrite E. split; reflexivity.
  - proj_simpl. split; [left | repeat split]. split; reflexivity.
Qed.




(** ** What every pass of the loop keeps *)

Lemma same_shape_refl (m : master) : same_shape m m.
Proof. unfold same_shape. repeat split. Qed.

Lemma same_shape_trans (m1 m2 m3 : master) :
  same_shape m1 m2 -> same_shape m2 m3 -> same_shape m1 m3.
Proof.
  unfold same_shape.
  intros (A1 & A2 & A3 & A4 & A5 & A6) (B1 & B2 & B3 & B4 & B5 & B6).
  repeat split; congruence.
Qed.

Lemma globals_ok_shape (m m' : master) :
  globals_ok m -> same_shape m m' -> globals_ok m'.
Proof.
  unfold globals_ok, same_shape.
  intros (A1 & A2 & A3 & A4 & A5 & A6) (B1 & B2 & B3 & B4 & B5 & B6).
  rewrite B1, B2, B3, B4, B5, B6. repeat split; tauto.
Qed.

Lemma serial_print_shape (s : list ascii) (m : master) :
  same_shape m (Serial_print s m).
Proof. unfold same_shape. repeat split. Qed.

Lemma process_select_shape (md mp : Z) (m : master) :
  same_shape m (snd (process_select md mp m)) /\
  (fst (process_select md mp m) = md \/
   fst (process_select md mp m) = MODE_DASH_SINGLE).
Proof.
  unfold process_select.
  repeat case_if; cbn [fst snd]; split;
    first [apply serial_print_shape | apply same_shape_refl
          | right; reflexivity | left; reflexivity].
Qed.

Lemma int16_small (z : Z) : -32768 <= z < 32768 -> int16 z = z.
Proof. intros H. unfold int16. rewrite Z.mod_small by lia. lia. Qed.

Lemma buttons_ok (b : Z) (u : panel) (m : master) :
  panel_ok u -> globals_ok m ->
  panel_ok (fst (buttons b u m)) /\ globals_ok (snd (buttons b u m)).
Proof.
  intros Hu Hg. assert (Hu' := Hu). destruct Hu' as (Hm & Hp & Hd).
  assert (Hg' := Hg). destruct Hg' as (G1 & G2 & G3 & G4 & G5 & G6).
  unfold MODE_MIN, MODE_MAX, MODULES in *.
  unfold buttons.
  destruct (b =? BUTTON_LEFT).
  { destruct (mode u =? MODE_SET_POWER).
    - cbn [fst snd]. split; [| exact Hg].
      unfold panel_ok, MODE_MIN, MODE_MAX. cbn [mode max_power].
      unfold wrap16. rewrite (Z.mod_small (max_power u - 25)) by lia.
      destruct (Z.ltb_spec (max_power u - 25) 50).
      + repeat split; try lia.
      + repeat split; try lia.
        revert Hd. generalize (max_power u). intros x Hx.
        Z.div_mod_to_equations. lia.
    - destruct (Z.gtb_spec (mod_display m) 0); cbn [fst snd];
        (split; [exact Hu |]); [| exact Hg].
      rewrite int16_small by lia.
      unfold globals_ok, MODULES. cbn.
      repeat split; try assumption; try lia. }
  destruct (b =? BUTTON_RIGHT).
  { destruct (mode u =? MODE_SET_POWER).
    - cbn [fst snd]. split; [| exact Hg].
      unfold panel_ok, MODE_MIN, MODE_MAX. cbn [mode max_power].
      unfold wrap16. rewrite (Z.mod_small (max_power u + 25)) by lia.
      destruct (Z.gtb_spec (max_power u + 25) 425).
      + repeat split; try lia.
      + repeat split; try lia.
        revert Hd. generalize (max_power u). intros x Hx.
        Z.div_mod_to_equations. lia.
    - destruct (Z.ltb_spec (mod_display m) (MODULES - 1));
        unfold MODULES in *; cbn [fst snd];
        (split; [exact Hu |]); [| exact Hg].
      rewrite int16_small by lia.
      unfold globals_ok, MODULES. cbn.
      repeat split; try assumption; try lia. }
  destruct (b =? BUTTON_UP).
  { destruct (Z.gtb_spec (mode u) MODE_MIN);
      unfold MODE_MIN in *; cbn [fst snd];
      (split; [| exact Hg]); [| exact Hu].
    unfold panel_ok, MODE_MIN, MODE_MAX. cbn [mode max_power].
    unfold wrap8. rewrite Z.mod_small by lia. repeat split; lia. }
  destruct (b =? BUTTON_DOWN).
  { destruct (Z.ltb_spec (mode u) MODE_MAX);
      unfold MODE_MAX in *; cbn [fst snd];
      (split; [| exact Hg]); [| exact Hu].
    unfold panel_ok, MODE_MIN, MODE_MAX. cbn [mode max_power].
    unfold wrap8. rewrite Z.mod_small by lia. repeat split; lia. }
  destruct (b =? BUTTON_SELECT); [| split; [exact Hu | exact Hg]].
  destruct (process_select_shape (mode u) (max_power u) m) as (Hs & Hmd).
  destruct (process_select (mode u) (max_power u) m) as [md m1].
  cbn [fst snd] in *. split.
  - unfold panel_ok, MODE_MIN, MODE_MAX. cbn [mode max_power].
    unfold wrap8, MODE_DASH_SINGLE in *.
    destruct Hmd as [-> | ->]; rewrite Z.mod_small by lia;
      repeat split; try lia; exact Hd.
  - exact (globals_ok_shape m m1 Hg Hs).
Qed.

Lemma poll_request_ok (clock : nat -> Z) (m : master) :
  globals_ok m -> globals_ok (poll_request clock m).
Proof.
  intros (G1 & G2 & G3 & G4 & G5 & G6).
  destruct (poll_request_step clock m G2) as (Hid & E1 & E2 & E3 & E4 & E5).
  cbv zeta in *. unfold globals_ok.
  rewrite E1, E2, E3, E4, E5.
  repeat split; try assumption; try tauto;
    pose proof (Z.mod_pos_bound (poll_id m + 1) MODULES eq_refl) as Hb;
    destruct Hid as [[_ ->] | [_ ->]]; lia.
Qed.

Lemma read_hwc_only_temp (sensor : nat -> float) (tries : nat) :
  forall (k : nat) (m : master),
  read_hwc sensor k tries m
  = with_hwc_temp (hwc_temp (read_hwc sensor k tries m)) m.
Proof.
  induction tries as [| tries IH]; intros k m; cbn [read_hwc].
  - destruct m; reflexivity.
  - cbv zeta. proj_simpl. destruct (fgt (sensor k) (f32 (-125))).
    + proj_simpl. reflexivity.
    + rewrite (IH (S k) (with_hwc_temp (sensor k) m)) at 1.
      destruct m; reflexivity.
Qed.

Lemma stop_mains_shape (m : master) : same_shape m (stop_mains m).
Proof.
  unfold stop_mains.
  apply (fold_left_keeps (fun m' => same_shape m m')).
  - intros a i Ha. apply (same_shape_trans m a); [exact Ha |].
    unfold same_shape. proj_simpl. rewrite !length_insert. repeat split.
  - apply same_shape_refl.
Qed.

Lemma thermal_action_shape (m : master) : same_shape m (thermal_action m).
Proof.
  unfold thermal_action.
  destruct (flt (hwc_temp m) MIN_HWC_TEMP || fgt (hwc_temp m) MAX_HWC_TEMP);
    [| apply same_shape_refl].
  cbv zeta. destruct (halt_modules_shape m) as (Hs & _).
  destruct (fgt (hwc_temp (halt_modules m)) EXTREME_HWC_TEMP);
    [| exact Hs].
  apply (same_shape_trans m (halt_modules m)); [exact Hs |].
  apply stop_mains_shape.
Qed.

Lemma thermal_check_shape (clock : nat -> Z) (sensor : nat -> float)
    (m : master) :
  same_shape m (thermal_check clock sensor m).
Proof.
  unfold thermal_check, millis. cbv beta iota zeta. proj_simpl.
  destruct (clock (ticks m) >? wrap32 (timeout_temp m + 10000)).
  - set (m0 := with_ticks (S (ticks m)) m).
    rewrite (read_hwc_only_temp sensor 5 0 m0).
    set (m1 := with_hwc_temp _ m0).
    pose proof (thermal_action_shape m1) as H.
    set (m2 := thermal_action m1) in *.
    apply (same_shape_trans m m1); [unfold same_shape; repeat split |].
    apply (same_shape_trans m1 m2); [exact H |].
    unfold same_shape. proj_simpl. repeat split.
  - unfold same_shape. repeat split.
Qed.

Lemma auto_reset_module_shape (clock : nat -> Z) (i : nat) (m : master) :
  same_shape m (auto_reset_module clock i m).
Proof.
  unfold auto_reset_module.
  destruct (mod_st m !! i) as [s |]; [| apply same_shape_refl].
  destruct ((error s =? 5) && fgt (v s) (f32 50)); [| apply same_shape_refl].
  unfold millis. cbv beta iota zeta.
  destruct (clock (ticks m) >? wrap32 (last_reset s + 10000)).
  - unfold same_shape, Serial_print. proj_simpl.
    rewrite !length_alter. repeat split.
  - unfold same_shape. repeat split.
Qed.

Lemma auto_reset_shape (clock : nat -> Z) (m : master) :
  same_shape m (auto_reset clock m).
Proof.
  unfold auto_reset.
  apply (fold_left_keeps (fun m' => same_shape m m')).
  - intros a i Ha. apply (same_shape_trans m a); [exact Ha |].
    apply auto_reset_module_shape.
  - apply same_shape_refl.
Qed.

Lemma parse_length (atof : list ascii -> float) (l : list ascii)
    (tbl : list module_status) :
  length (snd (parse atof l tbl)) = length tbl.
Proof.
  unfold parse. cbv zeta.
  repeat first
    [ progress cbn [snd]
    | rewrite store_length
    | reflexivity
    | match goal with
      | |- context [match next_value ?p with _ => _ end] =>
          destruct (next_value p)
      | |- context [if ?b then _ else _] => destruct b
      end ].
Qed.

Lemma transmit_ok (clock : nat -> Z) (mod_rx : Z) (rx : receiver)
    (m : master) :
  0 <= mod_rx ->
  Forall (fun p : Z * Z * float => 0 <= fst (fst p) < MODULES) (sent rx) ->
  let r := transmit clock mod_rx rx m in
  Forall (fun p : Z * Z * float => 0 <= fst (fst p) < MODULES) (sent (fst r))
  /\ same_shape m (snd r).
Proof.
  intros H0 Hs r. subst r. unfold transmit.
  destruct (Z.ltb_spec mod_rx MODULES) as [Hlt | Hge];
    [| split; [exact Hs | apply same_shape_refl]].
  destruct (mod_st m !! Z.to_nat mod_rx) as [s |];
    [| split; [exact Hs | apply same_shape_refl]].
  unfold millis. cbv beta iota zeta.
  destruct (wrap32 (clock (ticks m) - last_tx s) >? TX_INTERVAL);
    cbn [fst snd sent].
  - split.
    + apply Forall_app. split; [exact Hs |].
      constructor; [cbn [fst]; lia | constructor].
    + unfold same_shape. proj_simpl. rewrite length_alter. repeat split.
  - split; [exact Hs |]. unfold same_shape. repeat split.
Qed.

Lemma receive_byte_ok (atof : list ascii -> float) (clock : nat -> Z)
    (ch : ascii) (rx : receiver) (m : master) :
  receiver_ok rx -> length (line m) = LINE_LENGTH ->
  receiver_ok (fst (receive_byte atof clock ch rx m)) /\
  same_shape m (snd (receive_byte atof clock ch rx m)).
Proof.
  intros (Hpos & Hsent) Hlen. unfold receive_byte. cbv zeta.
  destruct ((pos rx =? LINE_LENGTH - 1)%nat || Ascii.eqb ch LF) eqn:Eend.
  - unfold parse_line.
    set (m1 := with_line _ (with_line _ m)).
    destruct (parse atof (line m1) (mod_st m1)) as [module tbl] eqn:Ep.
    assert (Htbl : length tbl = length (mod_st m)).
    { replace tbl with (snd (parse atof (line m1) (mod_st m1)))
        by (rewrite Ep; reflexivity).
      rewrite parse_length. reflexivity. }
    destruct (transmit_ok clock (wrap16 module) rx (with_mod_st tbl m1))
      as (Hs1 & Hs2).
    { unfold wrap16. apply Z.mod_pos_bound. reflexivity. }
    { exact Hsent. }
    cbv zeta in Hs1, Hs2.
    destruct (transmit clock (wrap16 module) rx (with_mod_st tbl m1))
      as [rx1 m2].
    cbn [fst snd] in *. split.
    + split; [cbn [pos]; unfold LINE_LENGTH; lia | exact Hs1].
    + apply (same_shape_trans m (with_mod_st tbl m1)); [| exact Hs2].
      unfold same_shape, m1. proj_simpl. cbn [line mod_st].
      rewrite !length_insert. repeat split. exact Htbl.
  - cbn [fst snd]. split.
    + split; [| exact Hsent]. cbn [pos].
      apply orb_false_iff in Eend as [E _].
      apply Nat.eqb_neq in E. unfold LINE_LENGTH in *. lia.
    + unfold same_shape. cbn. rewrite length_insert. repeat split.
Qed.

Lemma receive_ok (atof : list ascii -> float) (clock : nat -> Z)
    (bytes : list ascii) (rx : receiver) (m : master) :
  receiver_ok rx -> length (line m) = LINE_LENGTH ->
  receiver_ok (fst (receive atof clock bytes rx m)) /\
  same_shape m (snd (receive atof clock bytes rx m)).
Proof.
  intros Hrx Hlen. unfold receive.
  apply (fold_left_keeps
           (fun st : receiver * master =>
              receiver_ok (fst st) /\ same_shape m (snd st))).
  - intros [rx1 m1] ch [H1 H2]. cbn [fst snd] in *.
    destruct (receive_byte_ok atof clock ch rx1 m1 H1) as (K1 & K2).
    { destruct H2 as (_ & _ & E & _). rewrite E. exact Hlen. }
    split; [exact K1 |]. exact (same_shape_trans m m1 _ H2 K2).
  - cbn [fst snd]. split; [exact Hrx | apply same_shape_refl].
Qed.

Lemma loop_ok (atof : list ascii -> float) (clock : nat -> Z) (inp : pass)
    (st : panel * receiver * master) :
  master_ok st -> master_ok (loop atof clock inp st).
Proof.
  destruct st as [[u rx] m]. unfold master_ok. cbn [fst snd].
  intros (Hu & Hrx & Hg). unfold loop.
  destruct (buttons_ok (read_button (adc_key_in inp)) u m Hu Hg) as (Hu1 & Hg1).
  destruct (buttons (read_button (adc_key_in inp)) u m) as [u1 m1].
  cbn [fst snd] in *. cbv zeta.
  pose proof (poll_request_ok clock m1 Hg1) as Hg2.
  set (m2 := poll_request clock m1) in *.
  pose proof (thermal_check_shape clock (sensor inp) m2) as Hs3.
  set (m3 := thermal_check clock (sensor inp) m2) in *.
  pose proof (auto_reset_shape clock m3) as Hs4.
  set (m4 := auto_reset clock m3) in *.
  assert (Hg4 : globals_ok m4).
  { apply (globals_ok_shape m3); [| exact Hs4].
    apply (globals_ok_shape m2); assumption. }
  destruct (receive_ok atof clock (arrived inp) rx m4 Hrx) as (Hrx5 & Hs5).
  { apply Hg4. }
  destruct (receive atof clock (arrived inp) rx m4) as [rx5 m5].
  cbn [fst snd] in *.
  split; [exact Hu1 |]. split; [exact Hrx5 |].
  exact (globals_ok_shape m4 m5 Hg4 Hs5).
Qed.

Lemma setup_ok (reading : float) : master_ok (start reading).
Proof.
  unfold master_ok, start. cbn [fst snd]. split; [| split].
  - unfold panel_ok. cbn. repeat split; try discriminate.
  - unfold receiver_ok. cbn. split; [unfold LINE_LENGTH; lia | constructor].
  - unfold setup.
    apply (globals_ok_shape (with_hwc_temp reading boot)).
    + unfold globals_ok. cbn. repeat split; try discriminate.
    + apply (fold_left_keeps
               (fun m' => same_shape (with_hwc_temp reading boot) m')).
      * intros a i Ha. apply (same_shape_trans _ a); [exact Ha |].
        apply serial_print_shape.
      * apply same_shape_refl.
Qed.

(** X18.  From [setup] on, after any number of passes of [loop], whatever
    the buttons, the clock, the sensor and the serial line deliver: the
    module on display is one of the four, the mode is one of the six, the
    power limit on offer is a multiple of 25 between 50 and 425, the module
    polled last is one of the four (or none yet), the write position is
    inside the line buffer, the arrays keep their sizes, and every packet
    handed to the radio names one of the four modules. *)
Theorem master_invariant (atof : list ascii -> float) (clock : nat -> Z)
    (reading : float) (inps : list pass) :
  master_ok (run atof clock inps (start reading)).
Proof.
  unfold run. apply (fold_left_keeps master_ok).
  - intros st inp H. apply loop_ok. exact H.
  - apply setup_ok.
Qed.


(** ** Lines that arrive *)

Section Receive.

Variable atof : list ascii -> float.
Variable clock : nat -> Z.

Lemma receive_cons (ch : ascii) (l : list ascii) (rx : receiver)
    (m : master) :
  receive atof clock (ch :: l) rx m
  = receive atof clock l (fst (receive_byte atof clock ch rx m))
      (snd (receive_byte atof clock ch rx m)).
Proof.
  unfold receive. cbn [fold_left fst snd].
  destruct (receive_byte atof clock ch rx m); reflexivity.
Qed.

Lemma receive_app (l1 l2 : list ascii) (rx : receiver) (m : master) :
  receive atof clock (l1 ++ l2) rx m
  = receive atof clock l2 (fst (receive atof clock l1 rx m))
      (snd (receive atof clock l1 rx m)).
Proof.
  unfold receive. rewrite fold_left_app.
  destruct (fold_left _ l1 (rx, m)); reflexivity.
Qed.

(** Bytes that are no line end fill the buffer from [pos] on. *)
Lemma receive_plain (l : list ascii) :
  forall (rx : receiver) (m : master),
  Forall (fun ch => ch <> LF) l ->
  (pos rx + length l <= 79)%nat ->
  length (line m) = 80%nat ->
  receive atof clock l rx m =
    (Build_receiver (pos rx + length l) (sent rx),
     with_line (take (pos rx) (line m) ++ l
                  ++ drop (pos rx + length l) (line m)) m).
Proof.
  induction l as [| ch l IH]; intros rx m Hl Hk Hn.
  - cbn [length app]. rewrite Nat.add_0_r, take_drop.
    destruct rx, m; reflexivity.
  - apply Forall_cons in Hl as [Hc Hl]. cbn [length] in Hk.
    rewrite receive_cons. unfold receive_byte. cbv zeta.
    assert (E : (pos rx =? LINE_LENGTH - 1)%nat || Ascii.eqb ch LF = false).
    { apply orb_false_iff. split.
      - apply Nat.eqb_neq. unfold LINE_LENGTH. lia.
      - apply Ascii.eqb_neq. exact Hc. }
    rewrite E. cbn [fst snd].
    rewrite IH; cbn [pos sent];
      [| exact Hl | lia | cbn [line with_line]; rewrite length_insert; exact Hn].
    replace (line (with_line (<[pos rx := ch]> (line m)) m))
      with (<[pos rx := ch]> (line m)) by reflexivity.
    assert (Hlt : (pos rx < length (line m))%nat) by lia.
    rewrite (take_S_r _ _ ch) by (apply list_lookup_insert_eq; exact Hlt).
    rewrite take_insert_ge by lia.
    rewrite drop_insert_lt by lia.
    replace (S (pos rx) + length l)%nat
      with (pos rx + S (length l))%nat by lia.
    rewrite <- app_assoc. cbn [app].
    destruct m; reflexivity.
Qed.

(** A whole line that arrives in an empty buffer. *)
Lemma receive_line (l : list ascii) (rx : receiver) (m : master) :
  Forall (fun ch => ch <> LF) l ->
  (length l <= 79)%nat -> pos rx = 0%nat -> length (line m) = 80%nat ->
  receive atof clock (l ++ [LF]) rx m =
    let buf := l ++ NUL :: drop (S (length l)) (line m) in
    let r := parse atof buf (mod_st m) in
    let t := transmit clock (wrap16 (fst r))
               (Build_receiver (length l) (sent rx))
               (with_mod_st (snd r) (with_line buf m)) in
    (Build_receiver 0 (sent (fst t)), snd t).
Proof.
  intros Hl Hk H0 Hn.
  rewrite receive_app, (receive_plain l rx m)
    by first [assumption | rewrite H0; cbn; lia].
  rewrite H0, take_0. cbn [app Nat.add fst snd].
  unfold receive. cbn [fold_left fst snd].
  unfold receive_byte. cbv zeta. cbn [pos sent].
  replace (Ascii.eqb LF LF) with true by reflexivity.
  rewrite orb_true_r.
  assert (Hb : <[length l := NUL]>
                 (<[length l := LF]> (l ++ drop (length l) (line m)))
               = l ++ NUL :: drop (S (length l)) (line m)).
  { rewrite list_insert_insert_eq.
    rewrite insert_app_r_alt by lia. rewrite Nat.sub_diag.
    f_equal. destruct (drop (length l) (line m)) as [| x rest] eqn:E.
    - apply (f_equal length) in E. rewrite length_drop in E. cbn in E. lia.
    - cbn. f_equal.
      replace (S (length l)) with (length l + 1)%nat by lia.
      rewrite <- drop_drop, E. reflexivity. }
  unfold parse_line.
  replace (line (with_line _ (with_line _ (with_line _ m))))
    with (l ++ NUL :: drop (S (length l)) (line m))
    by (cbn [line with_line]; rewrite Hb; reflexivity).
  replace (mod_st (with_line _ (with_line _ (with_line _ m))))
    with (mod_st m) by reflexivity.
  destruct (parse atof (l ++ NUL :: drop (S (length l)) (line m)) (mod_st m))
    as [module tbl].
  cbn [fst snd].
  replace (with_mod_st tbl (with_line _ (with_line _ (with_line _ m))))
    with (with_mod_st tbl
            (with_line (l ++ NUL :: drop (S (length l)) (line m)) m))
    by (cbn [line with_line with_mod_st mod_display mod_st last_request
             timeout_temp hwc_temp mains_pos mains_neg poll_id serial_out
             ticks]; rewrite Hb; reflexivity).
  destruct (transmit clock (wrap16 module) _ _) as [rx1 m1].
  reflexivity.
Qed.

(** The radio changes a time stamp at most. *)
Lemma transmit_slots (mod_rx : Z) (rx : receiver) (m : master) :
  let t := transmit clock mod_rx rx m in
  line (snd t) = line m /\ length (mod_st (snd t)) = length (mod_st m) /\
  forall (i : nat) (s : module_status),
    mod_st m !! i = Some s ->
    exists s', mod_st (snd t) !! i = Some s' /\ same_telemetry s s'.
Proof.
  intros t. subst t. unfold transmit.
  assert (Hsame : forall s, same_telemetry s s)
    by (intros s; unfold same_telemetry; repeat split).
  assert (Hid : line m = line m /\ length (mod_st m) = length (mod_st m) /\
            forall (i : nat) (s : module_status),
              mod_st m !! i = Some s ->
              exists s', mod_st m !! i = Some s' /\ same_telemetry s s').
  { split; [reflexivity |]. split; [reflexivity |].
    intros i s Hs. exists s. split; [exact Hs | apply Hsame]. }
  destruct (mod_rx <? MODULES); [| exact Hid].
  destruct (mod_st m !! Z.to_nat mod_rx) as [s0 |] eqn:E0; [| exact Hid].
  unfold millis. cbv beta iota zeta.
  destruct (wrap32 (clock (ticks m) - last_tx s0) >? TX_INTERVAL);
    cbn [fst snd]; [| exact Hid].
  proj_simpl. split; [reflexivity |]. split; [apply length_alter |].
  intros i s Hs.
  destruct (decide (i = Z.to_nat mod_rx)) as [-> | Hne].
  - rewrite list_lookup_alter_eq, Hs. cbn.
    eexists. split; [reflexivity |]. unfold same_telemetry. repeat split.
  - rewrite list_lookup_alter_ne by congruence.
    exists s. split; [exact Hs | apply Hsame].
Qed.

End Receive.

(** ** The fields of a line *)

Lemma next_value_field (l rest : list ascii) :
  Forall in_field l -> next_value (l ++ ";"%char :: rest) = Some rest.
Proof.
  induction l as [| ch l IH]; intros Hl.
  - reflexivity.
  - apply Forall_cons in Hl as [[H1 H2] Hl]. cbn [app next_value].
    apply Ascii.eqb_neq in H1. apply Ascii.eqb_neq in H2.
    rewrite H1, H2. apply IH. exact Hl.
Qed.

Lemma strlen_three (x y z : ascii) (t : list ascii) :
  x <> NUL -> y <> NUL -> z <> NUL -> (strlen (x :: y :: z :: t) <? 3) = false.
Proof.
  intros Hx Hy Hz. unfold strlen. cbn [c_str].
  apply Ascii.eqb_neq in Hx. apply Ascii.eqb_neq in Hy.
  apply Ascii.eqb_neq in Hz. rewrite Hx, Hy, Hz. cbn [length].
  apply Z.ltb_ge. lia.
Qed.

Section Fields.

Variable atof : list ascii -> float.

(** An info line with its nine fields. *)
Lemma parse_info_fields (d : ascii) (idt f1 f2 f3 f4 f5 f6 f7 p8 : list ascii)
    (tbl : list module_status) :
  in_field d -> Forall in_field idt ->
  Forall in_field f1 -> Forall in_field f2 -> Forall in_field f3 ->
  Forall in_field f4 -> Forall in_field f5 -> Forall in_field f6 ->
  Forall in_field f7 ->
  let p7 := f7 ++ ";"%char :: p8 in
  let p6 := f6 ++ ";"%char :: p7 in
  let p5 := f5 ++ ";"%char :: p6 in
  let p4 := f4 ++ ";"%char :: p5 in
  let p3 := f3 ++ ";"%char :: p4 in
  let p2 := f2 ++ ";"%char :: p3 in
  let p1 := f1 ++ ";"%char :: p2 in
  let p := (d :: idt) ++ ";"%char :: p1 in
  let module := atoi p in
  0 <= module < MODULES ->
  parse atof ("i"%char :: ";"%char :: p) tbl =
    (module,
     store module (set_fan (atoi p8))
       (store module (set_temp (atof p7))
          (store module (set_c (atof p6))
             (store module (set_w (atof p5))
                (store module (set_a (atof p4))
                   (store module (set_v (atof p3))
                      (store module (set_pwm (atoi p2))
                         (store module (set_state (atoi p1)) tbl)))))))).
Proof.
  intros Hd Hid H1 H2 H3 H4 H5 H6 H7 p7 p6 p5 p4 p3 p2 p1 p module Hm.
  unfold parse. cbv zeta.
  replace (drop 2 ("i"%char :: ";"%char :: p)) with p by reflexivity.
  assert (Hs : (strlen ("i"%char :: ";"%char :: p) <? 3) = false)
    by (apply (strlen_three "i" ";" d (idt ++ ";"%char :: p1));
        [discriminate | discriminate | apply Hd]).
  rewrite Hs.
  replace (hd NUL ("i"%char :: ";"%char :: p)) with "i"%char by reflexivity.
  replace (Ascii.eqb "i" "e") with false by reflexivity.
  replace (Ascii.eqb "i" "i") with true by reflexivity.
  fold module.
  destruct (Z.ltb_spec module 0); [lia |].
  destruct (Z.geb_spec module MODULES); [lia |]. cbn [orb].
  unfold p at 1. rewrite next_value_field by (constructor; assumption).
  unfold p1 at 1. rewrite next_value_field by assumption.
  unfold p2 at 1. rewrite next_value_field by assumption.
  unfold p3 at 1. rewrite next_value_field by assumption.
  unfold p4 at 1. rewrite next_value_field by assumption.
  unfold p5 at 1. rewrite next_value_field by assumption.
  unfold p6 at 1. rewrite next_value_field by assumption.
  unfold p7 at 1. rewrite next_value_field by assumption.
  reflexivity.
Qed.

(** An error line with its two fields. *)
Lemma parse_error_fields (d : ascii) (idt p1 : list ascii)
    (tbl : list module_status) :
  in_field d -> Forall in_field idt ->
  let p := (d :: idt) ++ ";"%char :: p1 in
  let module := atoi p in
  0 <= module < MODULES ->
  parse atof ("e"%char :: ";"%char :: p) tbl =
    (module, store module (set_error (atoi p1)) tbl).
Proof.
  intros Hd Hid p module Hm.
  unfold parse. cbv zeta.
  replace (drop 2 ("e"%char :: ";"%char :: p)) with p by reflexivity.
  assert (Hs : (strlen ("e"%char :: ";"%char :: p) <? 3) = false)
    by (apply (strlen_three "e" ";" d (idt ++ ";"%char :: p1));
        [discriminate | discriminate | apply Hd]).
  rewrite Hs.
  replace (hd NUL ("e"%char :: ";"%char :: p)) with "e"%char by reflexivity.
  replace (Ascii.eqb "e" "e") with true by reflexivity.
  fold module.
  destruct (Z.ltb_spec module 0); [lia |].
  destruct (Z.geb_spec module MODULES); [lia |]. cbn [orb].
  unfold p at 1. rewrite next_value_field by (constructor; assumption).
  reflexivity.
Qed.

End Fields.

Section Lines.

Variable atof : list ascii -> float.
Variable clock : nat -> Z.

Lemma buffer_length (l old : list ascii) :
  (length l <= 79)%nat -> length old = 80%nat ->
  length (l ++ NUL :: drop (S (length l)) old) = 80%nat.
Proof.
  intros H1 H2. rewrite length_app. cbn [length]. rewrite length_drop. lia.
Qed.

Lemma store_lookup (module : Z) (g : module_status -> module_status)
    (tbl : list module_status) (s : module_status) :
  tbl !! Z.to_nat module = Some s ->
  store module g tbl !! Z.to_nat module = Some (g s).
Proof.
  intros H. unfold store. rewrite list_lookup_alter_eq, H. reflexivity.
Qed.

(** An info line that arrives in an empty buffer: the slot it names shows
    the state, the duty and the fan speed of the line. *)
Lemma receive_info_line (d : ascii) (idt f1 f2 f3 f4 f5 f6 f7 f8 : list ascii)
    (i : Z) (rx : receiver) (m : master) (s0 : module_status) :
  in_field d -> Forall in_field idt ->
  Forall in_field f1 -> Forall in_field f2 -> Forall in_field f3 ->
  Forall in_field f4 -> Forall in_field f5 -> Forall in_field f6 ->
  Forall in_field f7 ->
  (forall rest, atoi ((d :: idt) ++ ";"%char :: rest) = i) ->
  0 <= i < MODULES ->
  let L := "i"%char :: ";"%char :: (d :: idt) ++ ";"%char :: f1
             ++ ";"%char :: f2 ++ ";"%char :: f3 ++ ";"%char :: f4
             ++ ";"%char :: f5 ++ ";"%char :: f6 ++ ";"%char :: f7
             ++ ";"%char :: f8 in
  Forall (fun ch => ch <> LF) L -> (length L <= 79)%nat ->
  pos rx = 0%nat -> length (line m) = 80%nat ->
  mod_st m !! Z.to_nat i = Some s0 ->
  let t := receive atof clock (L ++ [LF]) rx m in
  pos (fst t) = 0%nat /\ length (line (snd t)) = 80%nat /\
  exists (s : module_status) (r1 r2 r8 : list ascii),
    mod_st (snd t) !! Z.to_nat i = Some s /\
    state s = atoi (f1 ++ ";"%char :: r1) /\
    pwm s = atoi (f2 ++ ";"%char :: r2) /\
    fan s = atoi (f8 ++ NUL :: r8) /\
    error s = error s0.
Proof.
  intros Hd Hid H1 H2 H3 H4 H5 H6 H7 Hi Hr L HL Hlen H0 Hn Hs0 t.
  subst t. rewrite receive_line by assumption. cbv zeta.
  set (rest := drop (S (length L)) (line m)).
  assert (Hbuf : L ++ NUL :: rest
                 = "i"%char :: ";"%char :: (d :: idt) ++ ";"%char :: f1
                     ++ ";"%char :: f2 ++ ";"%char :: f3 ++ ";"%char :: f4
                     ++ ";"%char :: f5 ++ ";"%char :: f6 ++ ";"%char :: f7
                     ++ ";"%char :: (f8 ++ NUL :: rest)).
  { subst L. cbn [app]. do 2 f_equal.
    repeat first [rewrite <- app_assoc | progress cbn [app]].
    reflexivity. }
  assert (Hl80 : length (L ++ NUL :: rest) = 80%nat)
    by (apply buffer_length; assumption).
  rewrite Hbuf in *.
  rewrite parse_info_fields by (try assumption; rewrite Hi; exact Hr).
  cbn [fst snd]. rewrite !Hi.
  match goal with
  | |- context [transmit clock ?x ?y ?z] =>
      destruct (transmit_slots clock x y z) as (T1 & T2 & T3);
      set (tt := transmit clock x y z) in *
  end.
  cbv zeta in T1, T3. cbn [pos fst].
  split; [reflexivity |].
  split; [rewrite T1; cbn [line with_line with_mod_st]; exact Hl80 |].
  match type of T3 with
  | forall i s, mod_st (with_mod_st ?tbl _) !! i = Some s -> _ =>
      assert (Hslot : exists s1, tbl !! Z.to_nat i = Some s1 /\
                state s1 = atoi (f1 ++ ";"%char :: f2 ++ ";"%char :: f3
                             ++ ";"%char :: f4 ++ ";"%char :: f5
                             ++ ";"%char :: f6 ++ ";"%char :: f7
                             ++ ";"%char :: f8 ++ NUL :: rest) /\
                pwm s1 = atoi (f2 ++ ";"%char :: f3
                             ++ ";"%char :: f4 ++ ";"%char :: f5
                             ++ ";"%char :: f6 ++ ";"%char :: f7
                             ++ ";"%char :: f8 ++ NUL :: rest) /\
                fan s1 = atoi (f8 ++ NUL :: rest) /\
                error s1 = error s0)
  end.
  { eexists. split.
    - do 8 (apply store_lookup). exact Hs0.
    - proj_simpl. repeat split. }
  destruct Hslot as (s1 & E1 & F1 & F2 & F3 & F4).
  destruct (T3 (Z.to_nat i) s1 E1) as (s & E & Hsame).
  unfold same_telemetry in Hsame.
  destruct Hsame as (_ & _ & _ & _ & G5 & _ & G7 & G8 & G9).
  exists s. eexists. eexists. exists rest.
  split; [exact E |].
  split; [rewrite G8; exact F1 |].
  split; [rewrite G5; exact F2 |].
  split; [rewrite G7; exact F3 | rewrite G9; exact F4].
Qed.

(** An error line that arrives in an empty buffer: the slot it names shows
    the error code of the line and keeps the rest of its telemetry. *)
Lemma receive_error_line (d : ascii) (idt f1 f2 : list ascii)
    (i : Z) (rx : receiver) (m : master) (s0 : module_status) :
  in_field d -> Forall in_field idt ->
  (forall rest, atoi ((d :: idt) ++ ";"%char :: rest) = i) ->
  0 <= i < MODULES ->
  let L := "e"%char :: ";"%char :: (d :: idt) ++ ";"%char :: f1
             ++ ";"%char :: f2 in
  Forall (fun ch => ch <> LF) L -> (length L <= 79)%nat ->
  pos rx = 0%nat -> length (line m) = 80%nat ->
  mod_st m !! Z.to_nat i = Some s0 ->
  let t := receive atof clock (L ++ [LF]) rx m in
  pos (fst t) = 0%nat /\ length (line (snd t)) = 80%nat /\
  exists (s : module_status) (r1 : list ascii),
    mod_st (snd t) !! Z.to_nat i = Some s /\
    error s = atoi (f1 ++ ";"%char :: r1) /\
    state s = state s0 /\ pwm s = pwm s0 /\ fan s = fan s0.
Proof.
  intros Hd Hid Hi Hr L HL Hlen H0 Hn Hs0 t.
  subst t. rewrite receive_line by assumption. cbv zeta.
  set (rest := drop (S (length L)) (line m)).
  assert (Hbuf : L ++ NUL :: rest
                 = "e"%char :: ";"%char :: (d :: idt) ++ ";"%char
                     :: (f1 ++ ";"%char :: f2 ++ NUL :: rest)).
  { subst L. cbn [app]. do 2 f_equal.
    repeat first [rewrite <- app_assoc | progress cbn [app]].
    reflexivity. }
  assert (Hl80 : length (L ++ NUL :: rest) = 80%nat)
    by (apply buffer_length; assumption).
  rewrite Hbuf in *.
  rewrite parse_error_fields by (try assumption; rewrite Hi; exact Hr).
  cbn [fst snd]. rewrite !Hi.
  match goal with
  | |- context [transmit clock ?x ?y ?z] =>
      destruct (transmit_slots clock x y z) as (T1 & T2 & T3);
      set (tt := transmit clock x y z) in *
  end.
  cbv zeta in T1, T3. cbn [pos fst].
  split; [reflexivity |].
  split; [rewrite T1; cbn [line with_line with_mod_st]; exact Hl80 |].
  destruct (T3 (Z.to_nat i)
              (set_error (atoi (f1 ++ ";"%char :: f2 ++ NUL :: rest)) s0))
    as (s & E & Hsame).
  { cbn [mod_st with_mod_st]. apply store_lookup. exact Hs0. }
  unfold same_telemetry in Hsame.
  destruct Hsame as (_ & _ & _ & _ & G5 & _ & G7 & G8 & G9).
  exists s. eexists.
  split; [exact E |].
  split; [rewrite G9; reflexivity |].
  split; [rewrite G8; reflexivity |].
  split; [rewrite G5; reflexivity | rewrite G7; reflexivity].
Qed.

End Lines.

End MasterProofs.

(** * Properties of the serial line *)

Module WireProofs.

Import Wire.

#[local] Arguments atoi : simpl never.
#[local] Arguments print_int : simpl never.
#[local] Arguments wrap16 : simpl never.
#[local] Arguments Z.eqb : simpl never.
#[local] Arguments Z.ltb : simpl never.
#[local] Arguments Z.leb : simpl never.

(** ** Numbers on the line *)

Lemma all_from_spec (f : Z -> bool) (k : nat) :
  forall z : Z,
  all_from f z k = true ->
  forall n : Z, z <= n < z + Z.of_nat k -> f n = true.
Proof.
  induction k as [| k IH]; intros z H n Hn; [lia |].
  cbn [all_from] in H. apply andb_true_iff in H as [H1 H2].
  destruct (Z.eq_dec n z) as [-> | Hne]; [exact H1 |].
  apply (IH (z + 1) H2). lia.
Qed.

Lemma numbers_ok : all_from number_ok 0 (Z.to_nat 32768) = true.
Proof. vm_compute. reflexivity. Qed.

Lemma number_text (n : Z) :
  0 <= n < 32768 ->
  exists (d : ascii) (l : list ascii),
    print_int n = d :: l /\ forallb isdigit (d :: l) = true /\
    (length (d :: l) <= 5)%nat /\ atoi_digits 0 (d :: l) = n.
Proof.
  intros H.
  pose proof (all_from_spec number_ok (Z.to_nat 32768) 0 numbers_ok n) as Hn.
  rewrite Z2Nat.id in Hn by lia. specialize (Hn H).
  unfold number_ok in Hn.
  destruct (print_int n) as [| d l]; [discriminate |].
  apply andb_true_iff in Hn as [Hn H3].
  apply andb_true_iff in Hn as [H1 H2].
  exists d, l. split; [reflexivity |]. split; [exact H1 |].
  split; [apply Nat.leb_le; exact H2 | apply Z.eqb_eq; exact H3].
Qed.

Lemma atoi_digits_stop (c : ascii) (rest l : list ascii) :
  forall acc : Z,
  forallb isdigit l = true -> isdigit c = false ->
  atoi_digits acc (l ++ c :: rest) = atoi_digits acc l.
Proof.
  induction l as [| d l IH]; intros acc Hl Hc.
  - cbn [app atoi_digits]. rewrite Hc. reflexivity.
  - cbn [forallb] in Hl. apply andb_true_iff in Hl as [Hd Hl].
    cbn [app atoi_digits]. rewrite Hd. apply IH; assumption.
Qed.

(** A digit is no white space, no sign, no separator and no line end. *)
Lemma digit_byte (d : ascii) :
  isdigit d = true ->
  isspace d = false /\ Ascii.eqb d "-" = false /\ Ascii.eqb d "+" = false /\
  d <> ";"%char /\ d <> NUL /\ d <> LF /\ d <> ":"%char.
Proof.
  intros H.
  assert (Hc : 48 <= code d <= 57).
  { unfold isdigit in H. apply andb_true_iff in H as [H1 H2].
    apply Z.leb_le in H1. apply Z.leb_le in H2. lia. }
  assert (Hne : forall x : ascii, code x < 48 \/ 57 < code x -> d <> x).
  { intros x Hx ->. lia. }
  split.
  { unfold isspace.
    destruct (Z.eqb_spec (code d) 32); [lia |].
    destruct (Z.leb_spec 9 (code d)); destruct (Z.leb_spec (code d) 13);
      try reflexivity; lia. }
  split; [apply Ascii.eqb_neq, Hne; vm_compute; left; reflexivity |].
  split; [apply Ascii.eqb_neq, Hne; vm_compute; left; reflexivity |].
  split; [apply Hne; vm_compute; right; reflexivity |].
  split; [apply Hne; vm_compute; left; reflexivity |].
  split; [apply Hne; vm_compute; left; reflexivity |].
  apply Hne; vm_compute; right; reflexivity.
Qed.

(** [atoi] reads back what [print] wrote, whatever follows the digits. *)
Lemma atoi_number (n : Z) (c : ascii) (rest : list ascii) :
  0 <= n < 32768 -> isdigit c = false ->
  atoi (print_int n ++ c :: rest) = n.
Proof.
  intros Hn Hc.
  destruct (number_text n Hn) as (d & l & E & Hd & _ & Ha).
  rewrite E. cbn [app]. unfold atoi. cbn [skip_space].
  assert (Hd' := Hd). cbn [forallb] in Hd'.
  apply andb_true_iff in Hd' as [Hd1 _].
  destruct (digit_byte d Hd1) as (H1 & H2 & H3 & _).
  rewrite H1, H2, H3.
  change (d :: l ++ c :: rest) with ((d :: l) ++ c :: rest).
  rewrite atoi_digits_stop by assumption. exact Ha.
Qed.

Lemma number_bytes (n : Z) :
  0 <= n < 32768 ->
  Forall (fun d => isdigit d = true) (print_int n) /\
  (1 <= length (print_int n) <= 5)%nat.
Proof.
  intros Hn.
  destruct (number_text n Hn) as (d & l & E & Hd & Hl & _).
  rewrite E. split.
  - apply Forall_forall. intros x Hx.
    rewrite forallb_forall in Hd. apply Hd, list_elem_of_In, Hx.
  - cbn [length] in *. lia.
Qed.


(** ** A line of the master at a module *)

Section Commands.

Variable print_float : float -> list ascii.
Variable clock : nat -> Z.
Variable fan_speed : nat -> Z.

#[local] Abbreviation serial_input :=
  (Inverter.serial_input print_float clock fan_speed).
#[local] Abbreviation exec_command :=
  (Inverter.exec_command print_float clock fan_speed).


Lemma digits_plain (n : Z) :
  0 <= n < 32768 -> Forall Inverter.plain (print_int n).
Proof.
  intros Hn. destruct (number_bytes n Hn) as [Hd _].
  eapply Forall_impl; [exact Hd |].
  intros d H. destruct (digit_byte d H) as (H1 & _ & _ & H2 & _).
  split; assumption.
Qed.

(** The line [c0 j tail ;] with its CR LF arrives in an empty buffer: the
    command runs if [j] is the id of the module, on the line with NUL in
    place of the semicolon; the buffer is empty again afterwards. *)
Lemma master_line_received (r : Inverter.readings) (c0 : ascii) (j : Z)
    (tail : list ascii) (m : Inverter.inverter) :
  Inverter.plain c0 -> 0 <= j < 32768 ->
  Forall Inverter.plain tail ->
  (forall t ts, tail = t :: ts -> isdigit t = false) ->
  (length (print_int j ++ tail) <= 8)%nat ->
  Inverter.cli_pos m = 0%nat -> length (Inverter.cli m) = 10%nat ->
  let l := c0 :: print_int j ++ tail in
  let buf := l ++ NUL :: drop (S (length l)) (Inverter.cli m) in
  let m1 := Inverter.set_cli_pos (length l) (Inverter.set_cli buf m) in
  let m2 := if j =? Inverter.id m then exec_command r m1 else m1 in
  let m' := serial_input r (l ++ println (str ";")) m in
  Inverter.same_but_cli m2 m' /\ Inverter.cli_pos m' = 0%nat /\
  length (Inverter.cli m') = length (Inverter.cli m2).
Proof.
  intros Hc0 Hj Htail Hhd Hlen H0 Hn l buf m1 m2 m'.
  assert (Hl : Forall Inverter.plain l).
  { subst l. constructor; [exact Hc0 |].
    apply Forall_app. split; [apply digits_plain; exact Hj | exact Htail]. }
  assert (Hll : (2 <= length l <= 9)%nat).
  { subst l. destruct (number_bytes j Hj) as [_ Hb].
    cbn [length]. rewrite length_app in *. lia. }
  assert (Hatoi : atoi (drop 1 buf) = j).
  { subst buf l. cbn [app drop]. rewrite <- app_assoc.
    destruct tail as [| t ts].
    - cbn [app]. apply atoi_number; [exact Hj | reflexivity].
    - cbn [app]. apply atoi_number; [exact Hj |]. apply (Hhd t ts eq_refl). }
  subst m'. unfold println.
  replace (l ++ str ";" ++ [CR; LF]) with ((l ++ [";"%char]) ++ [CR; LF])
    by (rewrite <- app_assoc; reflexivity).
  rewrite InverterProofs.serial_input_app.
  rewrite InverterProofs.serial_input_line by (try assumption; lia).
  cbv zeta. fold buf. fold m1.
  assert (E1 : (1 <? length l)%nat = true) by (apply Nat.ltb_lt; lia).
  rewrite E1, Hatoi, andb_true_l. fold m2.
  rewrite !InverterProofs.serial_input_cons.
  rewrite InverterProofs.serial_byte_space by reflexivity.
  rewrite InverterProofs.serial_byte_space by reflexivity.
  unfold Inverter.serial_input. cbn [fold_left].
  proj_simpl.
  split; [unfold Inverter.same_but_cli; proj_simpl; repeat split |].
  split; [reflexivity |].
  rewrite !length_insert. reflexivity.
Qed.

Lemma same_but_cli_eq (a b : Inverter.inverter) :
  Inverter.same_but_cli a b ->
  b = Inverter.set_cli_pos (Inverter.cli_pos b)
        (Inverter.set_cli (Inverter.cli b) a).
Proof.
  destruct a, b. unfold Inverter.same_but_cli.
  cbn. intros H. decompose [and] H. subst. reflexivity.
Qed.

Lemma same_but_cli_trans (a b c : Inverter.inverter) :
  Inverter.same_but_cli a b -> Inverter.same_but_cli b c ->
  Inverter.same_but_cli a c.
Proof.
  unfold Inverter.same_but_cli. intros Ha Hb.
  decompose [and] Ha. decompose [and] Hb.
  repeat split; congruence.
Qed.

Lemma cmd_reset_cli (k : nat) (l : list ascii) (m : Inverter.inverter) :
  Inverter.cmd_reset clock (Inverter.set_cli_pos k (Inverter.set_cli l m))
  = Inverter.set_cli_pos k (Inverter.set_cli l (Inverter.cmd_reset clock m)).
Proof.
  unfold Inverter.cmd_reset, Inverter.millis. cbv zeta.
  replace (Inverter.EEPROM_read Inverter.EEPROM_ADDRESS_HALTED
             (Inverter.dump_energy
                (Inverter.set_cli_pos k (Inverter.set_cli l m))))
    with (Inverter.EEPROM_read Inverter.EEPROM_ADDRESS_HALTED
            (Inverter.dump_energy m)) by reflexivity.
  destruct (Inverter.EEPROM_read Inverter.EEPROM_ADDRESS_HALTED
              (Inverter.dump_energy m) =? 0);
    destruct m; reflexivity.
Qed.

Lemma cmd_reset_same (a b : Inverter.inverter) :
  Inverter.same_but_cli a b ->
  Inverter.same_but_cli (Inverter.cmd_reset clock a)
    (Inverter.cmd_reset clock b).
Proof.
  intros H. rewrite (same_but_cli_eq a b H), cmd_reset_cli.
  apply InverterProofs.same_but_cli_set_cli.
Qed.

Lemma cmd_reset_buffer (m : Inverter.inverter) :
  Inverter.cli (Inverter.cmd_reset clock m) = Inverter.cli m /\
  Inverter.id (Inverter.cmd_reset clock m) = Inverter.id m.
Proof.
  unfold Inverter.cmd_reset, Inverter.millis. cbv zeta.
  destruct (Inverter.EEPROM_read Inverter.EEPROM_ADDRESS_HALTED
              (Inverter.dump_energy m) =? 0);
    split; reflexivity.
Qed.

Lemma letter_plain (c0 : ascii) :
  c0 = "r"%char \/ c0 = "h"%char \/ c0 = "s"%char \/ c0 = "i"%char
  \/ c0 = "p"%char \/ c0 = ":"%char ->
  Inverter.plain c0.
Proof.
  intros H. decompose [or] H; subst; split; first [reflexivity | discriminate].
Qed.

(** A reset line of the master at a module. *)
Lemma reset_line_received (r : Inverter.readings) (j : Z)
    (m : Inverter.inverter) :
  0 <= j < 32768 -> listening m ->
  let m' := serial_input r (Master.command "r" j) m in
  listening m' /\
  Inverter.same_but_cli
    (if j =? Inverter.id m then Inverter.cmd_reset clock m else m) m'.
Proof.
  intros Hj (Hid & H0 & Hn) m'.
  destruct (number_bytes j Hj) as [_ Hb].
  destruct (master_line_received r "r" j [] m) as (H1 & H2 & H3);
    try assumption.
  { apply letter_plain. tauto. }
  { constructor. }
  { intros t ts E. discriminate. }
  { rewrite app_nil_r. lia. }
  cbv zeta in H1, H2, H3. rewrite app_nil_r in H1, H2, H3.
  change (serial_input r (("r"%char :: print_int j) ++ println (str ";")) m)
    with m' in H1, H2, H3.
  set (l := "r"%char :: print_int j) in *.
  set (buf := l ++ NUL :: drop (S (length l)) (Inverter.cli m)) in *.
  assert (Hbuf : length buf = 10%nat).
  { subst buf l. rewrite length_app. cbn [length]. rewrite length_drop.
    cbn [length]. lia. }
  destruct (Z.eqb_spec j (Inverter.id m)) as [E | E].
  - assert (Hx : exec_command r
                   (Inverter.set_cli_pos (length l) (Inverter.set_cli buf m))
                 = Inverter.set_cli_pos (length l)
                     (Inverter.set_cli buf (Inverter.cmd_reset clock m))).
    { unfold Inverter.exec_command.
      replace (hd NUL (Inverter.cli (Inverter.set_cli_pos (length l)
                 (Inverter.set_cli buf m)))) with "r"%char by reflexivity.
      replace (Ascii.eqb "r" "i") with false by reflexivity.
      replace (Ascii.eqb "r" "h") with false by reflexivity.
      replace (Ascii.eqb "r" "s") with false by reflexivity.
      replace (Ascii.eqb "r" "r") with true by reflexivity.
      apply cmd_reset_cli. }
    rewrite Hx in H1, H3. split.
    + split; [| split; [exact H2 |]].
      * destruct H1 as (Hi & _). rewrite Hi. proj_simpl.
        rewrite (proj2 (cmd_reset_buffer m)). exact Hid.
      * rewrite H3. proj_simpl. exact Hbuf.
    + apply (same_but_cli_trans _ _ _
               (InverterProofs.same_but_cli_set_cli
                  (Inverter.cmd_reset clock m) buf (length l)) H1).
  - split.
    + split; [| split; [exact H2 |]].
      * destruct H1 as (Hi & _). rewrite Hi. proj_simpl. exact Hid.
      * rewrite H3. proj_simpl. exact Hbuf.
    + apply (same_but_cli_trans _ _ _
               (InverterProofs.same_but_cli_set_cli m buf (length l)) H1).
Qed.

Lemma same_but_cli_id (a b : Inverter.inverter) :
  Inverter.same_but_cli a b -> Inverter.id b = Inverter.id a.
Proof. intros H. apply H. Qed.

Lemma reset_chain (r : Inverter.readings) (j : Z) (m mk : Inverter.inverter) :
  0 <= j < 32768 -> listening mk ->
  Inverter.same_but_cli
    (if Inverter.id m <? j then Inverter.cmd_reset clock m else m) mk ->
  let mk' := serial_input r (Master.command "r" j) mk in
  listening mk' /\
  Inverter.same_but_cli
    (if Inverter.id m <? j + 1 then Inverter.cmd_reset clock m else m) mk'.
Proof.
  intros Hj Hl Hs mk'.
  destruct (reset_line_received r j mk Hj Hl) as (Hl' & Hs').
  fold mk' in Hl', Hs'. split; [exact Hl' |].
  assert (Hid : Inverter.id mk = Inverter.id m).
  { rewrite (same_but_cli_id _ _ Hs).
    destruct (Inverter.id m <? j); [apply cmd_reset_buffer | reflexivity]. }
  rewrite Hid in Hs'.
  destruct (Z.ltb_spec (Inverter.id m) j) as [L | L].
  - destruct (Z.eqb_spec j (Inverter.id m)) as [E | E]; [lia |].
    destruct (Z.ltb_spec (Inverter.id m) (j + 1)); [| lia].
    exact (same_but_cli_trans _ _ _ Hs Hs').
  - destruct (Z.eqb_spec j (Inverter.id m)) as [E | E].
    + destruct (Z.ltb_spec (Inverter.id m) (j + 1)); [| lia].
      exact (same_but_cli_trans _ _ _ (cmd_reset_same m mk Hs) Hs').
    + destruct (Z.ltb_spec (Inverter.id m) (j + 1)); [lia |].
      exact (same_but_cli_trans _ _ _ Hs Hs').
Qed.

(** X19.  What the master writes in [setup], arriving at a module that
    listens with an empty buffer: a module with one of the ids 0 to 3 ends
    up as after one reset command, and a module with another id is left as
    it was, apart from the line buffer in both cases; the module listens
    with an empty buffer again. *)
Theorem setup_resets_every_module (r : Inverter.readings) (reading : float)
    (m : Inverter.inverter) :
  listening m ->
  let out := written (Master.serial_out Master.boot)
               (Master.serial_out (Master.setup reading)) in
  let m' := serial_input r out m in
  listening m' /\
  Inverter.same_but_cli
    (if Inverter.id m <? Master.MODULES then Inverter.cmd_reset clock m
     else m) m'.
Proof.
  intros Hl out m'.
  assert (Hout : out = Master.command "r" 0 ++ Master.command "r" 1
                       ++ Master.command "r" 2 ++ Master.command "r" 3)
    by reflexivity.
  subst m'. rewrite Hout.
  rewrite !InverterProofs.serial_input_app.
  assert (H0 : Inverter.same_but_cli
                 (if Inverter.id m <? 0 then Inverter.cmd_reset clock m
                  else m) m).
  { destruct Hl as (Hid & _).
    destruct (Z.ltb_spec (Inverter.id m) 0); [lia |].
    unfold Inverter.same_but_cli. repeat split. }
  destruct (reset_chain r 0 m m) as (L1 & S1); [lia | exact Hl | exact H0 |].
  cbv zeta in L1, S1.
  set (m1 := serial_input r (Master.command "r" 0) m) in *.
  destruct (reset_chain r 1 m m1) as (L2 & S2); [lia | exact L1 | exact S1 |].
  cbv zeta in L2, S2.
  set (m2 := serial_input r (Master.command "r" 1) m1) in *.
  destruct (reset_chain r 2 m m2) as (L3 & S3); [lia | exact L2 | exact S2 |].
  cbv zeta in L3, S3.
  set (m3 := serial_input r (Master.command "r" 2) m2) in *.
  destruct (reset_chain r 3 m m3) as (L4 & S4); [lia | exact L3 | exact S3 |].
  cbv zeta in L4, S4.
  split; [exact L4 | exact S4].
Qed.

(** ** The power limit *)

Lemma single_digit (d : Z) :
  0 <= d <= 9 -> exists ch : ascii, print_int d = [ch].
Proof.
  intros H.
  assert (Hd : d = 0 \/ d = 1 \/ d = 2 \/ d = 3 \/ d = 4 \/ d = 5 \/ d = 6
               \/ d = 7 \/ d = 8 \/ d = 9) by lia.
  decompose [or] Hd; subst d; eexists; reflexivity.
Qed.

Lemma cmd_power_accepts (m : Inverter.inverter) (mp : Z) :
  atoi (drop 3 (Inverter.cli m)) = mp ->
  Inverter.MIN_MAX_POWER <= mp <= Inverter.MAX_POWER ->
  let m' := Inverter.cmd_power m in
  Inverter.max_power m' = mp /\ Inverter.state m' = Inverter.state m /\
  Inverter.pwm m' = Inverter.pwm m /\
  Inverter.serial_out m' = Inverter.serial_out m /\
  Inverter.cli m' = Inverter.cli m /\ Inverter.id m' = Inverter.id m.
Proof.
  intros Ha Hr m'. subst m'. unfold Inverter.cmd_power. cbv zeta.
  rewrite Ha.
  unfold Inverter.MIN_MAX_POWER, Inverter.MAX_POWER in *.
  replace (wrap16 mp) with mp by (unfold wrap16; rewrite Z.mod_small; lia).
  destruct (Z.leb_spec 50 mp); [| lia].
  destruct (Z.leb_spec mp 425); [| lia].
  cbn [andb].
  destruct (Z.eqb_spec mp (Inverter.max_power m)) as [E | E].
  - repeat split. symmetry. exact E.
  - unfold Inverter.EEPROM_write. proj_simpl. repeat split.
Qed.

(** X20.  Select pressed in the set-power mode, with the panel as the loop
    keeps it and the module on display listening with an empty buffer:
    the line the master writes makes that module take over the limit on
    offer, whatever it is (the panel offers nothing outside 50 to 425).
    State, duty and what the module has written stay as they are, and
    the module listens with an empty buffer again. *)
Theorem offered_limit_is_accepted (r : Inverter.readings)
    (u : Master.panel) (g : Master.master) (m : Inverter.inverter) :
  Master.panel_ok u -> 0 <= Master.mod_display g < Master.MODULES ->
  listening m -> Inverter.id m = Master.mod_display g ->
  let g' := snd (Master.process_select Master.MODE_SET_POWER
                   (Master.max_power u) g) in
  let out := written (Master.serial_out g) (Master.serial_out g') in
  let m' := serial_input r out m in
  Inverter.max_power m' = Master.max_power u /\ listening m' /\
  Inverter.state m' = Inverter.state m /\
  Inverter.pwm m' = Inverter.pwm m /\
  Inverter.serial_out m' = Inverter.serial_out m.
Proof.
  intros (_ & Hp & _) Hd (Hid & H0 & Hn) Hi g' out m'.
  unfold Master.MODULES in Hd.
  set (d := Master.mod_display g) in *.
  set (mp := Master.max_power u) in *.
  destruct (single_digit d) as [ch Ech]; [lia |].
  assert (Hmp : 0 <= mp < 32768) by lia.
  destruct (number_bytes mp Hmp) as [_ Hb].
  assert (Hout : out = ("p"%char :: print_int d ++ ":"%char :: print_int mp)
                         ++ println (str ";")).
  { subst out g'. unfold written, Master.process_select.
    replace (Master.MODE_SET_POWER =? Master.MODE_RESET) with false
      by reflexivity.
    replace (Master.MODE_SET_POWER =? Master.MODE_HALT) with false
      by reflexivity.
    replace (Master.MODE_SET_POWER =? Master.MODE_SET_POWER) with true
      by reflexivity.
    cbn [snd]. unfold Master.Serial_print.
    replace (Master.serial_out (Master.with_serial_out _ g))
      with (Master.serial_out g
              ++ str "p" ++ print_int d ++ str ":" ++ print_int mp
              ++ println (str ";")) by reflexivity.
    rewrite drop_app_length. cbn [str list_ascii_of_string app].
    rewrite <- app_assoc. reflexivity. }
  destruct (master_line_received r "p" d (":"%char :: print_int mp) m)
    as (H1 & H2 & H3); try assumption.
  { apply letter_plain. tauto. }
  { lia. }
  { constructor; [apply letter_plain; tauto | apply digits_plain; exact Hmp]. }
  { intros t ts E. injection E as <- _. reflexivity. }
  { rewrite Ech. cbn [app length]. lia. }
  cbv zeta in H1, H2, H3. rewrite <- Hout in H1, H2, H3.
  fold m' in H1, H2, H3.
  set (l := "p"%char :: print_int d ++ ":"%char :: print_int mp) in *.
  set (buf := l ++ NUL :: drop (S (length l)) (Inverter.cli m)) in *.
  set (m1 := Inverter.set_cli_pos (length l) (Inverter.set_cli buf m)) in *.
  assert (Hbuf : length buf = 10%nat).
  { subst buf l. rewrite length_app. cbn [length]. rewrite length_drop.
    rewrite Ech in *. cbn [app length] in *. lia. }
  rewrite Hi, Z.eqb_refl in H1, H3.
  assert (Hx : exec_command r m1
               = Inverter.cmd_power m1).
  { unfold Inverter.exec_command.
    replace (hd NUL (Inverter.cli m1)) with "p"%char by reflexivity.
    reflexivity. }
  rewrite Hx in H1, H3.
  destruct (cmd_power_accepts m1 mp) as (P1 & P2 & P3 & P4 & P5 & P6).
  { replace (Inverter.cli m1) with buf by reflexivity.
    subst buf l. rewrite Ech. cbn [app drop].
    apply atoi_number; [exact Hmp | reflexivity]. }
  { unfold Inverter.MIN_MAX_POWER, Inverter.MAX_POWER. lia. }
  cbv zeta in P1, P2, P3, P4, P5, P6.
  destruct H1 as (I1 & I2 & I3 & _ & _ & _ & _ & I8 & _ & _ & _ & _ & _ & _
                   & _ & _ & _ & _ & I19 & _).
  assert (J1 : Inverter.id m1 = Inverter.id m) by reflexivity.
  assert (J2 : Inverter.state m1 = Inverter.state m) by reflexivity.
  assert (J3 : Inverter.pwm m1 = Inverter.pwm m) by reflexivity.
  assert (J4 : Inverter.serial_out m1 = Inverter.serial_out m)
    by reflexivity.
  split; [rewrite I8; exact P1 |].
  split; [split; [rewrite I1, P6, J1; exact Hid
                 | split; [exact H2 | rewrite H3, P5; exact Hbuf]] |].
  split; [rewrite I3, P2; exact J2 |].
  split; [rewrite I2, P3; exact J3 | rewrite I19, P4; exact J4].
Qed.

End Commands.

Lemma setup_resets_every_module_witness :
  let m := Inverter.set_state Inverter.S4 (Inverter.setup 2 (fun _ => 0)) in
  let m' := Inverter.serial_input Inverter.sample_print Inverter.sample_clock
              Inverter.sample_fan Inverter.sample_readings
              (written (Master.serial_out Master.boot)
                 (Master.serial_out (Master.setup (f32 20)))) m in
  Inverter.state m = Inverter.S4 /\ Inverter.state m' = Inverter.S0.
Proof.
  intros m m'. split; [reflexivity |].
  destruct (setup_resets_every_module Inverter.sample_print
              Inverter.sample_clock Inverter.sample_fan
              Inverter.sample_readings (f32 20) m) as (_ & H).
  - vm_compute. repeat split; discriminate.
  - cbv zeta in H. fold m' in H.
    destruct H as (_ & _ & H & _). rewrite H. vm_compute. reflexivity.
Defined.

Lemma offered_limit_is_accepted_witness :
  let u := Master.Build_panel Master.MODE_SET_POWER 375 in
  let m := Inverter.setup 0 (fun _ => 0) in
  let g' := snd (Master.process_select Master.MODE_SET_POWER
                   (Master.max_power u) Master.boot) in
  let m' := Inverter.serial_input Inverter.sample_print Inverter.sample_clock
              Inverter.sample_fan Inverter.sample_readings
              (written (Master.serial_out Master.boot) (Master.serial_out g'))
              m in
  Inverter.max_power m' = 375.
Proof.
  intros u m g' m'.
  destruct (offered_limit_is_accepted Inverter.sample_print
              Inverter.sample_clock Inverter.sample_fan
              Inverter.sample_readings u Master.boot m) as (H & _).
  - vm_compute. repeat split; discriminate.
  - vm_compute. split; [discriminate | reflexivity].
  - vm_compute. repeat split; discriminate.
  - reflexivity.
  - exact H.
Defined.


(** ** The answer to a poll *)

Section Telemetry.

Variable print_float : float -> list ascii.
Variable clock : nat -> Z.
Variable fan_speed : nat -> Z.
Variable atof : list ascii -> float.
Variable master_clock : nat -> Z.

Lemma digits_in_field (n : Z) :
  0 <= n < 32768 ->
  Forall Master.in_field (print_int n) /\
  Forall (fun ch => ch <> LF) (print_int n).
Proof.
  intros Hn. destruct (number_bytes n Hn) as [Hd _]. split.
  - eapply Forall_impl; [exact Hd |].
    intros d H. destruct (digit_byte d H) as (_ & _ & _ & H1 & H2 & _).
    split; assumption.
  - eapply Forall_impl; [exact Hd |].
    intros d H. destruct (digit_byte d H) as (_ & _ & _ & _ & _ & H3 & _).
    exact H3.
Qed.

Lemma float_in_field (l : list ascii) :
  float_text l ->
  Forall Master.in_field l /\ Forall (fun ch => ch <> LF) l /\
  (length l <= 10)%nat.
Proof.
  intros [Hf Hl]. split; [| split; [| exact Hl]].
  - eapply Forall_impl; [exact Hf |]. intros ch (H1 & H2 & _).
    split; assumption.
  - eapply Forall_impl; [exact Hf |]. intros ch (_ & _ & H3). exact H3.
Qed.

(** What a module writes when the poll of the master reaches it. *)
Lemma poll_reply (r : Inverter.readings) (m : Inverter.inverter) :
  listening m ->
  let m' := Inverter.serial_input print_float clock fan_speed r
              (Master.command "i" (Inverter.id m)) m in
  let fan := wrap16 (fan_speed (Inverter.ticks m)) in
  written (Inverter.serial_out m) (Inverter.serial_out m')
  = Inverter.info_line print_float r fan m ++ Inverter.error_line m.
Proof.
  intros (Hid & H0 & Hn) m' fan.
  destruct (master_line_received print_float clock fan_speed r "i"
              (Inverter.id m) [] m) as (H1 & _ & _); try assumption.
  { apply letter_plain. tauto. }
  { lia. }
  { constructor. }
  { intros t ts E. discriminate. }
  { rewrite app_nil_r.
    destruct (number_bytes (Inverter.id m)) as [_ Hb]; lia. }
  cbv zeta in H1. rewrite app_nil_r in H1.
  change (Inverter.serial_input print_float clock fan_speed r
            (("i"%char :: print_int (Inverter.id m)) ++ println (str ";")) m)
    with m' in H1.
  rewrite Z.eqb_refl in H1.
  destruct H1 as (_ & _ & _ & _ & _ & _ & _ & _ & _ & _ & _ & _ & _ & _ & _
                  & _ & _ & _ & Hout & _).
  rewrite Hout. unfold written.
  unfold Inverter.exec_command.
  match goal with
  | |- context [hd NUL (Inverter.cli ?x)] =>
      replace (hd NUL (Inverter.cli x)) with "i"%char by reflexivity
  end.
  replace (Ascii.eqb "i" "i") with true by reflexivity.
  unfold Inverter.cmd_info, Inverter.Serial_print. cbv zeta. proj_simpl.
  rewrite drop_app_length. reflexivity.
Qed.

(** X21.  The master polls a module with one of the ids 0 to 3 that
    listens with an empty buffer, and what the module writes in answer
    arrives at the master, whose line buffer is empty: afterwards the slot
    of that module in the table of the master shows the state, the duty,
    the fan speed and the error code the module has.  The text of the
    floats is only assumed to consist of field bytes, at most ten; duty
    and fan speed are assumed to fit an [int]. *)
Theorem poll_answer_is_stored (r : Inverter.readings) (m : Inverter.inverter)
    (rx : Master.receiver) (g : Master.master) :
  (forall x : float, float_text (print_float x)) ->
  listening m -> Inverter.id m < Master.MODULES ->
  0 <= Inverter.pwm m < 32768 -> 0 <= Inverter.error_code m < 32768 ->
  let fan := wrap16 (fan_speed (Inverter.ticks m)) in
  0 <= fan < 32768 ->
  Master.pos rx = 0%nat -> length (Master.line g) = 80%nat ->
  length (Master.mod_st g) = 4%nat ->
  let m' := Inverter.serial_input print_float clock fan_speed r
              (Master.command "i" (Inverter.id m)) m in
  let reply := written (Inverter.serial_out m) (Inverter.serial_out m') in
  let t := Master.receive atof master_clock reply rx g in
  exists s : Master.module_status,
    Master.mod_st (snd t) !! Z.to_nat (Inverter.id m) = Some s /\
    reported m fan s.
Proof.
  intros Hf Hl Hlt Hpwm Herr fan Hfan H0 Hn Ht m' reply t.
  assert (Hid : 0 <= Inverter.id m <= 15) by apply Hl.
  unfold Master.MODULES in Hlt.
  assert (Hreply : reply = Inverter.info_line print_float r fan m
                           ++ Inverter.error_line m)
    by (apply poll_reply; exact Hl).
  set (i := Inverter.id m) in *.
  set (st := Inverter.fsm_code (Inverter.state m)) in *.
  assert (Hst : 0 <= st <= 5) by (subst st; destruct (Inverter.state m); cbn; lia).
  destruct (single_digit i) as [d Ed]; [lia |].
  destruct (single_digit st) as [ds Eds]; [lia |].
  destruct (digits_in_field i) as [Di1 Di2]; [lia |].
  destruct (digits_in_field st) as [Ds1 Ds2]; [lia |].
  destruct (digits_in_field (Inverter.pwm m)) as [Dp1 Dp2]; [lia |].
  destruct (digits_in_field fan) as [Df1 Df2]; [lia |].
  destruct (digits_in_field (Inverter.error_code m)) as [De1 De2]; [lia |].
  destruct (number_bytes (Inverter.pwm m)) as [_ Lp]; [lia |].
  destruct (number_bytes fan) as [_ Lf]; [lia |].
  destruct (number_bytes (Inverter.error_code m)) as [_ Le]; [lia |].
  destruct (float_in_field _ (Hf (Inverter.voltage r))) as (V1 & V2 & V3).
  destruct (float_in_field _ (Hf (Inverter.current r))) as (A1 & A2 & A3).
  destruct (float_in_field _ (Hf (Inverter.power r))) as (W1 & W2 & W3).
  destruct (float_in_field _ (Hf (Inverter.cap_voltage r)))
    as (C1 & C2 & C3).
  destruct (float_in_field _ (Hf (Inverter.temperature m)))
    as (T1 & T2 & T3).
  set (fv := print_float (Inverter.voltage r)) in *.
  set (fa := print_float (Inverter.current r)) in *.
  set (fw := print_float (Inverter.power r)) in *.
  set (fc := print_float (Inverter.cap_voltage r)) in *.
  set (ft := print_float (Inverter.temperature m)) in *.
  set (L1 := "i"%char :: ";"%char :: (d :: []) ++ ";"%char :: print_int st
               ++ ";"%char :: print_int (Inverter.pwm m)
               ++ ";"%char :: fv ++ ";"%char :: fa ++ ";"%char :: fw
               ++ ";"%char :: fc ++ ";"%char :: ft
               ++ ";"%char :: (print_int fan ++ [CR])).
  set (L2 := "e"%char :: ";"%char :: (d :: []) ++ ";"%char
               :: print_int (Inverter.error_code m) ++ ";"%char :: [CR]).
  assert (Hsplit : reply = (L1 ++ [LF]) ++ (L2 ++ [LF])).
  { rewrite Hreply. unfold Inverter.info_line, Inverter.error_line, println.
    fold i st fv fa fw fc ft. subst L1 L2. rewrite Ed.
    cbn [str list_ascii_of_string].
    repeat first [rewrite <- app_assoc | progress cbn [app]].
    reflexivity. }
  assert (Hatoi : forall rest, atoi ((d :: []) ++ ";"%char :: rest) = i).
  { intros rest. rewrite <- Ed. apply atoi_number; [lia | reflexivity]. }
  assert (Hd : Master.in_field d).
  { rewrite Ed in Di1. apply Forall_cons in Di1 as [H _]. exact H. }
  assert (HdLF : d <> LF).
  { rewrite Ed in Di2. apply Forall_cons in Di2 as [H _]. exact H. }
  destruct (lookup_lt_is_Some_2 (Master.mod_st g) (Z.to_nat i)) as [s0 Hs0];
    [lia |].
  subst t. rewrite Hsplit, MasterProofs.receive_app.
  destruct (MasterProofs.receive_info_line atof master_clock d []
              (print_int st) (print_int (Inverter.pwm m)) fv fa fw fc ft
              (print_int fan ++ [CR]) i rx g s0)
    as (P1 & P2 & s1 & r1 & r2 & r8 & Q1 & Q2 & Q3 & Q4 & Q5);
    try assumption.
  { constructor. }
  { unfold Master.MODULES. lia. }
  { fold L1. subst L1.
    repeat first [ apply Forall_cons; split | apply Forall_app; split
                 | apply Forall_nil | exact I | assumption | discriminate ]. }
  { fold L1. subst L1. rewrite Eds.
    repeat first [rewrite length_app | progress cbn [length app]]. lia. }
  cbv zeta in P1, P2, Q1. fold L1 in P1, P2, Q1.
  set (t1 := Master.receive atof master_clock (L1 ++ [LF]) rx g) in *.
  destruct (MasterProofs.receive_error_line atof master_clock d []
              (print_int (Inverter.error_code m)) [CR] i (fst t1) (snd t1) s1)
    as (_ & _ & s2 & r3 & R1 & R2 & R3 & R4 & R5);
    try assumption.
  { constructor. }
  { unfold Master.MODULES. lia. }
  { fold L2. subst L2.
    repeat first [ apply Forall_cons; split | apply Forall_app; split
                 | apply Forall_nil | exact I | assumption | discriminate ]. }
  { fold L2. subst L2.
    repeat first [rewrite length_app | progress cbn [length app]]. lia. }
  cbv zeta in R1. fold L2 in R1.
  exists s2. split; [exact R1 |].
  unfold reported. fold st.
  split; [rewrite R3, Q2; apply atoi_number; [lia | reflexivity] |].
  split; [rewrite R4, Q3; apply atoi_number; [lia | reflexivity] |].
  split; [| rewrite R2; apply atoi_number; [lia | reflexivity]].
  rewrite R5, Q4, <- app_assoc. cbn [app].
  apply atoi_number; [lia | reflexivity].
Qed.

End Telemetry.

Lemma poll_answer_is_stored_witness :
  let m := Inverter.fresh in
  let fan := wrap16 (Inverter.sample_fan (Inverter.ticks m)) in
  let m' := Inverter.serial_input Inverter.sample_print Inverter.sample_clock
              Inverter.sample_fan Inverter.sample_readings
              (Master.command "i" (Inverter.id m)) m in
  let reply := written (Inverter.serial_out m) (Inverter.serial_out m') in
  let t := Master.receive Master.sample_atof (fun k => Z.of_nat k) reply
             Master.receiver0 Master.boot in
  exists s : Master.module_status,
    Master.mod_st (snd t) !! Z.to_nat (Inverter.id m) = Some s /\
    reported m fan s.
Proof.
  apply (poll_answer_is_stored Inverter.sample_print Inverter.sample_clock
           Inverter.sample_fan Master.sample_atof (fun k => Z.of_nat k)
           Inverter.sample_readings Inverter.fresh Master.receiver0
           Master.boot).
  - intros x. split; [| vm_compute; lia].
    repeat constructor; discriminate.
  - vm_compute. repeat split; discriminate.
  - reflexivity.
  - vm_compute. split; [discriminate | reflexivity].
  - vm_compute. split; [discriminate | reflexivity].
  - vm_compute. split; [discriminate | reflexivity].
  - reflexivity.
  - reflexivity.
  - reflexivity.
Defined.

End WireProofs.
